(** * Stretch compensation filter (gcodeutils/stretch/stretch.py)

    A shallow embedding of the stretch filter: the two line iterators, the
    feature state machine driven by [parse_line], the threshold derivation of
    [parse_initialisation_line] and the 2-D stretch geometry.

    Conventions.
    - Python floats are read as real numbers ([R]); Python complex numbers
      as pairs of reals.  Rounding, infinities and NaN are outside the model.
    - Python exceptions are values of [exn]; a function that may raise
      returns a [res].  Loops that Python runs unboundedly ([while]) take a
      fuel argument and answer [OutOfFuel] when it is used up.
    - List indices are integers ([Z]) and [py_get] indexes as Python does:
      a negative index counts from the end, an index out of range raises
      [IndexError]. *)

From Stdlib Require Import String Ascii List ZArith Bool Lia Reals Lra Psatz.
Import ListNotations.

Open Scope string_scope.
Open Scope Z_scope.

(** ** Exceptions and results *)

Inductive exn : Type :=
| StopIteration
| IndexError
| AttributeError
| ZeroDivisionError
| ValueError.

Inductive res (A : Type) : Type :=
| Ret (a : A)
| Raise (e : exn)
| OutOfFuel.

Arguments Ret {A} a.
Arguments Raise {A} e.
Arguments OutOfFuel {A}.

Definition bind {A B : Type} (m : res A) (k : A -> res B) : res B :=
  match m with
  | Ret a => k a
  | Raise e => Raise e
  | OutOfFuel => OutOfFuel
  end.

Notation "x <- m ;; k" := (bind m (fun x => k))
  (at level 61, m at next level, right associativity).

(** ** Python sequences *)

(** [l[i]] *)
Definition py_get {A : Type} (l : list A) (i : Z) : res A :=
  let n := Z.of_nat (length l) in
  let j := if i <? 0 then i + n else i in
  if (0 <=? j) && (j <? n)
  then match nth_error l (Z.to_nat j) with
       | Some a => Ret a
       | None => Raise IndexError
       end
  else Raise IndexError.

(** [xrange(a, b)]: a, a+1, ..., b-1 *)
Definition xrange (a b : Z) : list Z :=
  map (fun k => a + Z.of_nat k) (seq 0 (Z.to_nat (b - a))).

(** [xrange(a, b, -1)]: a, a-1, ..., b+1 *)
Definition xrange_down (a b : Z) : list Z :=
  map (fun k => a - Z.of_nat k) (seq 0 (Z.to_nat (a - b))).

Definition len {A : Type} (l : list A) : Z := Z.of_nat (length l).

(** ** Lines

    [Line] comes from gcodeutils.gcoder; the filter reads three of its
    attributes: the text [raw], the command token [command] and the feed
    rate [f] ([None] when the line has no F word). *)

Record Line : Type := mkLine {
  raw : string;
  command : string;
  f : option R
}.

(** ** Line iterators

    A cursor is the state of a [LineIteratorBackward] or
    [LineIteratorForward] object.  A call of [getNext] returns the line and
    the cursor it leaves; a call that raises leaves none, since the filter
    drops an iterator once it has raised. *)

Record LineIterator : Type := mkIter {
  firstLineIndex : option Z;
  it_isLoop : bool;
  lineIndex : Z;
  lines : list Line
}.

Definition set_lineIndex (c : LineIterator) (i : Z) : LineIterator :=
  mkIter (firstLineIndex c) (it_isLoop c) i (lines c).

Definition set_firstLineIndex (c : LineIterator) (i : option Z) : LineIterator :=
  mkIter i (it_isLoop c) (lineIndex c) (lines c).

(** One turn of a [while] loop either goes round again or returns. *)
Inductive turn : Type :=
| Continue (c : LineIterator)
| Return (line : string) (c : LineIterator).

(** The two statements that open the body of both [getNext] loops:
    stop on meeting the first index again, record it when unset. *)
Definition check_first (c : LineIterator) : res LineIterator :=
  match firstLineIndex c with
  | Some i => if lineIndex c =? i then Raise StopIteration else Ret c
  | None => Ret (set_firstLineIndex c (Some (lineIndex c)))
  end.

Module LineIteratorBackward.

Definition __init__ (isLoop : bool) (lineIndex : Z) (lines : list Line) : LineIterator :=
  mkIter None isLoop lineIndex lines.

Fixpoint scanDeactivate (ls : list Line) (idxs : list Z) : res Z :=
  match idxs with
  | [] => Raise StopIteration
  | i :: rest =>
      l <- py_get ls i ;;
      if (command l =? "M103")%string then Ret (i - 2) else scanDeactivate ls rest
  end.

(** Index two lines before the next deactivate command. *)
Definition getIndexBeforeNextDeactivate (c : LineIterator) : res Z :=
  scanDeactivate (lines c) (xrange (lineIndex c + 1) (len (lines c))).

Fixpoint scanExtrusion (ls : list Line) (linearMoves : Z) (idxs : list Z) : res bool :=
  match idxs with
  | [] => Ret false
  | i :: rest =>
      l <- py_get ls i ;;
      let linearMoves := if (command l =? "G1")%string then linearMoves + 1 else linearMoves in
      if (command l =? "M101")%string then Ret (0 <? linearMoves)
      else if (command l =? "M103")%string then Ret false
      else scanExtrusion ls linearMoves rest
  end.

Definition isBeforeExtrusion (c : LineIterator) : res bool :=
  scanExtrusion (lines c) 0 (xrange (lineIndex c + 1) (len (lines c))).

(** Body of the [while self.lineIndex >= 0] loop. *)
Definition body (c : LineIterator) : res turn :=
  c <- check_first c ;;
  let nextLineIndex := lineIndex c - 1 in
  line <- py_get (lines c) (lineIndex c) ;;
  nextLineIndex <-
    (if (command line =? "M103")%string
     then if it_isLoop c then getIndexBeforeNextDeactivate c
          else Raise StopIteration
     else Ret nextLineIndex) ;;
  if (command line =? "G1")%string
  then
    before <- isBeforeExtrusion c ;;
    if before
    then if it_isLoop c
         then nextLineIndex <- getIndexBeforeNextDeactivate c ;;
              Ret (Continue (set_lineIndex c nextLineIndex))
         else Raise StopIteration
    else Ret (Return (raw line) (set_lineIndex c nextLineIndex))
  else Ret (Continue (set_lineIndex c nextLineIndex)).

Fixpoint loop (fuel : nat) (c : LineIterator) : res (string * LineIterator) :=
  match fuel with
  | O => OutOfFuel
  | S fuel =>
      if 0 <=? lineIndex c
      then
        t <- body c ;;
        match t with
        | Continue c => loop fuel c
        | Return line c => Ret (line, c)
        end
      else
        _ <- (if it_isLoop c then getIndexBeforeNextDeactivate c else Ret 0) ;;
        Raise StopIteration
  end.

(** Next line going backward, or [Raise StopIteration]. *)
Definition getNext (fuel : nat) (c : LineIterator) : res (string * LineIterator) :=
  c <- (if lineIndex c <? 1
        then if it_isLoop c
             then i <- getIndexBeforeNextDeactivate c ;; Ret (set_lineIndex c i)
             else Ret c
        else Ret c) ;;
  loop fuel c.

End LineIteratorBackward.

Module LineIteratorForward.

Definition __init__ := LineIteratorBackward.__init__.

Fixpoint scanActivate (ls : list Line) (idxs : list Z) : res Z :=
  match idxs with
  | [] => Raise StopIteration
  | i :: rest =>
      l <- py_get ls i ;;
      if (command l =? "M101")%string then Ret (i + 1) else scanActivate ls rest
  end.

(** Index just after the activate command. *)
Definition getIndexJustAfterActivate (c : LineIterator) : res Z :=
  scanActivate (lines c) (xrange_down (lineIndex c - 1) 0).

(** Body of the [while self.lineIndex < len(self.lines)] loop. *)
Definition body (c : LineIterator) : res turn :=
  c <- check_first c ;;
  let nextLineIndex := lineIndex c + 1 in
  line <- py_get (lines c) (lineIndex c) ;;
  nextLineIndex <-
    (if (command line =? "M103")%string
     then if it_isLoop c then getIndexJustAfterActivate c
          else Raise StopIteration
     else Ret nextLineIndex) ;;
  let c := set_lineIndex c nextLineIndex in
  if (command line =? "G1")%string then Ret (Return (raw line) c) else Ret (Continue c).

Fixpoint loop (fuel : nat) (c : LineIterator) : res (string * LineIterator) :=
  match fuel with
  | O => OutOfFuel
  | S fuel =>
      if lineIndex c <? len (lines c)
      then
        t <- body c ;;
        match t with
        | Continue c => loop fuel c
        | Return line c => Ret (line, c)
        end
      else Raise StopIteration
  end.

(** Next line going forward, or [Raise StopIteration]. *)
Definition getNext (fuel : nat) (c : LineIterator) : res (string * LineIterator) :=
  loop fuel c.

End LineIteratorForward.

(** ** Strings *)

(** [s.startswith(p)] *)
Definition startswith (s p : string) : bool := String.prefix p s.

(** [s.find(c)] for a one-character [c]: the first index, or -1. *)
Fixpoint find (s : string) (c : ascii) : Z :=
  match s with
  | EmptyString => -1
  | String a s' =>
      if Ascii.eqb a c then 0
      else let r := find s' c in if r <? 0 then -1 else r + 1
  end.

(** [s[:n]] for a non-negative [n] *)
Definition upto (s : string) (n : Z) : string := substring 0 (Z.to_nat n) s.

Definition isspace (c : ascii) : bool :=
  match nat_of_ascii c with
  | 9%nat | 10%nat | 11%nat | 12%nat | 13%nat | 32%nat => true
  | _ => false
  end.

(** [s.split()]: the maximal runs of non-blank characters.  [word] is the
    run being read. *)
Fixpoint split_from (word : option string) (s : string) : list string :=
  match s with
  | EmptyString => match word with Some w => [w] | None => [] end
  | String c s' =>
      if isspace c
      then match word with
           | Some w => w :: split_from None s'
           | None => split_from None s'
           end
      else split_from (Some (match word with
                             | Some w => w ++ String c EmptyString
                             | None => String c EmptyString
                             end)) s'
  end.

Definition split (s : string) : list string := split_from None s.

(** Get the first word of a split line. *)
Definition getFirstWord (splitLine : list string) : string :=
  if 0 <? len splitLine then nth 0 splitLine "" else "".

(** Get the split line before a bracket or semicolon. *)
Definition getSplitLineBeforeBracketSemicolon (line : string) : list string :=
  let line := if 0 <=? find line ";" then upto line (find line ";") else line in
  let bracketIndex := find line "(" in
  if 0 <? bracketIndex then split (upto line bracketIndex) else split line.

(** Index of the first word, from the second on, that starts with [letter];
    -1 when there is none. *)
Fixpoint scanWords (letter : ascii) (wordIndex : Z) (words : list string) : res Z :=
  match words with
  | [] => Ret (-1)
  | word :: rest =>
      match word with
      | EmptyString => Raise IndexError
      | String firstLetter _ =>
          if Ascii.eqb firstLetter letter then Ret wordIndex
          else scanWords letter (wordIndex + 1) rest
      end
  end.

Definition getIndexOfStartingWithSecond (letter : ascii) (splitLine : list string) : res Z :=
  scanWords letter 1 (tl splitLine).

(** ** Numbers, complex numbers and vectors *)

Definition Rltb (a b : R) : bool := if Rlt_dec a b then true else false.
Definition Rleb (a b : R) : bool := if Rle_dec a b then true else false.
Definition Reqb (a b : R) : bool := if Req_dec_T a b then true else false.

(** Python's [a / b] on floats *)
Definition div (a b : R) : res R :=
  if Reqb b 0 then Raise ZeroDivisionError else Ret (a / b)%R.

Record complex : Type := mkComplex { real : R; imag : R }.

Definition Czero : complex := mkComplex 0 0.
Definition Cadd (a b : complex) : complex :=
  mkComplex (real a + real b) (imag a + imag b).
Definition Csub (a b : complex) : complex :=
  mkComplex (real a - real b) (imag a - imag b).
Definition Cscale (k : R) (a : complex) : complex :=
  mkComplex (k * real a) (k * imag a).
Definition Cabs (a : complex) : R :=
  sqrt (real a * real a + imag a * imag a).

(** [a / k] for a complex [a] and a float [k] *)
Definition Cdiv (a : complex) (k : R) : res complex :=
  if Reqb k 0 then Raise ZeroDivisionError
  else Ret (mkComplex (real a / k) (imag a / k)).

(** Dot product of a pair of complexes. *)
Definition getDotProduct (firstComplex secondComplex : complex) : R :=
  (real firstComplex * real secondComplex + imag firstComplex * imag secondComplex)%R.

(** [Vector3] of the package's vector3 module: three floats, and [dropAxis]
    giving the complex number of the first two. *)
Record Vector3 : Type := mkVector3 { vx : R; vy : R; vz : R }.

Definition Vector3_default : Vector3 := mkVector3 0 0 0.
Definition dropAxis (v : Vector3) : complex := mkComplex (vx v) (vy v).

(** ** Settings *)

Record StretchRepository : Type := mkRepository {
  activateStretch : bool;
  crossLimitDistanceOverEdgeWidth : R;
  loopStretchOverEdgeWidth : R;
  pathStretchOverEdgeWidth : R;
  edgeInsideStretchOverEdgeWidth : R;
  edgeOutsideStretchOverEdgeWidth : R;
  stretchFromDistanceOverEdgeWidth : R
}.

Definition StretchRepository_default : StretchRepository :=
  mkRepository true 5 (11 / 100) 0 (32 / 100) (1 / 10) 2.

(** ** The filter's state *)

(** What the filter hands to its DistanceFeedRate (a module of the package
    that only formats and collects text): a line to copy, or the arguments
    of [getLinearGcodeMovementWithFeedRate]. *)
Inductive OutLine : Type :=
| Verbatim (text : string)
| LinearMove (feedRateMinute : R) (point : complex) (z : R).

(** The attributes that only [parse_initialisation_line] assigns, all in
    one block; before that block has run none of them exists. *)
Record Thresholds : Type := mkThresholds {
  crossLimitDistance : R;
  loopMaximumAbsoluteStretch : R;
  pathAbsoluteStretch : R;
  edgeInsideAbsoluteStretch : R;
  edgeOutsideAbsoluteStretch : R;
  stretchFromDistance : R;
  crossLimitDistanceFraction : R;
  crossLimitDistanceRemainder : R
}.

Record StretchFilter : Type := mkFilter {
  output : list OutLine;
  edgeWidth : R;
  extruderActive : bool;
  feedRateMinute : R;
  isLoop : bool;
  oldLocation : option Vector3;
  current_layer : list Line;
  line_number_in_layer : Z;
  stretchRepository : StretchRepository;
  thread_maximum_absolute_stretch : R;
  thresholds : option Thresholds
}.

Definition StretchFilter__init__ (repository : StretchRepository) : StretchFilter :=
  mkFilter [] (4 / 10) false 959 false None [] 0 repository 0 None.

(** Reading an attribute of the threshold block. *)
Definition attr (self : StretchFilter) (field : Thresholds -> R) : res R :=
  match thresholds self with
  | Some t => Ret (field t)
  | None => Raise AttributeError
  end.

Definition addLine (self : StretchFilter) (o : OutLine) : StretchFilter :=
  mkFilter (output self ++ [o]) (edgeWidth self) (extruderActive self)
    (feedRateMinute self) (isLoop self) (oldLocation self) (current_layer self)
    (line_number_in_layer self) (stretchRepository self)
    (thread_maximum_absolute_stretch self) (thresholds self).

Definition set_extruderActive (self : StretchFilter) (b : bool) : StretchFilter :=
  mkFilter (output self) (edgeWidth self) b
    (feedRateMinute self) (isLoop self) (oldLocation self) (current_layer self)
    (line_number_in_layer self) (stretchRepository self)
    (thread_maximum_absolute_stretch self) (thresholds self).

Definition set_feedRateMinute (self : StretchFilter) (r : R) : StretchFilter :=
  mkFilter (output self) (edgeWidth self) (extruderActive self)
    r (isLoop self) (oldLocation self) (current_layer self)
    (line_number_in_layer self) (stretchRepository self)
    (thread_maximum_absolute_stretch self) (thresholds self).

Definition set_oldLocation (self : StretchFilter) (v : Vector3) : StretchFilter :=
  mkFilter (output self) (edgeWidth self) (extruderActive self)
    (feedRateMinute self) (isLoop self) (Some v) (current_layer self)
    (line_number_in_layer self) (stretchRepository self)
    (thread_maximum_absolute_stretch self) (thresholds self).

Definition set_position (self : StretchFilter) (layer : list Line) (n : Z) : StretchFilter :=
  mkFilter (output self) (edgeWidth self) (extruderActive self)
    (feedRateMinute self) (isLoop self) (oldLocation self) layer
    n (stretchRepository self)
    (thread_maximum_absolute_stretch self) (thresholds self).

(** [self.isLoop = b; self.thread_maximum_absolute_stretch = m] *)
Definition set_stretch (self : StretchFilter) (b : bool) (m : R) : StretchFilter :=
  mkFilter (output self) (edgeWidth self) (extruderActive self)
    (feedRateMinute self) b (oldLocation self) (current_layer self)
    (line_number_in_layer self) (stretchRepository self)
    m (thresholds self).

Definition set_thresholds (self : StretchFilter) (m : R) (t : Thresholds) : StretchFilter :=
  mkFilter (output self) (edgeWidth self) (extruderActive self)
    (feedRateMinute self) (isLoop self) (oldLocation self) (current_layer self)
    (line_number_in_layer self) (stretchRepository self)
    m (Some t).

(** ** Iterators as the filter uses them: one [getNext], two classes *)

Inductive direction : Type := Forward | Backward.

Definition getNext (d : direction) (fuel : nat) (c : LineIterator)
  : res (string * LineIterator) :=
  match d with
  | Forward => LineIteratorForward.getNext fuel c
  | Backward => LineIteratorBackward.getNext fuel c
  end.

(** ** The edge width pattern [\(<edgeWidth> ([\.\d]+)] *)

Definition isDotOrDigit (c : ascii) : bool :=
  Ascii.eqb c "." || ((48 <=? nat_of_ascii c)%nat && (nat_of_ascii c <=? 57)%nat).

Fixpoint takeWhile (p : ascii -> bool) (s : string) : string :=
  match s with
  | EmptyString => EmptyString
  | String c s' => if p c then String c (takeWhile p s') else EmptyString
  end.

(** [EDGE_WIDTH_REGEXP.match(s)]: the text of group 1, or [None]. *)
Definition EDGE_WIDTH_REGEXP_match (s : string) : option string :=
  if startswith s "(<edgeWidth> "
  then match takeWhile isDotOrDigit (substring 13 (String.length s - 13) s) with
       | EmptyString => None
       | group1 => Some group1
       end
  else None.

(** ** The filter *)

Section Filter.

(** Python's [float] on a string; [None] stands for [ValueError]. *)
Variable float : string -> option R.

(** The double after the first occurrence of the character in the split
    line; [None] when there is none or it does not parse. *)
Definition getDoubleFromCharacterSplitLine (character : ascii) (splitLine : list string)
  : res (option R) :=
  indexOfCharacter <- getIndexOfStartingWithSecond character splitLine ;;
  if indexOfCharacter <? 0 then Ret None
  else
    word <- py_get splitLine indexOfCharacter ;;
    let floatString := match word with
                       | String _ rest => rest
                       | EmptyString => EmptyString
                       end in
    Ret (float floatString).

Definition getDoubleFromCharacterSplitLineValue
  (character : ascii) (splitLine : list string) (value : R) : res R :=
  splitLineFloat <- getDoubleFromCharacterSplitLine character splitLine ;;
  match splitLineFloat with
  | None => Ret value
  | Some v => Ret v
  end.

(** The location from the split line, on top of the old one. *)
Definition getLocationFromSplitLine (oldLocation : option Vector3) (splitLine : list string)
  : res Vector3 :=
  let oldLocation := match oldLocation with
                     | None => Vector3_default
                     | Some v => v
                     end in
  x <- getDoubleFromCharacterSplitLineValue "X" splitLine (vx oldLocation) ;;
  y <- getDoubleFromCharacterSplitLineValue "Y" splitLine (vy oldLocation) ;;
  z <- getDoubleFromCharacterSplitLineValue "Z" splitLine (vz oldLocation) ;;
  Ret (mkVector3 x y z).

(** Cross limited relative stretch for a location. *)
Definition getCrossLimitedStretch (fuel : nat) (self : StretchFilter)
  (crossLimitedStretch : complex) (d : direction) (crossLineIterator : LineIterator)
  (locationComplex : complex) : res complex :=
  match getNext d fuel crossLineIterator with
  | Raise StopIteration => Ret crossLimitedStretch
  | Raise e => Raise e
  | OutOfFuel => OutOfFuel
  | Ret (line, _) =>
      let splitLine := getSplitLineBeforeBracketSemicolon line in
      point <- getLocationFromSplitLine (oldLocation self) splitLine ;;
      let pointComplex := dropAxis point in
      let pointMinusLocation := Csub locationComplex pointComplex in
      let pointMinusLocationLength := Cabs pointMinusLocation in
      fraction <- attr self crossLimitDistanceFraction ;;
      if Rleb pointMinusLocationLength fraction then Ret crossLimitedStretch
      else
        parallelNormal <- Cdiv pointMinusLocation pointMinusLocationLength ;;
        let parallelStretch :=
          Cscale (getDotProduct parallelNormal crossLimitedStretch) parallelNormal in
        limit <- attr self crossLimitDistance ;;
        if Rltb limit pointMinusLocationLength then Ret parallelStretch
        else
          let crossNormal := mkComplex (imag parallelNormal) (- real parallelNormal) in
          let crossStretch :=
            Cscale (getDotProduct crossNormal crossLimitedStretch) crossNormal in
          remainder <- attr self crossLimitDistanceRemainder ;;
          crossPortion <- div (limit - pointMinusLocationLength) remainder ;;
          Ret (Cadd parallelStretch (Cscale crossPortion crossStretch))
  end.

(** The [while 1] loop of [getRelativeStretch]; [n] bounds its turns. *)
Fixpoint getRelativeStretch_loop (n fuel : nat) (self : StretchFilter)
  (locationComplex : complex) (d : direction) (lineIterator : LineIterator)
  (lastLocationComplex : complex) (oldTotalLength : R) (pointComplex : complex)
  (totalLength : R) : res complex :=
  match n with
  | O => OutOfFuel
  | S n =>
      match getNext d fuel lineIterator with
      | Raise StopIteration =>
          let locationMinusPoint := Csub locationComplex pointComplex in
          let locationMinusPointLength := Cabs locationMinusPoint in
          if Rltb 0 locationMinusPointLength
          then Cdiv locationMinusPoint locationMinusPointLength
          else Ret Czero
      | Raise e => Raise e
      | OutOfFuel => OutOfFuel
      | Ret (line, lineIterator) =>
          let splitLine := getSplitLineBeforeBracketSemicolon line in
          firstWord <- py_get splitLine 0 ;;
          point <- getLocationFromSplitLine (oldLocation self) splitLine ;;
          let pointComplex := dropAxis point in
          let locationMinusPoint := Csub lastLocationComplex pointComplex in
          let locationMinusPointLength := Cabs locationMinusPoint in
          let totalLength := (totalLength + locationMinusPointLength)%R in
          stretchFromDistance <- attr self stretchFromDistance ;;
          if Rleb stretchFromDistance totalLength
          then
            distanceFromRatio <-
              div (stretchFromDistance - oldTotalLength) locationMinusPointLength ;;
            let totalPoint :=
              Cadd (Cscale distanceFromRatio pointComplex)
                   (Cscale (1 - distanceFromRatio) lastLocationComplex) in
            let locationMinusTotalPoint := Csub locationComplex totalPoint in
            Cdiv locationMinusTotalPoint stretchFromDistance
          else
            getRelativeStretch_loop n fuel self locationComplex d lineIterator
              pointComplex totalLength pointComplex totalLength
      end
  end.

(** Relative stretch for a location. *)
Definition getRelativeStretch (fuel : nat) (self : StretchFilter)
  (locationComplex : complex) (d : direction) (lineIterator : LineIterator)
  : res complex :=
  getRelativeStretch_loop fuel fuel self locationComplex d lineIterator
    locationComplex 0 locationComplex 0.

(** Stretched gcode line from line index and location. *)
Definition getStretchedLineFromIndexLocation (fuel : nat) (self : StretchFilter)
  (indexPreviousStart indexNextStart : Z) (location : Vector3) : res OutLine :=
  let crossIteratorForward :=
    LineIteratorForward.__init__ (isLoop self) indexNextStart (current_layer self) in
  let crossIteratorBackward :=
    LineIteratorBackward.__init__ (isLoop self) indexPreviousStart (current_layer self) in
  let iteratorForward :=
    LineIteratorForward.__init__ (isLoop self) indexNextStart (current_layer self) in
  let iteratorBackward :=
    LineIteratorBackward.__init__ (isLoop self) indexPreviousStart (current_layer self) in
  let locationComplex := dropAxis location in
  forwardStretch <- getRelativeStretch fuel self locationComplex Forward iteratorForward ;;
  backwardStretch <- getRelativeStretch fuel self locationComplex Backward iteratorBackward ;;
  let relativeStretch := Cadd forwardStretch backwardStretch in
  let relativeStretch := Cscale (8 / 10) relativeStretch in
  relativeStretch <-
    getCrossLimitedStretch fuel self relativeStretch Forward crossIteratorForward
      locationComplex ;;
  relativeStretch <-
    getCrossLimitedStretch fuel self relativeStretch Backward crossIteratorBackward
      locationComplex ;;
  let relativeStretchLength := Cabs relativeStretch in
  relativeStretch <-
    (if Rltb 1 relativeStretchLength
     then Cdiv relativeStretch relativeStretchLength
     else Ret relativeStretch) ;;
  let absoluteStretch :=
    Cscale (thread_maximum_absolute_stretch self) relativeStretch in
  let stretchedPoint := Cadd (dropAxis location) absoluteStretch in
  Ret (LinearMove (feedRateMinute self) stretchedPoint (vz location)).

Fixpoint scanJustBefore (ls : list Line) : bool :=
  match ls with
  | [] => false
  | line :: rest =>
      if ((command line =? "G1") || (command line =? "M103"))%string then false
      else if (command line =? "M101")%string then true
      else scanJustBefore rest
  end.

(** Is the activate command before the next linear move command? *)
Definition isJustBeforeExtrusion (self : StretchFilter) : bool :=
  scanJustBefore
    (skipn (Z.to_nat (line_number_in_layer self + 1)) (current_layer self)).

(** [line.f or self.feedRateMinute] *)
Definition f_or (lineF : option R) (feedRateMinute : R) : R :=
  match lineF with
  | None => feedRateMinute
  | Some v => if Reqb v 0 then feedRateMinute else v
  end.

(** Stretched gcode line. *)
Definition getStretchedLine (fuel : nat) (self : StretchFilter)
  (splitLine : list string) (line : Line) : res (OutLine * StretchFilter) :=
  location <- getLocationFromSplitLine (oldLocation self) splitLine ;;
  let self := set_feedRateMinute self (f_or (f line) (feedRateMinute self)) in
  let self := set_oldLocation self location in
  if extruderActive self && Rltb 0 (thread_maximum_absolute_stretch self)
  then
    o <- getStretchedLineFromIndexLocation fuel self
           (line_number_in_layer self - 1) (line_number_in_layer self + 1) location ;;
    Ret (o, self)
  else if isJustBeforeExtrusion self && Rltb 0 (thread_maximum_absolute_stretch self)
  then
    o <- getStretchedLineFromIndexLocation fuel self
           (line_number_in_layer self - 1) (line_number_in_layer self + 1) location ;;
    Ret (o, self)
  else Ret (Verbatim (raw line), self).

(** The call [self.distanceFeedRate.parseSplitLine(line.raw)] that opens the
    function only sets up the formatter and is left out.  [edgeWidth'] is
    the local variable [edgeWidth], [edgeWidth self] the attribute
    [self.edgeWidth]. *)
Definition parse_initialisation_line (self : StretchFilter) (line : Line)
  : res (bool * StretchFilter) :=
  if (raw line =? "(</extruderInitialization>)")%string then Ret (true, self)
  else
    self <-
      match EDGE_WIDTH_REGEXP_match (raw line) with
      | Some group1 =>
          match float group1 with
          | None => Raise ValueError
          | Some edgeWidth' =>
              let repository := stretchRepository self in
              let crossLimitDistance :=
                (edgeWidth self * crossLimitDistanceOverEdgeWidth repository)%R in
              let loopMaximumAbsoluteStretch :=
                (edgeWidth self * loopStretchOverEdgeWidth repository)%R in
              let pathAbsoluteStretch :=
                (edgeWidth self * pathStretchOverEdgeWidth repository)%R in
              let edgeInsideAbsoluteStretch :=
                (edgeWidth self * edgeInsideStretchOverEdgeWidth repository)%R in
              let edgeOutsideAbsoluteStretch :=
                (edgeWidth self * edgeOutsideStretchOverEdgeWidth repository)%R in
              let stretchFromDistance :=
                (stretchFromDistanceOverEdgeWidth repository * edgeWidth')%R in
              let crossLimitDistanceFraction :=
                (333333333 / 1000000000 * crossLimitDistance)%R in
              let crossLimitDistanceRemainder :=
                (crossLimitDistance - crossLimitDistanceFraction)%R in
              Ret (set_thresholds self pathAbsoluteStretch
                     (mkThresholds crossLimitDistance loopMaximumAbsoluteStretch
                        pathAbsoluteStretch edgeInsideAbsoluteStretch
                        edgeOutsideAbsoluteStretch stretchFromDistance
                        crossLimitDistanceFraction crossLimitDistanceRemainder))
          end
      | None => Ret self
      end ;;
    Ret (false, addLine self (Verbatim (raw line))).

(** Set the thread stretch to path stretch and is loop false. *)
Definition set_stretch_to_path (self : StretchFilter) : res StretchFilter :=
  pathAbsoluteStretch <- attr self pathAbsoluteStretch ;;
  Ret (set_stretch self false pathAbsoluteStretch).

Definition is_loop_begin (line : Line) : bool := startswith (raw line) "(<loop>".
Definition is_loop_end (line : Line) : bool := startswith (raw line) "(</loop>)".
Definition is_inner_edge_begin (line : Line) : bool :=
  startswith (raw line) "(<edge>" && negb (startswith (raw line) "(<edge> outer").
Definition is_outer_edge_begin (line : Line) : bool :=
  startswith (raw line) "(<edge> outer".
Definition is_edge_end (line : Line) : bool := startswith (raw line) "(/edge>)".

(** Parse a gcode line and add it to the stretch skein. *)
Definition parse_line (fuel : nat) (self : StretchFilter) (line : Line)
  : res StretchFilter :=
  let splitLine := getSplitLineBeforeBracketSemicolon (raw line) in
  command <- py_get splitLine 0 ;;
  if (command =? "G1")%string
  then
    r <- getStretchedLine fuel self splitLine line ;;
    Ret (addLine (snd r) (fst r))
  else
    self <-
      (if (command =? "M101")%string then Ret (set_extruderActive self true)
       else if (command =? "M103")%string
            then set_stretch_to_path (set_extruderActive self false)
       else if is_loop_begin line
            then m <- attr self loopMaximumAbsoluteStretch ;; Ret (set_stretch self true m)
       else if is_loop_end line then set_stretch_to_path self
       else if is_inner_edge_begin line
            then m <- attr self edgeInsideAbsoluteStretch ;; Ret (set_stretch self true m)
       else if is_outer_edge_begin line
            then m <- attr self edgeOutsideAbsoluteStretch ;; Ret (set_stretch self true m)
       else if is_edge_end line then set_stretch_to_path self
       else Ret self) ;;
    Ret (addLine self (Verbatim (raw line))).

(** The inner [for] of [filter]: the lines of one layer, numbered from [n]. *)
Fixpoint filter_lines (fuel : nat) (layer : list Line) (n : Z) (rest : list Line)
  (init_done : bool) (self : StretchFilter) : res (bool * StretchFilter) :=
  match rest with
  | [] => Ret (init_done, self)
  | line :: rest =>
      let self := set_position self layer n in
      r <- (if init_done
            then self <- parse_line fuel self line ;; Ret (init_done, self)
            else parse_initialisation_line self line) ;;
      filter_lines fuel layer (n + 1) rest (fst r) (snd r)
  end.

Fixpoint filter_layers (fuel : nat) (all_layers : list (list Line))
  (init_done : bool) (self : StretchFilter) : res StretchFilter :=
  match all_layers with
  | [] => Ret self
  | layer :: rest =>
      r <- filter_lines fuel layer 0 layer init_done self ;;
      filter_layers fuel rest (fst r) (snd r)
  end.

(** [filter], from the layers that gcoder's [GCode] has made of the text
    to what the DistanceFeedRate has collected. *)
Definition filter (fuel : nat) (self : StretchFilter) (all_layers : list (list Line))
  : res (list OutLine) :=
  self <- filter_layers fuel all_layers false self ;;
  Ret (output self).

End Filter.

(** ** A reading of decimal literals

    [float_decimal] reads an optional minus sign, digits and at most one
    point, as Python's [float] does on such text.  Python's [float] accepts
    more (exponents, blanks, infinities); the general theorems below are
    stated for any reading [float], the worked inputs use this one. *)

Definition digit (c : ascii) : option Z :=
  let n := nat_of_ascii c in
  if ((48 <=? n) && (n <=? 57))%nat then Some (Z.of_nat (n - 48)) else None.

Fixpoint decimal_from (seenPoint : bool) (mantissa : Z) (places : nat) (any : bool)
  (s : string) : option (Z * nat) :=
  match s with
  | EmptyString => if any then Some (mantissa, places) else None
  | String c s' =>
      if Ascii.eqb c "."
      then if seenPoint then None else decimal_from true mantissa places any s'
      else match digit c with
           | Some d => decimal_from seenPoint (10 * mantissa + d)
                         (if seenPoint then S places else places) true s'
           | None => None
           end
  end.

Definition float_decimal (s : string) : option R :=
  let (negative, body) :=
    match s with
    | String "-" rest => (true, rest)
    | _ => (false, s)
    end in
  match decimal_from false 0 0 false body with
  | Some (mantissa, places) =>
      Some (IZR (if negative then - mantissa else mantissa) / IZR (10 ^ Z.of_nat places))%R
  | None => None
  end.

(** A line of text with its command token, without a feed rate. *)
Definition ln (cmd text : string) : Line := mkLine text cmd None.

(** Evaluation that leaves the operations on reals in place. *)
Ltac run :=
  lazy -[Rplus Rmult Rminus Rdiv Rinv Ropp IZR sqrt Rltb Rleb Reqb
         Rlt_dec Rle_dec Req_dec_T Cabs].


(** ** Notions used to state the properties *)

(** The thresholds carry the two derived cross limit distances as
    [parse_initialisation_line] computes them. *)
Definition derived (t : Thresholds) : Prop :=
  crossLimitDistanceFraction t = (333333333 / 1000000000 * crossLimitDistance t)%R
  /\ crossLimitDistanceRemainder t
     = (crossLimitDistance t - crossLimitDistanceFraction t)%R.

Section Walk.
Variable float : string -> option R.
Variable fuel : nat.
Variable self : StretchFilter.
Variable d : direction.

(** The next point of a walk, as [getRelativeStretch] reads it off the
    iterator: the next line, split, and its location dropped to 2-D. *)
Definition nextPoint (lineIterator : LineIterator) : res (complex * LineIterator) :=
  r <- getNext d fuel lineIterator ;;
  let splitLine := getSplitLineBeforeBracketSemicolon (fst r) in
  firstWord <- py_get splitLine 0 ;;
  point <- getLocationFromSplitLine float (oldLocation self) splitLine ;;
  Ret (dropAxis point, snd r).

(** [walks it pts it']: from [it] the iterator yields the points [pts] in
    turn and is left as [it']. *)
Inductive walks : LineIterator -> list complex -> LineIterator -> Prop :=
| walks_nil it : walks it [] it
| walks_cons it p it1 pts it2 :
    nextPoint it = Ret (p, it1) -> walks it1 pts it2 -> walks it (p :: pts) it2.

End Walk.

(** Length of the polyline from [from] through [pts]. *)
Fixpoint pathLength (from : complex) (pts : list complex) : R :=
  match pts with
  | [] => 0
  | p :: rest => Cabs (Csub from p) + pathLength p rest
  end.

(** ** Cursors on a loop *)

(** The command at index [i], the empty text where there is no line. *)
Definition cmdAt (ls : list Line) (i : Z) : string :=
  match py_get ls i with
  | Ret l => command l
  | _ => ""
  end.

Definition isMove (ls : list Line) (i : Z) : bool := (cmdAt ls i =? "G1")%string.

(** Number of linear moves at the indices [a], ..., [b - 1]. *)
Definition moves (ls : list Line) (a b : Z) : nat :=
  length (List.filter (isMove ls) (xrange a b)).

(** Does one of the first [k] calls of [getNext] raise [StopIteration],
    the calls before it returning lines? *)
Fixpoint exhausted_within (d : direction) (fuel : nat) (k : nat) (c : LineIterator) : bool :=
  match k with
  | O => false
  | S k =>
      match getNext d fuel c with
      | Raise StopIteration => true
      | Ret (_, c) => exhausted_within d fuel k c
      | _ => false
      end
  end.

(** No activate or deactivate command strictly between [a] and [b]. *)
Definition quiet (ls : list Line) (a b : Z) : Prop :=
  forall i, a < i < b -> cmdAt ls i <> "M101" /\ cmdAt ls i <> "M103".

(** A loop: the activate command at [A], the deactivate command at [D],
    and neither in between. *)
Definition loop_at (ls : list Line) (A D : Z) : Prop :=
  0 <= A /\ A < D < len ls /\ cmdAt ls A = "M101" /\ cmdAt ls D = "M103"
  /\ quiet ls A D.

(** What is left of a run of calls after one call's result [r]: is the
    cursor exhausted within [k] more calls? *)
Definition exhausts (d : direction) (fuel : nat) (k : nat)
  (r : res (string * LineIterator)) : bool :=
  match r with
  | Raise StopIteration => true
  | Ret (_, c) => exhausted_within d fuel k c
  | _ => false
  end.

(** The first index as a turn of either loop leaves it. *)
Definition next_first (fi : option Z) (i : Z) : option Z :=
  match fi with
  | None => Some i
  | _ => fi
  end.

(** Measures for a forward cursor at index [i] of the loop between [A] and
    [D] that started at [s]: the turns left before it meets [s] again, and
    the linear moves on the way. *)
Definition forward_turns_left (A D s i : Z) : Z :=
  if i <=? s then s - i else (D - i + 1) + (s - A - 1).

Definition forward_moves_left (ls : list Line) (A D s i : Z) : nat :=
  if i <=? s then moves ls i s else Nat.add (moves ls i D) (moves ls (A + 1) s).

(** The same for a backward cursor; [B] is the index of the deactivate
    command before the loop, or -1. *)
Definition backward_turns_left (B D s i : Z) : Z :=
  if i =? s then 0
  else if s <? i then i - s
       else (i - B) + 1 + (D - 2 - s).

Definition backward_moves_left (ls : list Line) (A B D s i : Z) : nat :=
  if i =? s then O
  else if s <? i then moves ls (s + 1) (i + 1)
       else Nat.add
              (if A <=? i then S (moves ls (A + 1) (i + 1))
               else if Nat.eqb (moves ls (i + 1) A) 0 then 1%nat else 0%nat)
              (moves ls (s + 1) (D - 1)).

(** ** Notions used to state the properties of whole lines, cursors
       and programs *)

(** [c in s] *)
Fixpoint occurs (c : ascii) (s : string) : bool :=
  match s with
  | EmptyString => false
  | String a s' => Ascii.eqb a c || occurs c s'
  end.

(** A word as [str.split] makes them: not empty and without blanks. *)
Definition wordlike (w : string) : Prop :=
  w <> "" /\ forall c, occurs c w = true -> isspace c = false.

(** The text that [getSplitLineBeforeBracketSemicolon] splits: the line up
    to its first semicolon. *)
Definition beforeSemicolon (line : string) : string :=
  if 0 <=? find line ";" then upto line (find line ";") else line.

(** A text of blanks only. *)
Definition blank (s : string) : Prop := forall c, occurs c s = true -> isspace c = true.

(** No word of [words] starts with [letter], and none is empty. *)
Definition noneStartsWith (letter : ascii) (words : list string) : Prop :=
  forall w, In w words -> exists a w', w = String a w' /\ a <> letter.

(** The indices at which the filter creates its cursors, and at which a
    call leaves them: a forward cursor is never below 0, a backward cursor
    is between -1 and the last line. *)
Definition in_range (d : direction) (c : LineIterator) : Prop :=
  match d with
  | Forward => 0 <= lineIndex c
  | Backward => -1 <= lineIndex c < len (lines c)
  end.

(** What a call keeps of a cursor: the lines, the loop flag, and the first
    index once it is set. *)
Definition keeps (c c' : LineIterator) : Prop :=
  lines c' = lines c /\ it_isLoop c' = it_isLoop c
  /\ forall j, firstLineIndex c = Some j -> firstLineIndex c' = Some j.

(** The lines a cursor returns until it is exhausted, as the walks of the
    filter consume it; [k] bounds their number. *)
Fixpoint drain (d : direction) (fuel k : nat) (c : LineIterator) : res (list string) :=
  match k with
  | O => OutOfFuel
  | S k =>
      match getNext d fuel c with
      | Raise StopIteration => Ret []
      | Raise e => Raise e
      | OutOfFuel => OutOfFuel
      | Ret (line, c) => rest <- drain d fuel k c ;; Ret (line :: rest)
      end
  end.

(** The texts of the linear moves of [ls] before its first deactivate
    command. *)
Fixpoint thread (ls : list Line) : list string :=
  match ls with
  | [] => []
  | l :: rest =>
      if (command l =? "M103")%string then []
      else if (command l =? "G1")%string then raw l :: thread rest
      else thread rest
  end.

(** The cursor after [k] calls of [getNext] that all return a line. *)
Fixpoint after_calls (d : direction) (fuel k : nat) (c : LineIterator) : res LineIterator :=
  match k with
  | O => Ret c
  | S k => r <- getNext d fuel c ;; after_calls d fuel k (snd r)
  end.

(** Turns of the forward loop from index [i] until the linear move at [g]
    is returned, on the loop between [A] and [D]. *)
Definition forward_turns_to (A D g i : Z) : Z :=
  if i <=? g then g - i else (D - i + 1) + (g - A - 1).

(** A forward cursor first created at [s], before a loop that ends at [D]:
    it has just been created, or it has set its first index to [s] and is
    beyond it. *)
Definition approaching (D s : Z) (fi : option Z) (i : Z) : Prop :=
  (fi = None /\ i = s) \/ (fi = Some s /\ s < i <= D).

(** Every linear move of the layer has a word. *)
Definition moves_have_words (layer : list Line) : Prop :=
  forall l, In l layer -> command l = "G1" ->
    getSplitLineBeforeBracketSemicolon (raw l) <> [].

(** A result that is no exception. *)
Definition raises_nothing {A : Type} (r : res A) : Prop :=
  forall e, r <> Raise e.

(** The line that ends the initialisation. *)
Definition is_initialisation_end (line : Line) : bool :=
  (raw line =? "(</extruderInitialization>)")%string.

(** The lines of a program that get a line of output: all but the line
    that ends the initialisation. *)
Fixpoint kept (init_done : bool) (ls : list Line) : list Line :=
  match ls with
  | [] => []
  | l :: rest =>
      if init_done then l :: kept true rest
      else if is_initialisation_end l then kept true rest
      else l :: kept false rest
  end.

(** What the filter may put out for a line: the line itself, or a linear
    move if its first word is G1. *)
Inductive emitted (line : Line) : OutLine -> Prop :=
| emitted_copy : emitted line (Verbatim (raw line))
| emitted_move fr p z :
    py_get (getSplitLineBeforeBracketSemicolon (raw line)) 0 = Ret "G1" ->
    emitted line (LinearMove fr p z).

Definition copy (line : Line) : OutLine := Verbatim (raw line).

(** The state in which no move is stretched and none will be until a loop
    or an edge begins: the maximum stretch in force is 0 and so is the
    path stretch, stored or still to be derived. *)
Definition at_rest (self : StretchFilter) : Prop :=
  thread_maximum_absolute_stretch self = 0%R
  /\ (forall t, thresholds self = Some t -> pathAbsoluteStretch t = 0%R)
  /\ pathStretchOverEdgeWidth (stretchRepository self) = 0%R.

(** No line of [ls] opens a loop or an edge. *)
Definition plain (ls : list Line) : Prop :=
  forall l, In l ls ->
    is_loop_begin l = false /\ is_inner_edge_begin l = false
    /\ is_outer_edge_begin l = false.

(** [m] is one of the four maximum stretches of [t]. *)
Definition stretch_of_kind (t : Thresholds) (m : R) : Prop :=
  m = pathAbsoluteStretch t \/ m = loopMaximumAbsoluteStretch t
  \/ m = edgeInsideAbsoluteStretch t \/ m = edgeOutsideAbsoluteStretch t.

(** The old location as [getLocationFromSplitLine] reads it. *)
Definition location_or_origin (oldLocation : option Vector3) : Vector3 :=
  match oldLocation with
  | None => Vector3_default
  | Some v => v
  end.

(** ** Worked inputs *)

(** The thresholds of the default settings and edge width 0.4. *)
Definition thresholds_default : Thresholds :=
  mkThresholds (4 / 10 * 5) (4 / 10 * (11 / 100)) (4 / 10 * 0) (4 / 10 * (32 / 100))
    (4 / 10 * (1 / 10)) (2 * (4 / 10)) (333333333 / 1000000000 * (4 / 10 * 5))
    (4 / 10 * 5 - 333333333 / 1000000000 * (4 / 10 * 5)).

(** A travel move, the activate command and one extruded move. *)
Definition straight_layer : list Line :=
  [ ln "G1" "G1 X0 Y0"; ln "M101" "M101"; ln "G1" "G1 X1 Y0" ].

(** The filter on the last line of [straight_layer], extruding a path with a
    path stretch of 0.1. *)
Definition straight_state : StretchFilter :=
  mkFilter [] (4 / 10) true 959 false (Some (mkVector3 0 0 0)) straight_layer 2
    StretchRepository_default (1 / 10) (Some thresholds_default).

(** A loop move at height 0.2 with nothing around it. *)
Definition lone_layer : list Line :=
  [ ln "M101" "M101"; ln "G1" "G1 X1 Y1 Z0.2" ].

Definition lone_state : StretchFilter :=
  mkFilter [] (4 / 10) true 959 true None lone_layer 1
    StretchRepository_default (4 / 10 * (11 / 100)) (Some thresholds_default).

(** An activate command at index 0, two moves and the deactivate command. *)
Definition activate_first : list Line :=
  [ ln "M101" "M101"; ln "G1" "G1 X1 Y0"; ln "G1" "G1 X1 Y1"; ln "M103" "M103" ].

(** Two moves at a right angle, each 0.4 long: together the lookahead
    distance 0.8 of [thresholds_default]. *)
Definition bent_layer : list Line :=
  [ ln "G1" "G1 X0.4 Y0"; ln "G1" "G1 X0.4 Y0.4" ].

Definition bent_state : StretchFilter :=
  mkFilter [] (4 / 10) true 959 false (Some (mkVector3 0 0 0)) bent_layer 0
    StretchRepository_default (1 / 10) (Some thresholds_default).

(** A neighbouring point at distance 1 from the origin, and one at 1.5:
    both between the cross limit fraction 0.667 and the cross limit
    distance 2 of [thresholds_default]. *)
Definition near_layer : list Line := [ ln "G1" "G1 X1 Y0" ].
Definition far_layer : list Line := [ ln "G1" "G1 X1.5 Y0" ].

Definition cross_state (layer : list Line) : StretchFilter :=
  mkFilter [] (4 / 10) true 959 false (Some (mkVector3 0 0 0)) layer 0
    StretchRepository_default (1 / 10) (Some thresholds_default).

(** A travel move, then a loop of three moves around a triangle. *)
Definition square_layer : list Line :=
  [ ln "G1" "G1 X0 Y0"; ln "M101" "M101"; ln "G1" "G1 X1 Y0"; ln "G1" "G1 X1 Y1";
    ln "G1" "G1 X0 Y0"; ln "M103" "M103" ].

(** A loop of two moves with a comment before its deactivate command. *)
Definition trailing_layer : list Line :=
  [ ln "G1" "G1 X0 Y0"; ln "M101" "M101"; ln "G1" "G1 X1 Y0"; ln "G1" "G1 X0 Y0";
    ln "" "(comment)"; ln "M103" "M103" ].

(** An edge width line and a move, with nothing to end the
    initialisation. *)
Definition unfinished_program : list (list Line) :=
  [[ ln "" "(<edgeWidth> 0.4 </edgeWidth>)"; ln "G1" "G1 X1 Y0" ]].

(** A path: an initialisation, the extruder switched on, a move, the
    extruder switched off. *)
Definition path_program : list (list Line) :=
  [[ ln "" "(<edgeWidth> 0.4 </edgeWidth>)"; ln "" "(</extruderInitialization>)";
     ln "M101" "M101"; ln "G1" "G1 X1 Y0"; ln "M103" "M103" ]].

(** A program of one layer: the initialisation, a loop marker, the move
    that approaches the loop, and a loop without a move. *)
Definition empty_loop_layer : list Line :=
  [ ln "" "(<edgeWidth> 0.4 </edgeWidth>)"; ln "" "(</extruderInitialization>)";
    ln "" "(<loop> outer )"; ln "G1" "G1 X0 Y0"; ln "M101" "M101"; ln "M103" "M103" ].

(** The same with a loop of one move, which ends where the approach move
    does. *)
Definition still_loop_layer : list Line :=
  [ ln "" "(<edgeWidth> 0.4 </edgeWidth>)"; ln "" "(</extruderInitialization>)";
    ln "" "(<loop> outer )"; ln "G1" "G1 X0 Y0"; ln "M101" "M101";
    ln "G1" "G1 X0 Y0"; ln "M103" "M103" ].

(** Evaluation of the filter up to the stretching of a move. *)
Ltac run_to_stretch :=
  lazy -[Rplus Rmult Rminus Rdiv Rinv Ropp IZR sqrt Rltb Rleb Reqb
         Rlt_dec Rle_dec Req_dec_T Cabs getStretchedLineFromIndexLocation].

(** * The temperature gradient (gcodeutils/gcode_tempcal.py)

    The classes [GCodeTempGradient], [GCodeContinuousTempGradient] and
    [GCodeStepTempGradient].  An object is a record; the attributes that
    only one class has are carried by its class tag.  What [write] prints
    is collected in a list.  [round(x, 1)] is a parameter [round1] of
    [write], and the text that ["%.1f"] makes of a temperature is left to
    the reader of [M104]. *)

Module Tempcal.

Inductive exn : Type :=
| RuntimeError
| NotImplementedError
| ZeroDivisionError
| TypeError.

Inductive res (A : Type) : Type :=
| Ret (a : A)
| Raise (e : exn).

Arguments Ret {A} a.
Arguments Raise {A} e.

(** gcoder's [Line], of which this program reads the text and the height
    ([None] when no height is known yet). *)
Record Line : Type := mkLine {
  raw : string;
  current_z : option R
}.

(** The class of an object, with the attributes of its own:
    [delta_temp_per_z] for the continuous gradient, [steps] and
    [step_end_temp] for the step gradient. *)
Inductive gradient : Type :=
| GCodeTempGradient
| GCodeContinuousTempGradient (delta_temp_per_z : option R)
| GCodeStepTempGradient (steps : Z) (step_end_temp : R).

Record TempGradient : Type := mkTempGradient {
  class : gradient;
  all_layers : list (list Line);
  start_temp : R;
  end_temp : R;
  min_z_change : R;
  zmax : R;
  zmin : option R;
  last_target_temperature : option R;
  self_current_z : option R
}.

Definition set_class (self : TempGradient) (c : gradient) : TempGradient :=
  mkTempGradient c (all_layers self) (start_temp self) (end_temp self)
    (min_z_change self) (zmax self) (zmin self) (last_target_temperature self)
    (self_current_z self).

Definition set_zmin (self : TempGradient) (z : option R) : TempGradient :=
  mkTempGradient (class self) (all_layers self) (start_temp self) (end_temp self)
    (min_z_change self) (zmax self) z (last_target_temperature self)
    (self_current_z self).

Definition set_last_target_temperature (self : TempGradient) (t : option R)
  : TempGradient :=
  mkTempGradient (class self) (all_layers self) (start_temp self) (end_temp self)
    (min_z_change self) (zmax self) (zmin self) t (self_current_z self).

Definition set_current_z (self : TempGradient) (z : option R) : TempGradient :=
  mkTempGradient (class self) (all_layers self) (start_temp self) (end_temp self)
    (min_z_change self) (zmax self) (zmin self) (last_target_temperature self) z.

(** [GCodeTempGradient.__init__]; [gcode_layers] and [gcode_zmax] are
    [gcode.all_layers] and [gcode.zmax]. *)
Definition __init__ (c : gradient) (gcode_layers : list (list Line)) (gcode_zmax : R)
  (start_temp end_temp min_z_change : R) : TempGradient :=
  mkTempGradient c gcode_layers start_temp end_temp min_z_change gcode_zmax
    None None None.

Definition GCodeContinuousTempGradient__init__ (gcode_layers : list (list Line))
  (gcode_zmax : R) (start_temp end_temp min_z_change : R) : TempGradient :=
  __init__ (GCodeContinuousTempGradient None) gcode_layers gcode_zmax
    start_temp end_temp min_z_change.

(** [steps] is [kwargs['steps']]. *)
Definition GCodeStepTempGradient__init__ (gcode_layers : list (list Line))
  (gcode_zmax : R) (start_temp end_temp min_z_change : R) (steps : Z)
  : res TempGradient :=
  if steps =? 0 then Raise ZeroDivisionError
  else
    let step_end_temp := (end_temp + (end_temp - start_temp) / IZR steps)%R in
    Ret (__init__ (GCodeStepTempGradient (steps + 1) step_end_temp) gcode_layers
           gcode_zmax start_temp end_temp min_z_change).

(** A line of gcode text as [generate_temperature_gcode] returns it: the
    command that sets the temperature, or the empty text. *)
Inductive gcode_text : Type :=
| M104 (rounded_temperature : R)
| Empty.

Definition ABSOLUTE_MIN_TEMPERATURE : R := 150.
Definition ABSOLUTE_MAX_TEMPERATURE : R := 250.

Definition generate_temperature_gcode (temperature : R) : gcode_text :=
  if Rleb ABSOLUTE_MIN_TEMPERATURE temperature && Rleb temperature ABSOLUTE_MAX_TEMPERATURE
  then M104 temperature
  else Empty.

(** The loop of [_parse_gcode]: the first height above [min_z_change] is
    kept. *)
Fixpoint scan_zmin (min_z_change : R) (zmin : option R) (layers : list (list Line))
  : option R :=
  match layers with
  | [] => zmin
  | layer :: rest =>
      let zmin :=
        match layer with
        | [] => zmin
        | first :: _ =>
            match zmin, current_z first with
            | None, Some z => if Rltb min_z_change z then Some z else None
            | _, _ => zmin
            end
        end in
      scan_zmin min_z_change zmin rest
  end.

(** [GCodeTempGradient._parse_gcode] *)
Definition GCodeTempGradient_parse_gcode (self : TempGradient) : res TempGradient :=
  let self := set_zmin self (scan_zmin (min_z_change self) (zmin self) (all_layers self)) in
  match zmin self with
  | None => Raise RuntimeError
  | Some z => if Rleb (zmax self) z then Raise RuntimeError else Ret self
  end.

(** [self._parse_gcode()], by the class of [self]. *)
Definition _parse_gcode (self : TempGradient) : res TempGradient :=
  match class self with
  | GCodeContinuousTempGradient _ =>
      match GCodeTempGradient_parse_gcode self with
      | Ret self =>
          match zmin self with
          | Some z =>
              if Reqb (zmax self - z) 0 then Raise ZeroDivisionError
              else Ret (set_class self
                          (GCodeContinuousTempGradient
                             (Some ((end_temp self - start_temp self) / (zmax self - z))%R)))
          | None => Raise TypeError
          end
      | Raise e => Raise e
      end
  | _ => GCodeTempGradient_parse_gcode self
  end.

(** Python's [int] on a float: the integer towards zero. *)
Definition int (x : R) : Z :=
  if Rltb x 0 then - Int_part (- x) else Int_part x.

(** [self.get_temp_for_current_layer()], by the class of [self]. *)
Definition get_temp_for_current_layer (self : TempGradient) : res R :=
  match class self with
  | GCodeTempGradient => Raise NotImplementedError
  | GCodeContinuousTempGradient delta_temp_per_z =>
      match delta_temp_per_z, self_current_z self, zmin self with
      | Some delta, Some z, Some zm => Ret (start_temp self + delta * (z - zm))%R
      | _, _, _ => Raise TypeError
      end
  | GCodeStepTempGradient steps step_end_temp =>
      match self_current_z self, zmin self with
      | Some z, Some zm =>
          if Reqb (zmax self - zm) 0 then Raise ZeroDivisionError
          else if steps =? 0 then Raise ZeroDivisionError
          else
            let progress :=
              (IZR (int ((z - zm) / (zmax self - zm) * IZR steps)) / IZR steps)%R in
            Ret (Rmax (end_temp self)
                   (start_temp self + progress * (step_end_temp - start_temp self)))
      | _, _ => Raise TypeError
      end
  end.

(** What [write] prints: a line of temperature gcode, or a line of the
    program. *)
Inductive printed : Type :=
| Temperature (text : gcode_text)
| Program (raw : string).

(** [target_temp != self.last_target_temperature] *)
Definition differs (target_temp : R) (last : option R) : bool :=
  match last with
  | None => true
  | Some t => negb (Reqb target_temp t)
  end.

(** [self.current_z and self.zmin <= self.current_z <= self.zmax] *)
Definition in_gradient (self : TempGradient) : res bool :=
  match self_current_z self with
  | None => Ret false
  | Some z =>
      if Reqb z 0 then Ret false
      else match zmin self with
           | Some zm => Ret (Rleb zm z && Rleb z (zmax self))
           | None => Raise TypeError
           end
  end.

Section Write.

(** Python's [round(x, 1)] *)
Variable round1 : R -> R.

(** The head of the loop body of [write] for a layer that is not empty and
    starts with [first]. *)
Definition write_temperature (self : TempGradient) (first : Line)
  : res (TempGradient * list printed) :=
  let self := set_current_z self (current_z first) in
  match in_gradient self with
  | Raise e => Raise e
  | Ret false => Ret (self, [])
  | Ret true =>
      match get_temp_for_current_layer self with
      | Raise e => Raise e
      | Ret raw_target_temp =>
          let target_temp := round1 raw_target_temp in
          if differs target_temp (last_target_temperature self)
          then Ret (set_last_target_temperature self (Some target_temp),
                    [Temperature (generate_temperature_gcode target_temp)])
          else Ret (self, [])
      end
  end.

Fixpoint write_layers (self : TempGradient) (layers : list (list Line))
  : res (TempGradient * list printed) :=
  match layers with
  | [] => Ret (self, [])
  | layer :: rest =>
      match (match layer with
             | [] => Ret (self, [])
             | first :: _ => write_temperature self first
             end) with
      | Raise e => Raise e
      | Ret (self, head) =>
          match write_layers self rest with
          | Raise e => Raise e
          | Ret (self, out) =>
              Ret (self, head ++ map (fun line => Program (raw line)) layer ++ out)%list
          end
      end
  end.

(** [write]: what is printed to the output file. *)
Definition write (self : TempGradient) : res (list printed) :=
  match _parse_gcode self with
  | Raise e => Raise e
  | Ret self =>
      match write_layers self (all_layers self) with
      | Raise e => Raise e
      | Ret (_, out) => Ret out
      end
  end.

End Write.

(** The lines of the program among what was printed. *)
Fixpoint program_lines (out : list printed) : list string :=
  match out with
  | [] => []
  | Program raw :: rest => raw :: program_lines rest
  | Temperature _ :: rest => program_lines rest
  end.

(** What is printed for a layer: its lines, after one line of temperature
    gcode at most. *)
Definition printed_for (layer : list Line) (chunk : list printed) : Prop :=
  chunk = map (fun line => Program (raw line)) layer
  \/ (layer <> []
      /\ exists text, chunk = Temperature text :: map (fun line => Program (raw line)) layer).

(** A layer that does not start above [min_z_change]. *)
Definition starts_low (min_z_change : R) (layer : list Line) : Prop :=
  match layer with
  | [] => True
  | first :: _ =>
      match current_z first with
      | Some z => (z <= min_z_change)%R
      | None => True
      end
  end.

(** Worked inputs: two layers at the heights 1 and 2, and a continuous
    gradient from 200 to 250 over them. *)
Definition two_layers : list (list Line) :=
  [ [ mkLine "G1 Z1" (Some 1%R) ]; [ mkLine "G1 Z2" (Some 2%R) ] ].

Definition continuous_gradient : TempGradient :=
  GCodeContinuousTempGradient__init__ two_layers 2 200 250 (1 / 10).

(** Three layers: one below the least height of 0.1, one at 0.3 and a
    lower one at 0.2 after it. *)
Definition sagging_layers : list (list Line) :=
  [ [ mkLine "G1 Z0.05" (Some (5 / 100)%R) ]; [ mkLine "G1 Z0.3" (Some (3 / 10)%R) ];
    [ mkLine "G1 Z0.2" (Some (2 / 10)%R) ] ].

Definition sagging_gradient : TempGradient :=
  GCodeContinuousTempGradient__init__ sagging_layers 2 200 250 (1 / 10).

(** A program that stays at the height 0.05. *)
Definition low_gradient : TempGradient :=
  __init__ GCodeTempGradient [ [ mkLine "G1 Z0.05" (Some (5 / 100)%R) ] ] 2 200 250 (1 / 10).

(** Ten steps from 250 down to 200 over [two_layers]. *)
Definition step_gradient : TempGradient :=
  __init__ (GCodeStepTempGradient (10 + 1) (200 + (200 - 250) / 10)) two_layers 2
    250 200 (1 / 10).

End Tempcal.

(** Evaluation of the gradient that leaves the operations on reals in
    place. *)
Ltac run_gradient :=
  lazy -[Rplus Rmult Rminus Rdiv Rinv Ropp IZR sqrt Rltb Rleb Reqb
         Rlt_dec Rle_dec Req_dec_T Rmax Rmin Int_part].

(** * Properties *)

(** ** Tools *)

Lemma bind_Ret {A B : Type} (m : res A) (k : A -> res B) (b : B) :
  bind m k = Ret b -> exists a, m = Ret a /\ k a = Ret b.
Proof.
  destruct m as [a | e |]; simpl; intros H; try discriminate.
  exists a. split; [reflexivity | exact H].
Qed.

Lemma Rltb_true (a b : R) : (a < b)%R -> Rltb a b = true.
Proof. intros H. unfold Rltb. destruct (Rlt_dec a b); [reflexivity | contradiction]. Qed.

Lemma Rltb_false (a b : R) : (b <= a)%R -> Rltb a b = false.
Proof. intros H. unfold Rltb. destruct (Rlt_dec a b); [lra | reflexivity]. Qed.

Lemma Rleb_true (a b : R) : (a <= b)%R -> Rleb a b = true.
Proof. intros H. unfold Rleb. destruct (Rle_dec a b); [reflexivity | contradiction]. Qed.

Lemma Rleb_false (a b : R) : (b < a)%R -> Rleb a b = false.
Proof. intros H. unfold Rleb. destruct (Rle_dec a b); [lra | reflexivity]. Qed.

Lemma Reqb_true (a b : R) : a = b -> Reqb a b = true.
Proof. intros H. unfold Reqb. destruct (Req_dec_T a b); [reflexivity | contradiction]. Qed.

Lemma Reqb_false (a b : R) : a <> b -> Reqb a b = false.
Proof. intros H. unfold Reqb. destruct (Req_dec_T a b); [contradiction | reflexivity]. Qed.

Lemma Rltb_spec (a b : R) : Rltb a b = true <-> (a < b)%R.
Proof.
  unfold Rltb. destruct (Rlt_dec a b); split; intros; try assumption;
    try reflexivity; try discriminate; contradiction.
Qed.

Lemma Rleb_spec (a b : R) : Rleb a b = true <-> (a <= b)%R.
Proof.
  unfold Rleb. destruct (Rle_dec a b); split; intros; try assumption;
    try reflexivity; try discriminate; contradiction.
Qed.

(** Settle one comparison of the goal whose operands are numerals. *)
Ltac compare_step :=
  match goal with
  | |- context [Rltb ?a ?b] =>
      first [rewrite (Rltb_true a b) by lra | rewrite (Rltb_false a b) by lra]
  | |- context [Rleb ?a ?b] =>
      first [rewrite (Rleb_true a b) by lra | rewrite (Rleb_false a b) by lra]
  | |- context [Reqb ?a ?b] =>
      first [rewrite (Reqb_true a b) by lra | rewrite (Reqb_false a b) by lra]
  end.

(** ** Lengths of complex numbers *)

Lemma Cabs_nonneg (a : complex) : (0 <= Cabs a)%R.
Proof. unfold Cabs. apply sqrt_pos. Qed.

Lemma Cabs_sqr (a : complex) :
  (Cabs a * Cabs a = real a * real a + imag a * imag a)%R.
Proof. unfold Cabs. apply sqrt_sqrt. nra. Qed.

Lemma Cabs_null (a : complex) : real a = 0%R -> imag a = 0%R -> Cabs a = 0%R.
Proof.
  intros Hr Hi. unfold Cabs. rewrite Hr, Hi.
  replace (0 * 0 + 0 * 0)%R with 0%R by lra. apply sqrt_0.
Qed.

(** A length is settled by its square. *)
Lemma Cabs_eq (a : complex) (r : R) :
  (0 <= r)%R -> (real a * real a + imag a * imag a = r * r)%R -> Cabs a = r.
Proof.
  intros Hr H. unfold Cabs. rewrite H. apply sqrt_square. exact Hr.
Qed.

Lemma Cabs_le (a : complex) (r : R) :
  (0 <= r)%R -> (real a * real a + imag a * imag a <= r * r)%R -> (Cabs a <= r)%R.
Proof.
  intros Hr H. pose proof (Cabs_nonneg a) as Hn. pose proof (Cabs_sqr a) as Hs.
  destruct (Rle_dec (Cabs a) r) as [Hle | Hgt]; [exact Hle | nra].
Qed.

Lemma Cabs_scale (k : R) (a : complex) : Cabs (Cscale k a) = (Rabs k * Cabs a)%R.
Proof.
  apply Cabs_eq.
  - apply Rmult_le_pos; [apply Rabs_pos | apply Cabs_nonneg].
  - simpl. pose proof (Cabs_sqr a) as Hs.
    assert (Hk : (Rabs k * Rabs k = k * k)%R).
    { unfold Rabs. destruct (Rcase_abs k); lra. }
    nra.
Qed.

(** Dividing a complex number by its own length leaves a unit vector. *)
Lemma Cdiv_Cabs_unit (a b : complex) :
  (0 < Cabs a)%R -> Cdiv a (Cabs a) = Ret b -> Cabs b = 1%R.
Proof.
  intros Hpos H. unfold Cdiv in H. rewrite Reqb_false in H by lra.
  injection H as <-. apply Cabs_eq; [lra |]. simpl.
  pose proof (Cabs_sqr a) as Hs. field_simplify_eq; [| lra]. nra.
Qed.

Ltac bind_inv H :=
  let a := fresh "a" in
  let Ha := fresh "Ha" in
  apply bind_Ret in H; destruct H as [a [Ha H]].

(** Replace one length of the goal by its value [r]. *)
Ltac cabs_is r :=
  match goal with
  | |- context [Cabs ?c] => rewrite (Cabs_eq c r) by (simpl; lra)
  end.

Lemma Csub_Cadd (a b : complex) : Csub (Cadd a b) a = b.
Proof. destruct a, b. unfold Csub, Cadd. simpl. f_equal; ring. Qed.

(** ** Threshold derivation *)

(** What [parse_initialisation_line] stores on an edge width line: the five
    distances scaled by [self.edgeWidth], the lookahead by the width read. *)
Lemma parse_initialisation_line_edge_width float self line group1 w :
  (raw line =? "(</extruderInitialization>)")%string = false ->
  EDGE_WIDTH_REGEXP_match (raw line) = Some group1 ->
  float group1 = Some w ->
  exists self',
    parse_initialisation_line float self line = Ret (false, self')
    /\ edgeWidth self' = edgeWidth self
    /\ thresholds self' =
       Some (mkThresholds
               (edgeWidth self * crossLimitDistanceOverEdgeWidth (stretchRepository self))
               (edgeWidth self * loopStretchOverEdgeWidth (stretchRepository self))
               (edgeWidth self * pathStretchOverEdgeWidth (stretchRepository self))
               (edgeWidth self * edgeInsideStretchOverEdgeWidth (stretchRepository self))
               (edgeWidth self * edgeOutsideStretchOverEdgeWidth (stretchRepository self))
               (stretchFromDistanceOverEdgeWidth (stretchRepository self) * w)
               (333333333 / 1000000000
                * (edgeWidth self * crossLimitDistanceOverEdgeWidth (stretchRepository self)))
               (edgeWidth self * crossLimitDistanceOverEdgeWidth (stretchRepository self)
                - 333333333 / 1000000000
                  * (edgeWidth self
                     * crossLimitDistanceOverEdgeWidth (stretchRepository self)))).
Proof.
  intros Hend Hmatch Hfloat. unfold parse_initialisation_line.
  rewrite Hend, Hmatch, Hfloat. simpl. eexists. split; [reflexivity |].
  split; reflexivity.
Qed.

(** C1, evaluated on the edge width line of width 0.6 with the default
    settings: the lookahead distance is 2 times 0.6, but the cross limit
    distance and the four maximum stretches are the ratios times 0.4, the
    width the filter starts with, and so smaller than the ratios times 0.6. *)
Theorem edge_width_scales_lookahead_only :
  forall (cmd : string) (lf : option R),
  exists self t,
    parse_initialisation_line float_decimal
      (StretchFilter__init__ StretchRepository_default)
      (mkLine "(<edgeWidth> 0.6 </edgeWidth>)" cmd lf) = Ret (false, self)
    /\ thresholds self = Some t
    /\ stretchFromDistance t = (2 * (6 / 10))%R
    /\ crossLimitDistance t = (4 / 10 * 5)%R
    /\ (crossLimitDistance t < 6 / 10 * 5)%R
    /\ (loopMaximumAbsoluteStretch t < 6 / 10 * (11 / 100))%R
    /\ (edgeInsideAbsoluteStretch t < 6 / 10 * (32 / 100))%R
    /\ (edgeOutsideAbsoluteStretch t < 6 / 10 * (1 / 10))%R
    /\ pathAbsoluteStretch t = (4 / 10 * 0)%R.
Proof.
  intros cmd lf.
  destruct (parse_initialisation_line_edge_width float_decimal
              (StretchFilter__init__ StretchRepository_default)
              (mkLine "(<edgeWidth> 0.6 </edgeWidth>)" cmd lf) "0.6" (6 / 10)%R)
    as [self [Hrun [_ Ht]]]; try reflexivity.
  exists self. eexists. split; [exact Hrun |]. split; [exact Ht |].
  simpl. repeat split; lra.
Qed.

(** ** The feature state machine *)

(** A line that starts with the text [is_edge_end] looks for does reset the
    state to the path stretch. *)
Lemma edge_end_literal_resets float fuel self t cmd lf :
  thresholds self = Some t ->
  exists self',
    parse_line float fuel self (mkLine "(/edge>)" cmd lf) = Ret self'
    /\ isLoop self' = false
    /\ thread_maximum_absolute_stretch self' = pathAbsoluteStretch t.
Proof.
  intros Ht. unfold parse_line. simpl.
  unfold set_stretch_to_path, attr. rewrite Ht. simpl.
  eexists. split; [reflexivity |]. split; reflexivity.
Qed.

(** C6, evaluated on the closing tag of an edge [(</edge>)]: [parse_line]
    copies the line and leaves the loop flag and the maximum stretch as they
    were, because [is_edge_end] looks for the text [(/edge>)]. *)
Theorem edge_end_tag_is_passed_over :
  forall (float : string -> option R) (fuel : nat) (self : StretchFilter)
         (cmd : string) (lf : option R),
  exists self',
    parse_line float fuel self (mkLine "(</edge>)" cmd lf) = Ret self'
    /\ self' = addLine self (Verbatim "(</edge>)")
    /\ is_edge_end (mkLine "(</edge>)" cmd lf) = false
    /\ isLoop self' = isLoop self
    /\ thread_maximum_absolute_stretch self' = thread_maximum_absolute_stretch self.
Proof.
  intros float fuel self cmd lf. eexists. split; [reflexivity |].
  repeat split; reflexivity.
Qed.

(** ** Programs without an edge width line *)

(** C7, evaluated on two programs without an edge width line, whatever the
    settings: the first deactivate command raises [AttributeError], and
    without one the extruded move is copied unstretched. *)
Theorem missing_edge_width_raises :
  forall repository : StretchRepository,
    filter float_decimal 10 (StretchFilter__init__ repository)
      [[ ln "" "(</extruderInitialization>)"; ln "M101" "M101";
         ln "G1" "G1 X1 Y0"; ln "M103" "M103" ]]
    = Raise AttributeError
    /\ filter float_decimal 10 (StretchFilter__init__ repository)
         [[ ln "" "(</extruderInitialization>)"; ln "M101" "M101";
            ln "G1" "G1 X1 Y0" ]]
       = Ret [Verbatim "M101"; Verbatim "G1 X1 Y0"].
Proof.
  intros repository. split.
  - run. rewrite (Rltb_false 0 0) by lra. reflexivity.
  - run. rewrite (Rltb_false 0 0) by lra. reflexivity.
Qed.

(** ** Feed rate *)

(** C8, evaluated on a program whose only move says F0: the stretched line
    is emitted with the initial feed rate 959, not with 0. *)
Theorem zero_feed_rate_is_dropped :
  exists p : complex,
    filter float_decimal 10 (StretchFilter__init__ StretchRepository_default)
      [[ ln "" "(<edgeWidth> 0.4 </edgeWidth>)"; ln "" "(</extruderInitialization>)";
         ln "" "(<loop> outer )"; ln "M101" "M101";
         mkLine "G1 X1 Y1 F0" "G1" (Some 0%R) ]]
    = Ret [ Verbatim "(<edgeWidth> 0.4 </edgeWidth>)"; Verbatim "(<loop> outer )";
            Verbatim "M101"; LinearMove 959 p 0 ].
Proof.
  eexists. run.
  repeat (first [compare_step | cabs_is 0%R]; run). reflexivity.
Qed.

(** A feed rate other than 0 is carried. *)
Lemma nonzero_feed_rate_is_carried float fuel self splitLine line v o self' :
  f line = Some v -> v <> 0%R ->
  getStretchedLine float fuel self splitLine line = Ret (o, self') ->
  feedRateMinute self' = v.
Proof.
  intros Hf Hv H. unfold getStretchedLine in H. bind_inv H.
  rewrite Hf in H. unfold f_or in H. rewrite Reqb_false in H by exact Hv.
  destruct (_ && _) in H.
  - bind_inv H. injection H as _ <-. reflexivity.
  - destruct (_ && _) in H.
    + bind_inv H. injection H as _ <-. reflexivity.
    + injection H as _ <-. reflexivity.
Qed.

(** ** Stretched lines *)

(** Every result of [getStretchedLineFromIndexLocation] is the location
    moved by the maximum stretch times a vector no longer than 1, at the
    location's height and with the carried feed rate. *)
Lemma stretched_from_index float fuel self ip inx location o :
  getStretchedLineFromIndexLocation float fuel self ip inx location = Ret o ->
  exists r, (Cabs r <= 1)%R /\
    o = LinearMove (feedRateMinute self)
          (Cadd (dropAxis location) (Cscale (thread_maximum_absolute_stretch self) r))
          (vz location).
Proof.
  unfold getStretchedLineFromIndexLocation. intros H.
  bind_inv H. bind_inv H. bind_inv H. bind_inv H. bind_inv H.
  injection H as <-. exists a3. split; [| reflexivity].
  destruct (Rltb 1 (Cabs a2)) eqn:Hc.
  - apply Rltb_spec in Hc. apply Cdiv_Cabs_unit in Ha3; lra.
  - injection Ha3 as <-. unfold Rltb in Hc.
    destruct (Rlt_dec 1 (Cabs a2)); [discriminate | lra].
Qed.

(** A stretched line comes out of [getStretchedLine] only through
    [getStretchedLineFromIndexLocation], under a positive maximum stretch. *)
Lemma getStretchedLine_stretched float fuel self splitLine line fr p z self' :
  getStretchedLine float fuel self splitLine line = Ret (LinearMove fr p z, self') ->
  exists location,
    getLocationFromSplitLine float (oldLocation self) splitLine = Ret location
    /\ self' = set_oldLocation
                 (set_feedRateMinute self (f_or (f line) (feedRateMinute self))) location
    /\ (0 < thread_maximum_absolute_stretch self)%R
    /\ getStretchedLineFromIndexLocation float fuel self'
         (line_number_in_layer self - 1) (line_number_in_layer self + 1) location
       = Ret (LinearMove fr p z).
Proof.
  unfold getStretchedLine. intros H. bind_inv H. exists a. split; [exact Ha |].
  set (self1 := set_oldLocation _ _) in *.
  change (line_number_in_layer self1) with (line_number_in_layer self) in H.
  change (thread_maximum_absolute_stretch self1)
    with (thread_maximum_absolute_stretch self) in H.
  destruct (extruderActive self1 && Rltb 0 (thread_maximum_absolute_stretch self)) eqn:E1.
  - bind_inv H. injection H as -> <-. apply andb_prop in E1. destruct E1 as [_ E1].
    apply Rltb_spec in E1. repeat split; assumption.
  - destruct (isJustBeforeExtrusion self1
              && Rltb 0 (thread_maximum_absolute_stretch self)) eqn:E2.
    + bind_inv H. injection H as -> <-. apply andb_prop in E2. destruct E2 as [_ E2].
      apply Rltb_spec in E2. repeat split; assumption.
    + discriminate.
Qed.

(** C3: a stretched line ends no further from the original end point of the
    move than the maximum absolute stretch in force. *)
Theorem stretch_is_bounded float fuel self splitLine line fr p z self' :
  getStretchedLine float fuel self splitLine line = Ret (LinearMove fr p z, self') ->
  exists location,
    getLocationFromSplitLine float (oldLocation self) splitLine = Ret location
    /\ (Cabs (Csub p (dropAxis location)) <= thread_maximum_absolute_stretch self)%R.
Proof.
  intros H. apply getStretchedLine_stretched in H.
  destruct H as [location [Hloc [-> [Hpos H]]]]. exists location. split; [exact Hloc |].
  apply stretched_from_index in H. destruct H as [r [Hr H]].
  injection H as _ -> _. rewrite Csub_Cadd, Cabs_scale. simpl.
  rewrite Rabs_pos_eq by lra. pose proof (Cabs_nonneg r). nra.
Qed.

(** On the last line of [straight_layer] the move to (1, 0) is stretched by
    0.08 along the path, within the path stretch 0.1. *)
Lemma stretch_is_bounded_witness :
  exists location,
    getLocationFromSplitLine float_decimal (oldLocation straight_state) ["G1"; "X1"; "Y0"]
    = Ret location
    /\ (Cabs (Csub (mkComplex (108 / 100) 0) (dropAxis location))
        <= thread_maximum_absolute_stretch straight_state)%R.
Proof.
  apply (stretch_is_bounded float_decimal 5 straight_state ["G1"; "X1"; "Y0"]
           (ln "G1" "G1 X1 Y0") 959 (mkComplex (108 / 100) 0) 0
           (set_oldLocation straight_state (mkVector3 (1 / 1) (0 / 1) 0))).
  run.
  repeat (first [compare_step | cabs_is 0%R | cabs_is 1%R | cabs_is (8 / 10)%R]; run).
  apply f_equal. apply f_equal2; [| reflexivity].
  apply f_equal3; [reflexivity | | reflexivity]. apply f_equal2; lra.
Defined.

(** C9: a stretched line keeps the height of the move it replaces, which is
    the Z word of the line when it has one that reads as a number and the
    carried height otherwise. *)
Theorem stretched_line_keeps_z float fuel self splitLine line fr p z self' :
  getStretchedLine float fuel self splitLine line = Ret (LinearMove fr p z, self') ->
  exists location,
    getLocationFromSplitLine float (oldLocation self) splitLine = Ret location
    /\ z = vz location
    /\ getDoubleFromCharacterSplitLineValue float "Z" splitLine
         (vz (match oldLocation self with
              | None => Vector3_default
              | Some v => v
              end))
       = Ret z.
Proof.
  intros H. apply getStretchedLine_stretched in H.
  destruct H as [location [Hloc [-> [Hpos H]]]]. exists location. split; [exact Hloc |].
  apply stretched_from_index in H. destruct H as [r [Hr H]].
  injection H as _ _ ->. split; [reflexivity |].
  unfold getLocationFromSplitLine in Hloc.
  bind_inv Hloc. bind_inv Hloc. bind_inv Hloc. injection Hloc as <-. exact Ha1.
Qed.

(** The loop move of [lone_layer] at height 0.2 comes out at height 0.2. *)
Lemma stretched_line_keeps_z_witness :
  exists location,
    getLocationFromSplitLine float_decimal (oldLocation lone_state)
      ["G1"; "X1"; "Y1"; "Z0.2"] = Ret location
    /\ (2 / 10)%R = vz location
    /\ getDoubleFromCharacterSplitLineValue float_decimal "Z" ["G1"; "X1"; "Y1"; "Z0.2"]
         (vz Vector3_default)
       = Ret (2 / 10)%R.
Proof.
  eapply (stretched_line_keeps_z float_decimal 5 lone_state ["G1"; "X1"; "Y1"; "Z0.2"]
            (ln "G1" "G1 X1 Y1 Z0.2") _ _ (2 / 10)%R _).
  run.
  repeat (first [compare_step | cabs_is 0%R]; run). reflexivity.
Defined.

(** ** Indexing *)

Lemma py_get_nth {A : Type} (l : list A) (i : Z) :
  0 <= i < len l -> exists a, py_get l i = Ret a /\ nth_error l (Z.to_nat i) = Some a.
Proof.
  intros Hi. unfold py_get, len in *.
  destruct (Z.ltb_spec i 0) as [Hneg | _]; [lia |].
  destruct (Z.leb_spec 0 i) as [_ | Hneg]; [| lia].
  destruct (Z.ltb_spec i (Z.of_nat (length l))) as [_ | Hbig]; [| lia].
  simpl. destruct (nth_error l (Z.to_nat i)) as [a |] eqn:E.
  - exists a. split; reflexivity.
  - apply nth_error_None in E. lia.
Qed.

Lemma in_xrange (a b i : Z) : In i (xrange a b) <-> a <= i < b.
Proof.
  unfold xrange. rewrite in_map_iff. split.
  - intros [k [<- Hk]]. apply in_seq in Hk. lia.
  - intros Hi. exists (Z.to_nat (i - a)). split; [lia |]. apply in_seq. lia.
Qed.

Lemma in_xrange_down (a b i : Z) : In i (xrange_down a b) <-> b < i <= a.
Proof.
  unfold xrange_down. rewrite in_map_iff. split.
  - intros [k [<- Hk]]. apply in_seq in Hk. lia.
  - intros Hi. exists (Z.to_nat (a - i)). split; [lia |]. apply in_seq. lia.
Qed.

(** [xrange_down] counts down by one. *)
Lemma xrange_down_step (a b : Z) :
  b < a -> xrange_down a b = a :: xrange_down (a - 1) b.
Proof.
  intros H. unfold xrange_down.
  replace (Z.to_nat (a - b)) with (S (Z.to_nat (a - 1 - b))) by lia.
  simpl. f_equal; [lia |]. rewrite <- seq_shift, map_map.
  apply map_ext. intros k. lia.
Qed.

Lemma xrange_down_empty (a b : Z) : a <= b -> xrange_down a b = [].
Proof.
  intros H. unfold xrange_down. replace (Z.to_nat (a - b)) with O by lia. reflexivity.
Qed.

Lemma xrange_step (a b : Z) : a < b -> xrange a b = a :: xrange (a + 1) b.
Proof.
  intros H. unfold xrange.
  replace (Z.to_nat (b - a)) with (S (Z.to_nat (b - (a + 1)))) by lia.
  simpl. f_equal; [lia |]. rewrite <- seq_shift, map_map.
  apply map_ext. intros k. lia.
Qed.

Lemma xrange_empty (a b : Z) : b <= a -> xrange a b = [].
Proof.
  intros H. unfold xrange. replace (Z.to_nat (b - a)) with O by lia. reflexivity.
Qed.

(** ** The forward wrap *)

Lemma scanActivate_Ret (ls : list Line) (idxs : list Z) (j : Z) :
  LineIteratorForward.scanActivate ls idxs = Ret j ->
  In (j - 1) idxs /\ exists a, py_get ls (j - 1) = Ret a /\ command a = "M101".
Proof.
  induction idxs as [| i rest IH]; simpl; intros H; [discriminate |].
  bind_inv H. destruct (command a =? "M101")%string eqn:E.
  - injection H as <-. replace (i + 1 - 1) with i by lia. split; [left; reflexivity |].
    exists a. split; [exact Ha | apply String.eqb_eq; exact E].
  - destruct (IH H) as [Hin Hex]. split; [right; exact Hin | exact Hex].
Qed.

Lemma scanActivate_none (ls : list Line) (idxs : list Z) :
  (forall i, In i idxs -> exists a, py_get ls i = Ret a /\ command a <> "M101") ->
  LineIteratorForward.scanActivate ls idxs = Raise StopIteration.
Proof.
  induction idxs as [| i rest IH]; simpl; intros H; [reflexivity |].
  destruct (H i (or_introl eq_refl)) as [a [Ha Hc]]. rewrite Ha. simpl.
  apply String.eqb_neq in Hc. rewrite Hc. apply IH. intros k Hk. apply H. right. exact Hk.
Qed.

(** C10: on a deactivate line a forward cursor with the loop flag set looks
    for the activate command at the indices strictly between 0 and its own,
    nearest first; when none of them holds one, [getNext] raises
    [StopIteration], also when the activate command is at index 0. *)
Theorem forward_wrap_skips_index_zero (c : LineIterator) (l : Line) :
  it_isLoop c = true ->
  lineIndex c < len (lines c) ->
  py_get (lines c) (lineIndex c) = Ret l ->
  command l = "M103" ->
  (forall j, LineIteratorForward.getIndexJustAfterActivate c = Ret j ->
     0 < j - 1 < lineIndex c
     /\ exists a, py_get (lines c) (j - 1) = Ret a /\ command a = "M101")
  /\ ((forall i a, 0 < i < lineIndex c -> py_get (lines c) i = Ret a ->
         command a <> "M101") ->
      LineIteratorForward.getIndexJustAfterActivate c = Raise StopIteration
      /\ forall fuel, LineIteratorForward.getNext (S fuel) c = Raise StopIteration).
Proof.
  intros Hloop Hlen Hl Hcmd. split.
  - intros j Hj. unfold LineIteratorForward.getIndexJustAfterActivate in Hj.
    apply scanActivate_Ret in Hj. destruct Hj as [Hin Hex].
    apply in_xrange_down in Hin. split; [lia | exact Hex].
  - intros Hnone.
    assert (Hscan : LineIteratorForward.getIndexJustAfterActivate c = Raise StopIteration).
    { unfold LineIteratorForward.getIndexJustAfterActivate. apply scanActivate_none.
      intros i Hi. apply in_xrange_down in Hi.
      destruct (py_get_nth (lines c) i) as [a [Ha _]]; [lia |].
      exists a. split; [exact Ha |]. apply (Hnone i a); [lia | exact Ha]. }
    split; [exact Hscan |]. intros fuel.
    unfold LineIteratorForward.getNext. simpl.
    destruct (Z.ltb_spec (lineIndex c) (len (lines c))) as [_ | Hge]; [| lia].
    unfold LineIteratorForward.body, check_first.
    destruct (firstLineIndex c) as [i |].
    + destruct (lineIndex c =? i); [reflexivity |]. simpl.
      rewrite Hl. simpl. rewrite Hcmd. simpl. rewrite Hloop, Hscan. reflexivity.
    + simpl. rewrite Hl. simpl. rewrite Hcmd. simpl. rewrite Hloop.
      unfold LineIteratorForward.getIndexJustAfterActivate in *. simpl. rewrite Hscan.
      reflexivity.
Qed.

(** With the activate command at index 0 of [activate_first], the forward
    cursor on the deactivate line at index 3 is exhausted. *)
Lemma forward_wrap_skips_index_zero_witness :
  LineIteratorForward.getIndexJustAfterActivate
    (LineIteratorForward.__init__ true 3 activate_first) = Raise StopIteration
  /\ forall fuel,
       LineIteratorForward.getNext (S fuel)
         (LineIteratorForward.__init__ true 3 activate_first) = Raise StopIteration.
Proof.
  apply (forward_wrap_skips_index_zero
           (LineIteratorForward.__init__ true 3 activate_first) (ln "M103" "M103")).
  - reflexivity.
  - reflexivity.
  - reflexivity.
  - reflexivity.
  - intros i a Hi Ha. simpl in Hi.
    assert (Hcases : i = 1 \/ i = 2) by lia.
    destruct Hcases as [-> | ->]; vm_compute in Ha; injection Ha as <-; discriminate.
Defined.

(** ** Cross limiting *)

Lemma Cdiv_unit (a n : complex) :
  (0 < Cabs a)%R -> Cdiv a (Cabs a) = Ret n ->
  (real n * real n + imag n * imag n = 1)%R.
Proof.
  intros Hpos H. pose proof (Cdiv_Cabs_unit a n Hpos H) as Hu.
  rewrite <- Cabs_sqr, Hu. lra.
Qed.

(** C2, as the code has it: for a neighbouring point whose distance lies
    between the cross limit fraction and the cross limit distance, the
    stretch keeps its component along the direction to the point and keeps
    the share [(crossLimitDistance - distance) / crossLimitDistanceRemainder]
    of its perpendicular component; the share is 0 at the cross limit
    distance, grows as the distance shrinks and stays below 1. *)
Theorem cross_limit_ramp float fuel self t s d it L line it' P :
  thresholds self = Some t ->
  derived t ->
  getNext d fuel it = Ret (line, it') ->
  getLocationFromSplitLine float (oldLocation self)
    (getSplitLineBeforeBracketSemicolon line) = Ret P ->
  let dist := Cabs (Csub L (dropAxis P)) in
  let portion := ((crossLimitDistance t - dist) / crossLimitDistanceRemainder t)%R in
  (crossLimitDistanceFraction t < dist <= crossLimitDistance t)%R ->
  exists n r,
    Cdiv (Csub L (dropAxis P)) dist = Ret n
    /\ getCrossLimitedStretch float fuel self s d it L = Ret r
    /\ getDotProduct n r = getDotProduct n s
    /\ getDotProduct (mkComplex (imag n) (- real n)) r
       = (portion * getDotProduct (mkComplex (imag n) (- real n)) s)%R
    /\ (0 <= portion < 1)%R
    /\ portion
       = (1 - (dist - crossLimitDistanceFraction t) / crossLimitDistanceRemainder t)%R
    /\ (dist = crossLimitDistance t -> portion = 0%R)
    /\ (forall dist', (dist < dist' <= crossLimitDistance t)%R ->
          ((crossLimitDistance t - dist') / crossLimitDistanceRemainder t < portion)%R).
Proof.
  intros Ht [Hfrac Hrem] Hnext Hparse dist portion Hd.
  assert (Hlim : (0 < crossLimitDistance t)%R) by lra.
  assert (Hrpos : (0 < crossLimitDistanceRemainder t)%R) by lra.
  assert (Hdpos : (0 < dist)%R) by lra.
  assert (Hq : (portion * crossLimitDistanceRemainder t = crossLimitDistance t - dist)%R).
  { unfold portion. field. lra. }
  destruct (Cdiv (Csub L (dropAxis P)) dist) as [n | e |] eqn:Hn;
    try (unfold Cdiv in Hn; rewrite Reqb_false in Hn by lra; discriminate).
  pose proof (Cdiv_unit _ _ Hdpos Hn) as Hunit.
  exists n. eexists. split; [reflexivity |]. split.
  - unfold getCrossLimitedStretch. rewrite Hnext. simpl. rewrite Hparse. simpl.
    unfold attr. rewrite Ht. simpl.
    fold dist. rewrite Rleb_false by lra. rewrite Hn. simpl.
    rewrite Rltb_false by lra. unfold div. rewrite Reqb_false by lra. simpl.
    fold portion. reflexivity.
  - unfold getDotProduct. simpl.
    assert (Hu : (real n * real n = 1 - imag n * imag n)%R) by lra.
    split; [ring [Hu] |]. split; [ring [Hu] |].
    split; [split; nra |]. split; [unfold portion; rewrite Hrem; field; lra |]. split.
    + intros Heq. nra.
    + intros dist' Hd'. unfold portion, Rdiv. apply Rmult_lt_compat_r; [| lra].
      apply Rinv_0_lt_compat. exact Hrpos.
Qed.

Lemma thresholds_default_derived : derived thresholds_default.
Proof. unfold derived. simpl. split; reflexivity. Qed.


(** With the point at distance 1 on the real axis and the stretch (0, 1)
    perpendicular to it, the half of the way down the ramp is kept. *)
Lemma cross_limit_ramp_witness :
  exists r,
    getCrossLimitedStretch float_decimal 5 (cross_state near_layer) (mkComplex 0 1)
      Forward (LineIteratorForward.__init__ false 0 near_layer) (mkComplex 0 0) = Ret r.
Proof.
  destruct (cross_limit_ramp float_decimal 5 (cross_state near_layer) thresholds_default
              (mkComplex 0 1) Forward (LineIteratorForward.__init__ false 0 near_layer)
              (mkComplex 0 0) "G1 X1 Y0" (mkIter (Some 0) false 1 near_layer)
              (mkVector3 (1 / 1) (0 / 1) 0))
    as [n [r [_ [Hr _]]]].
  - reflexivity.
  - exact thresholds_default_derived.
  - reflexivity.
  - reflexivity.
  - simpl. cabs_is 1%R. lra.
  - exists r. exact Hr.
Defined.

(** C2 as stated fails: with the stretch (0, 1) and the neighbouring point
    on the real axis, the perpendicular (imaginary) component kept at
    distance 1 is larger than the one kept at distance 1.5, although 1 is
    nearer to the cross limit fraction. *)
Lemma cross_limit_keeps_more_when_nearer :
  exists r1 r2,
    getCrossLimitedStretch float_decimal 5 (cross_state near_layer) (mkComplex 0 1)
      Forward (LineIteratorForward.__init__ false 0 near_layer) (mkComplex 0 0) = Ret r1
    /\ getCrossLimitedStretch float_decimal 5 (cross_state far_layer) (mkComplex 0 1)
         Forward (LineIteratorForward.__init__ false 0 far_layer) (mkComplex 0 0) = Ret r2
    /\ (0 < imag r2 < imag r1)%R.
Proof.
  eexists. eexists. split; [| split].
  - run. repeat (first [compare_step | cabs_is 1%R]; run). reflexivity.
  - run. repeat (first [compare_step | cabs_is (15 / 10)%R]; run). reflexivity.
  - simpl. lra.
Qed.

(** ** Tangent estimates *)

Lemma pathLength_nonneg from pts : (0 <= pathLength from pts)%R.
Proof.
  revert from. induction pts as [| p rest IH]; intros from; simpl; [lra |].
  pose proof (Cabs_nonneg (Csub from p)). specialize (IH p). lra.
Qed.

Lemma Cabs_triangle (a b c : complex) :
  (Cabs (Csub a c) <= Cabs (Csub a b) + Cabs (Csub b c))%R.
Proof.
  pose proof (Cabs_nonneg (Csub a b)) as H1. pose proof (Cabs_nonneg (Csub b c)) as H2.
  pose proof (Cabs_sqr (Csub a b)) as S1. pose proof (Cabs_sqr (Csub b c)) as S2.
  apply Cabs_le; [lra |]. simpl in *.
  set (x1 := (real a - real b)%R) in *. set (y1 := (imag a - imag b)%R) in *.
  set (x2 := (real b - real c)%R) in *. set (y2 := (imag b - imag c)%R) in *.
  replace (real a - real c)%R with (x1 + x2)%R by (unfold x1, x2; ring).
  replace (imag a - imag c)%R with (y1 + y2)%R by (unfold y1, y2; ring).
  set (u := Cabs (Csub a b)) in *. set (v := Cabs (Csub b c)) in *.
  assert (Hcs : (x1 * x2 + y1 * y2 <= u * v)%R).
  { destruct (Rle_dec (x1 * x2 + y1 * y2) 0) as [Hneg | Hpos]; [nra |].
    assert (Hsq : ((x1 * x2 + y1 * y2) * (x1 * x2 + y1 * y2) <= (u * v) * (u * v))%R).
    { replace ((u * v) * (u * v))%R with ((u * u) * (v * v))%R by ring.
      rewrite S1, S2. pose proof (Rle_0_sqr (x1 * y2 - x2 * y1)) as Hs.
      unfold Rsqr in Hs. nra. }
    assert (Hm : (0 <= u * v)%R) by (apply Rmult_le_pos; assumption).
    set (w := (x1 * x2 + y1 * y2)%R) in *. set (m := (u * v)%R) in *.
    clearbody w m. clear - Hsq Hm Hpos. nra. }
  nra.
Qed.

Lemma last_cons {A : Type} (p : A) (rest : list A) (from : A) :
  last (p :: rest) from = last rest p.
Proof.
  revert p from. induction rest as [| q r IH]; intros p from; [reflexivity |].
  change (last (p :: q :: r) from) with (last (q :: r) from).
  rewrite (IH q from), (IH q p). reflexivity.
Qed.

Lemma path_reach (from : complex) (pts : list complex) (L : complex) (old : R) :
  (Cabs (Csub L from) <= old)%R ->
  (Cabs (Csub L (last pts from)) <= old + pathLength from pts)%R.
Proof.
  revert from old. induction pts as [| p rest IH]; intros from old H.
  - simpl. lra.
  - rewrite last_cons. simpl pathLength.
    replace (old + (Cabs (Csub from p) + pathLength p rest))%R
      with ((old + Cabs (Csub from p)) + pathLength p rest)%R by ring.
    apply IH. pose proof (Cabs_triangle L from p). lra.
Qed.

Section Loop.
Variable float : string -> option R.
Variable fuel : nat.
Variable self : StretchFilter.
Variable d : direction.
Variable t : Thresholds.
Hypothesis Ht : thresholds self = Some t.
Variable L : complex.

Lemma loop_step_point n it P it1 lastP old point total :
  nextPoint float fuel self d it = Ret (P, it1) ->
  getRelativeStretch_loop float (S n) fuel self L d it lastP old point total
  = if Rleb (stretchFromDistance t) (total + Cabs (Csub lastP P))
    then
      ratio <- div (stretchFromDistance t - old) (Cabs (Csub lastP P)) ;;
      Cdiv (Csub L (Cadd (Cscale ratio P) (Cscale (1 - ratio) lastP)))
        (stretchFromDistance t)
    else
      getRelativeStretch_loop float n fuel self L d it1 P
        (total + Cabs (Csub lastP P)) P (total + Cabs (Csub lastP P)).
Proof.
  intros H. unfold nextPoint in H. bind_inv H. bind_inv H. bind_inv H.
  injection H as <- <-. destruct a as [line it']. simpl in *.
  rewrite Ha, Ha0. simpl. rewrite Ha1. simpl. unfold attr. rewrite Ht. simpl.
  reflexivity.
Qed.

Lemma loop_step_stop n it lastP old point total :
  getNext d fuel it = Raise StopIteration ->
  getRelativeStretch_loop float (S n) fuel self L d it lastP old point total
  = if Rltb 0 (Cabs (Csub L point))
    then Cdiv (Csub L point) (Cabs (Csub L point))
    else Ret Czero.
Proof. intros H. simpl. rewrite H. reflexivity. Qed.

Lemma loop_walk it pts it1 :
  walks float fuel self d it pts it1 ->
  forall m lastP old,
    (old + pathLength lastP pts < stretchFromDistance t)%R ->
    getRelativeStretch_loop float (length pts + S m) fuel self L d it lastP old lastP old
    = getRelativeStretch_loop float (S m) fuel self L d it1 (last pts lastP)
        (old + pathLength lastP pts) (last pts lastP) (old + pathLength lastP pts).
Proof.
  induction 1 as [it | it p it1 pts it2 Hp Hw IH]; intros m lastP old Hlen.
  - simpl length. simpl pathLength. simpl last. rewrite Rplus_0_r. reflexivity.
  - change (length (p :: pts) + S m)%nat with (S (length pts + S m)).
    rewrite (loop_step_point _ _ _ _ _ _ _ _ Hp).
    simpl pathLength in Hlen. pose proof (pathLength_nonneg p pts) as Hnn.
    rewrite Rleb_false by lra. rewrite IH by lra.
    rewrite last_cons. simpl pathLength.
    replace (old + Cabs (Csub lastP p) + pathLength p pts)%R
      with (old + (Cabs (Csub lastP p) + pathLength p pts))%R by ring.
    reflexivity.
Qed.
End Loop.

(** C5, as the code has it.  Let the iterator yield the points [pts], the
    polyline from the location through them being shorter than the
    lookahead distance.  If the next point takes the length to the lookahead
    distance or beyond, the estimate is the vector from the point
    interpolated on that last segment, at exactly the lookahead distance
    along the polyline, to the location, divided by the lookahead distance:
    it is at most 1 long.  If instead the iterator is exhausted, the
    estimate is the unit vector from the last point to the location, or
    zero when that point is the location, as when no point was visited. *)
Theorem tangent_estimate float fuel self t d it L pts it1 :
  thresholds self = Some t ->
  walks float fuel self d it pts it1 ->
  (length pts < fuel)%nat ->
  (pathLength L pts < stretchFromDistance t)%R ->
  let lookahead := stretchFromDistance t in
  let lastPoint := last pts L in
  (forall P it2,
      nextPoint float fuel self d it1 = Ret (P, it2) ->
      (lookahead <= pathLength L pts + Cabs (Csub lastPoint P))%R ->
      let ratio := ((lookahead - pathLength L pts) / Cabs (Csub lastPoint P))%R in
      let totalPoint := Cadd (Cscale ratio P) (Cscale (1 - ratio) lastPoint) in
      exists r,
        getRelativeStretch float fuel self L d it = Ret r
        /\ (0 < ratio <= 1)%R
        /\ (pathLength L pts + Cabs (Csub lastPoint totalPoint) = lookahead)%R
        /\ Cscale lookahead r = Csub L totalPoint
        /\ (Cabs r <= 1)%R)
  /\ (getNext d fuel it1 = Raise StopIteration ->
      exists r,
        getRelativeStretch float fuel self L d it = Ret r
        /\ ((0 < Cabs (Csub L lastPoint))%R ->
            Cscale (Cabs (Csub L lastPoint)) r = Csub L lastPoint /\ Cabs r = 1%R)
        /\ (Cabs (Csub L lastPoint) = 0%R -> r = Czero)
        /\ (pts = [] -> r = Czero)).
Proof.
  intros Ht Hw Hfuel Hlen lookahead lastPoint.
  pose proof (pathLength_nonneg L pts) as Hnn.
  assert (Hrun : forall m, getRelativeStretch_loop float (length pts + S m) fuel self L d it L 0 L 0
            = getRelativeStretch_loop float (S m) fuel self L d it1 lastPoint
                (pathLength L pts) lastPoint (pathLength L pts)).
  { intros m. rewrite (loop_walk float fuel self d t Ht L it pts it1 Hw m L 0%R) by lra.
    rewrite Rplus_0_l. reflexivity. }
  assert (Hfuel' : exists m, fuel = (length pts + S m)%nat).
  { exists (fuel - length pts - 1)%nat. lia. }
  destruct Hfuel' as [m Hm].
  assert (Hstart : getRelativeStretch float fuel self L d it
            = getRelativeStretch_loop float (S m) fuel self L d it1 lastPoint
                (pathLength L pts) lastPoint (pathLength L pts)).
  { unfold getRelativeStretch. rewrite <- Hrun. rewrite <- Hm. reflexivity. }
  split.
  - intros P it2 HP Hreach ratio totalPoint.
    assert (Hseg : (0 < Cabs (Csub lastPoint P))%R) by (fold lookahead in Hlen; lra).
    assert (Hratio : (ratio * Cabs (Csub lastPoint P) = lookahead - pathLength L pts)%R).
    { unfold ratio. field. lra. }
    assert (Hr01 : (0 < ratio <= 1)%R).
    { fold lookahead in Hlen. split.
      - unfold ratio. apply Rdiv_lt_0_compat; lra.
      - destruct (Rle_dec ratio 1) as [Hle | Hgt]; [exact Hle | nra]. }
    rewrite Hstart, (loop_step_point float fuel self d t Ht L _ _ _ _ _ _ _ _ HP).
    fold lookahead. rewrite Rleb_true by lra.
    unfold div. rewrite Reqb_false by lra. simpl. fold ratio. fold totalPoint.
    unfold Cdiv. fold lookahead in Hlen. rewrite Reqb_false by lra.
    eexists. split; [reflexivity |]. split; [exact Hr01 |].
    assert (Hback : Cabs (Csub lastPoint totalPoint) = (lookahead - pathLength L pts)%R).
    { assert (Heq : Csub lastPoint totalPoint = Cscale ratio (Csub lastPoint P)).
      { unfold totalPoint, Csub, Cadd, Cscale. simpl. f_equal; ring. }
      rewrite Heq, Cabs_scale, Rabs_pos_eq by lra. exact Hratio. }
    split; [lra |]. split.
    + unfold Cscale, Csub. simpl. f_equal; field; lra.
    + assert (Hr : mkComplex (real (Csub L totalPoint) / lookahead)
                     (imag (Csub L totalPoint) / lookahead)
                   = Cscale (/ lookahead) (Csub L totalPoint)).
      { unfold Cscale. simpl. f_equal; field; lra. }
      rewrite Hr, Cabs_scale.
      assert (Hinv : (0 < / lookahead)%R) by (apply Rinv_0_lt_compat; lra).
      rewrite Rabs_pos_eq by lra.
      pose proof (Cabs_triangle L lastPoint totalPoint) as Htri.
      assert (Hfirst : (Cabs (Csub L lastPoint) <= 0 + pathLength L pts)%R).
      { apply path_reach. rewrite Cabs_null; simpl; lra. }
      assert (Hle : (Cabs (Csub L totalPoint) <= lookahead)%R) by lra.
      apply Rmult_le_reg_l with (r := lookahead); [lra |].
      rewrite <- Rmult_assoc, Rinv_r by lra. lra.
  - intros Hstop. rewrite Hstart, (loop_step_stop float fuel self d L _ _ _ _ _ _ Hstop).
    destruct (Rltb 0 (Cabs (Csub L lastPoint))) eqn:Hpos.
    + apply Rltb_spec in Hpos. unfold Cdiv. rewrite Reqb_false by lra.
      eexists. split; [reflexivity |]. split; [| split].
      * intros _. split.
        -- assert (Hsc : forall v : complex, (0 < Cabs v)%R ->
                     Cscale (Cabs v) (mkComplex (real v / Cabs v) (imag v / Cabs v)) = v).
           { intros [x y] Hv. unfold Cscale. simpl. f_equal; field; lra. }
           apply Hsc. exact Hpos.
        -- apply (Cdiv_Cabs_unit (Csub L lastPoint)); [exact Hpos |].
           unfold Cdiv. rewrite Reqb_false by lra. reflexivity.
      * intros H0. lra.
      * intros ->. unfold lastPoint in Hpos. simpl in Hpos.
        rewrite Cabs_null in Hpos; simpl; lra.
    + exists Czero. split; [reflexivity |]. split; [| split]; try reflexivity.
      intros Hp. unfold Rltb in Hpos. destruct (Rlt_dec 0 (Cabs (Csub L lastPoint)));
        [discriminate | contradiction].
Qed.

(** C5 as stated fails: on the two moves of [bent_layer] the walk reaches
    the lookahead distance 0.8, and the estimate is (-0.5, -0.5), shorter
    than 1. *)
Lemma tangent_estimate_shorter_than_one :
  exists r,
    getRelativeStretch float_decimal 5 bent_state (mkComplex 0 0) Forward
      (LineIteratorForward.__init__ false 0 bent_layer) = Ret r
    /\ real r = (- (1 / 2))%R /\ imag r = (- (1 / 2))%R
    /\ (Cabs r <= 8 / 10)%R.
Proof.
  eexists. split.
  - run. repeat (first [compare_step | cabs_is (4 / 10)%R]; run). reflexivity.
  - simpl. split; [lra |]. split; [lra |]. apply Cabs_le; simpl; lra.
Qed.

(** The walk over [bent_layer]: one point visited, the second reaches the
    lookahead distance. *)
Lemma tangent_estimate_witness :
  exists r,
    getRelativeStretch float_decimal 5 bent_state (mkComplex 0 0) Forward
      (LineIteratorForward.__init__ false 0 bent_layer) = Ret r
    /\ (Cabs r <= 1)%R.
Proof.
  destruct (tangent_estimate float_decimal 5 bent_state thresholds_default Forward
              (LineIteratorForward.__init__ false 0 bent_layer) (mkComplex 0 0)
              [mkComplex (4 / 10) (0 / 1)]
              (mkIter (Some 0) false 1 bent_layer)) as [Hreach _].
  - reflexivity.
  - eapply walks_cons; [| apply walks_nil]. run. reflexivity.
  - simpl. lia.
  - simpl. cabs_is (4 / 10)%R. lra.
  - destruct (Hreach (mkComplex (4 / 10) (4 / 10)) (mkIter (Some 0) false 2 bent_layer))
      as [r [Hr [_ [_ [_ Hle]]]]].
    + run. reflexivity.
    + simpl. repeat cabs_is (4 / 10)%R. lra.
    + exists r. split; [exact Hr | exact Hle].
Defined.

(** ** Cursors on a loop *)

Lemma py_get_cmd (ls : list Line) (i : Z) :
  0 <= i < len ls -> exists l, py_get ls i = Ret l /\ command l = cmdAt ls i.
Proof.
  intros Hi. destruct (py_get_nth ls i Hi) as [l [Hl _]].
  exists l. split; [exact Hl |]. unfold cmdAt. rewrite Hl. reflexivity.
Qed.

Lemma xrange_nil_eq (a : Z) : xrange a a = [].
Proof. apply xrange_empty. lia. Qed.

Lemma moves_empty ls a b : b <= a -> moves ls a b = O.
Proof. intros H. unfold moves. rewrite xrange_empty by lia. reflexivity. Qed.

Lemma moves_step ls a b :
  a < b -> moves ls a b = ((if isMove ls a then 1 else 0) + moves ls (a + 1) b)%nat.
Proof.
  intros H. unfold moves. rewrite (xrange_step a b H). simpl.
  destruct (isMove ls a); reflexivity.
Qed.

Lemma xrange_app (a b c : Z) : a <= b <= c -> xrange a c = (xrange a b ++ xrange b c)%list.
Proof.
  intros H. remember (Z.to_nat (b - a)) as n eqn:Hn. revert a H Hn.
  induction n as [| n IH]; intros a H Hn.
  - assert (a = b) by lia. subst. rewrite xrange_nil_eq. reflexivity.
  - rewrite (xrange_step a c) by lia. rewrite (xrange_step a b) by lia.
    simpl. f_equal. apply IH; lia.
Qed.

Lemma moves_split ls a b c :
  a <= b <= c -> moves ls a c = (moves ls a b + moves ls b c)%nat.
Proof.
  intros H. unfold moves. rewrite (xrange_app a b c H), filter_app, length_app.
  reflexivity.
Qed.

Lemma moves_last ls a b :
  a < b -> moves ls a b = (moves ls a (b - 1) + (if isMove ls (b - 1) then 1 else 0))%nat.
Proof.
  intros H. rewrite (moves_split ls a (b - 1) b) by lia.
  rewrite (moves_step ls (b - 1) b) by lia.
  replace (b - 1 + 1) with b by lia. rewrite (moves_empty ls b b) by lia. lia.
Qed.

Lemma exhausted_within_ext d fuel k c c' :
  getNext d fuel c = getNext d fuel c' ->
  exhausted_within d fuel (S k) c = exhausted_within d fuel (S k) c'.
Proof. intros H. simpl. rewrite H. reflexivity. Qed.

Lemma exhausted_within_stop d fuel k c :
  getNext d fuel c = Raise StopIteration -> exhausted_within d fuel (S k) c = true.
Proof. intros H. simpl. rewrite H. reflexivity. Qed.

Section ForwardLoop.
Variable ls : list Line.
Variables A D s : Z.
Variable fuel0 : nat.
Hypothesis Hloop : loop_at ls A D.
Hypothesis Hs : A < s <= D.
Hypothesis Hfuel : len ls < Z.of_nat fuel0.

Let at_ (i : Z) : LineIterator := mkIter (Some s) true i ls.

Let fgood := exhausts Forward fuel0.

(** The wrap finds the activate command of the loop, unless it is at index
    0. *)
Lemma fwd_scan (i : Z) :
  A < i <= D ->
  LineIteratorForward.scanActivate ls (xrange_down (i - 1) 0)
  = if 1 <=? A then Ret (A + 1) else Raise StopIteration.
Proof.
  destruct Hloop as [HA [HD [HcA [HcD Hq]]]].
  intros Hi. remember (Z.to_nat (i - A)) as n eqn:Hn. revert i Hi Hn.
  induction n as [| n IH]; intros i Hi Hn; [lia |].
  destruct (Z.eq_dec i (A + 1)) as [-> | Hne].
  - replace (A + 1 - 1) with A by lia.
    destruct (Z.leb_spec 1 A) as [H1 | H0].
    + rewrite xrange_down_step by lia. simpl.
      destruct (py_get_cmd ls A) as [l [Hl Hc]]; [lia |].
      rewrite Hl. simpl. rewrite Hc, HcA. reflexivity.
    + rewrite xrange_down_empty by lia. reflexivity.
  - rewrite xrange_down_step by lia. simpl.
    destruct (py_get_cmd ls (i - 1)) as [l [Hl Hc]]; [lia |].
    rewrite Hl. simpl. rewrite Hc.
    destruct (Hq (i - 1)) as [Hn1 _]; [lia |].
    apply String.eqb_neq in Hn1. rewrite Hn1. apply IH; lia.
Qed.

(** One turn of the loop at index [i], whatever the first index [fi] is,
    once the check of the first index has passed. *)
Lemma fwd_turn (fi : option Z) (i : Z) :
  A < i <= D ->
  fi <> Some i ->
  let c := mkIter fi true i ls in
  LineIteratorForward.body c
  = if i =? D
    then if 1 <=? A
         then Ret (Continue (mkIter (next_first fi i) true (A + 1) ls))
         else Raise StopIteration
    else if isMove ls i
         then match py_get ls i with
              | Ret l => Ret (Return (raw l)
                  (mkIter (next_first fi i) true (i + 1) ls))
              | _ => Raise IndexError
              end
         else Ret (Continue (mkIter (next_first fi i) true (i + 1) ls)).
Proof.
  destruct Hloop as [HA [HD [HcA [HcD Hq]]]].
  intros Hi Hfi c.
  assert (Hcheck : check_first c
            = Ret (mkIter (next_first fi i) true i ls)).
  { unfold check_first, c. simpl. destruct fi as [j |]; [| reflexivity].
    destruct (Z.eqb_spec i j) as [-> | _]; [congruence | reflexivity]. }
  unfold LineIteratorForward.body. rewrite Hcheck. simpl.
  destruct (py_get_cmd ls i) as [l [Hl Hc]]; [lia |].
  rewrite Hl. simpl. unfold isMove. rewrite <- Hc.
  destruct (Z.eqb_spec i D) as [-> | Hne].
  - rewrite Hc, HcD. simpl.
    unfold LineIteratorForward.getIndexJustAfterActivate. simpl.
    rewrite (fwd_scan D) by lia. destruct (1 <=? A); reflexivity.
  - destruct (Hq i) as [_ Hn3]; [lia |]. rewrite <- Hc in Hn3.
    apply String.eqb_neq in Hn3. rewrite Hn3. simpl.
    destruct (command l =? "G1")%string; reflexivity.
Qed.

Let frem := forward_turns_left A D s.
Let fmoves := forward_moves_left ls A D s.

Ltac frem_solve :=
  unfold frem, fmoves, forward_turns_left, forward_moves_left in *;
  repeat match goal with
         | |- context [?a <=? ?b] => destruct (Z.leb_spec a b)
         | H : context [?a <=? ?b] |- _ => destruct (Z.leb_spec a b)
         end;
  try lia.

(** From index [i], with enough turns of fuel and enough calls left for
    the moves still ahead, the cursor gets exhausted.  By induction on the
    turns left. *)
Lemma fwd_good (n : nat) :
  forall i k fuel,
    A < i <= D -> Z.to_nat (frem i) = n -> frem i < Z.of_nat fuel ->
    (fmoves i <= k)%nat ->
    fgood k (LineIteratorForward.loop fuel (at_ i)) = true.
Proof.
  destruct Hloop as [HA [HD [HcA [HcD Hq]]]].
  induction n as [n IH] using lt_wf_ind. intros i k fuel Hi Hn Hf Hk.
  destruct fuel as [| fuel];
    [unfold frem, forward_turns_left in Hf; destruct (Z.leb_spec i s); lia |].
  simpl LineIteratorForward.loop. unfold at_ at 1. simpl lineIndex. simpl lines.
  destruct (Z.ltb_spec i (len ls)) as [_ | Hbad]; [| lia].
  destruct (Z.eq_dec i s) as [-> | Hne].
  - unfold at_, LineIteratorForward.body, check_first. simpl.
    rewrite Z.eqb_refl. reflexivity.
  - unfold at_. rewrite (fwd_turn (Some s) i Hi) by congruence.
    destruct (Z.eqb_spec i D) as [-> | HneD].
    + destruct (Z.leb_spec 1 A) as [H1 | H0]; [| reflexivity].
      simpl bind. assert (HDD : moves ls D D = O) by (apply moves_empty; lia).
      apply (IH (Z.to_nat (frem (A + 1)))); try reflexivity; frem_solve.
    + assert (Hrem : frem (i + 1) = frem i - 1).
      { unfold frem, forward_turns_left.
        destruct (Z.leb_spec i s); destruct (Z.leb_spec (i + 1) s); lia. }
      assert (Hmv : (fmoves i = (if isMove ls i then 1 else 0) + fmoves (i + 1))%nat).
      { unfold fmoves, forward_moves_left.
        destruct (Z.leb_spec i s); destruct (Z.leb_spec (i + 1) s); try lia.
        - apply moves_step. lia.
        - rewrite (moves_step ls i D) by lia. lia. }
      assert (Hpos : 0 < frem i).
      { unfold frem, forward_turns_left. destruct (Z.leb_spec i s); lia. }
      destruct (isMove ls i) eqn:Hm.
      * destruct (py_get_cmd ls i) as [l [Hl _]]; [lia |]. rewrite Hl. simpl bind.
        simpl fgood. destruct k as [| k]; [lia |].
        simpl exhausted_within.
        apply (IH (Z.to_nat (frem (i + 1)))); try lia.
        unfold frem, forward_turns_left. destruct (Z.leb_spec (i + 1) s); lia.
      * simpl bind. apply (IH (Z.to_nat (frem (i + 1)))); lia.
Qed.

Lemma exhausted_within_forward k c :
  exhausted_within Forward fuel0 (S k) c = fgood k (LineIteratorForward.loop fuel0 c).
Proof. reflexivity. Qed.

Lemma fgood_ret k line c :
  fgood (S k) (Ret (line, c)) = fgood k (LineIteratorForward.loop fuel0 c).
Proof. reflexivity. Qed.

Lemma loop_unfold fuel' fuel c :
  fuel' = S fuel ->
  LineIteratorForward.loop fuel' c
  = if lineIndex c <? len (lines c)
    then t <- LineIteratorForward.body c ;;
         match t with
         | Continue c => LineIteratorForward.loop fuel c
         | Return line c => Ret (line, c)
         end
    else Raise StopIteration.
Proof. intros ->. reflexivity. Qed.

(** The first call sets the first index; the rest is [fwd_good]. *)
Lemma forward_exhausts :
  exhausted_within Forward fuel0 (S (moves ls (A + 1) D))
    (LineIteratorForward.__init__ true s ls) = true.
Proof.
  destruct Hloop as [HA [HD [HcA [HcD Hq]]]].
  rewrite exhausted_within_forward.
  assert (Hex : exists fuel, fuel0 = S fuel) by (exists (pred fuel0); lia).
  destruct Hex as [fuel Hf0].
  rewrite (loop_unfold fuel0 fuel _ Hf0).
  unfold LineIteratorForward.__init__, LineIteratorBackward.__init__. simpl lineIndex.
  simpl lines.
  destruct (Z.ltb_spec s (len ls)) as [_ | Hbad]; [| lia].
  rewrite (fwd_turn None s Hs) by congruence.
  destruct (Z.eqb_spec s D) as [HsD | HsD].
  - destruct (Z.leb_spec 1 A) as [H1 | H0]; [| reflexivity].
    simpl bind. apply (fwd_good (Z.to_nat (frem (A + 1)))); try reflexivity; frem_solve.
    subst s. lia.
  - assert (Hrem : frem (s + 1) = D - A - 1) by frem_solve.
    assert (Hmv : (moves ls (A + 1) D
                   = (if isMove ls s then 1 else 0) + fmoves (s + 1))%nat).
    { unfold fmoves, forward_moves_left. destruct (Z.leb_spec (s + 1) s); [lia |].
      rewrite (moves_split ls (A + 1) s D) by lia.
      rewrite (moves_step ls s D) by lia. lia. }
    destruct (isMove ls s) eqn:Hm.
    + destruct (py_get_cmd ls s) as [l [Hl _]]; [lia |]. rewrite Hl. simpl bind.
      rewrite Hmv. change (1 + fmoves (s + 1))%nat with (S (fmoves (s + 1))).
      rewrite fgood_ret.
      apply (fwd_good (Z.to_nat (frem (s + 1)))); try reflexivity; try lia.
    + simpl bind. apply (fwd_good (Z.to_nat (frem (s + 1)))); try reflexivity; lia.
Qed.
End ForwardLoop.

Section BackwardLoop.
Variable ls : list Line.
Variables A D B : Z.
Hypothesis Hloop : loop_at ls A D.
Hypothesis Hclose : cmdAt ls (D - 1) = "G1".
Hypothesis HB : -1 <= B < A.
Hypothesis HBd : B = -1 \/ cmdAt ls B = "M103".
Hypothesis Htail : quiet ls B A.

(** The closing move lies after the activate command. *)
Lemma loop_spans_two_lines : A + 2 <= D.
Proof.
  destruct Hloop as [HA [HD [HcA [HcD Hq]]]].
  destruct (Z.eq_dec (D - 1) A) as [E | E]; [| lia].
  rewrite E, HcA in Hclose. discriminate.
Qed.

(** No deactivate command between the one before the loop and its own. *)
Lemma no_deact (j : Z) : B < j < D -> cmdAt ls j <> "M103".
Proof.
  destruct Hloop as [HA [HD [HcA [HcD Hq]]]].
  intros Hj. destruct (Z.lt_trichotomy j A) as [Hlt | [-> | Hgt]].
  - apply Htail. lia.
  - rewrite HcA. discriminate.
  - apply Hq. lia.
Qed.

(** Every wrap of the backward cursor lands two lines before the deactivate
    command of the loop. *)
Lemma bwd_deact (i : Z) :
  B <= i < D ->
  LineIteratorBackward.scanDeactivate ls (xrange (i + 1) (len ls)) = Ret (D - 2).
Proof.
  destruct Hloop as [HA [HD [HcA [HcD Hq]]]].
  intros Hi. remember (Z.to_nat (D - i)) as n eqn:Hn. revert i Hi Hn.
  induction n as [| n IH]; intros i Hi Hn; [lia |].
  rewrite xrange_step by lia. simpl.
  destruct (py_get_cmd ls (i + 1)) as [l [Hl Hc]]; [lia |].
  rewrite Hl. simpl. rewrite Hc.
  destruct (Z.eq_dec (i + 1) D) as [E | E].
  - rewrite E, HcD. reflexivity.
  - pose proof (no_deact (i + 1)) as Hnd.
    assert (Hne : cmdAt ls (i + 1) <> "M103") by (apply Hnd; lia).
    apply String.eqb_neq in Hne. rewrite Hne. apply IH; lia.
Qed.

(** Scanning for the extrusion start from inside the loop meets the
    deactivate command first. *)
Lemma bwd_before_in (j : Z) (count : Z) :
  A < j <= D ->
  LineIteratorBackward.scanExtrusion ls count (xrange j (len ls)) = Ret false.
Proof.
  destruct Hloop as [HA [HD [HcA [HcD Hq]]]].
  intros Hj. remember (Z.to_nat (D - j)) as n eqn:Hn. revert j count Hj Hn.
  induction n as [| n IH]; intros j count Hj Hn.
  - assert (j = D) by lia. subst j.
    rewrite xrange_step by lia. simpl.
    destruct (py_get_cmd ls D) as [l [Hl Hc]]; [lia |].
    rewrite Hl. simpl. rewrite Hc, HcD. reflexivity.
  - rewrite xrange_step by lia. simpl.
    destruct (py_get_cmd ls j) as [l [Hl Hc]]; [lia |].
    rewrite Hl. simpl. rewrite Hc.
    destruct (Hq j) as [H1 H3]; [lia |].
    apply String.eqb_neq in H1. apply String.eqb_neq in H3. rewrite H1, H3.
    apply IH; lia.
Qed.

(** From before the loop it meets the activate command, having counted
    the moves in between. *)
Lemma bwd_before_out (j : Z) (count : Z) :
  B < j <= A ->
  LineIteratorBackward.scanExtrusion ls count (xrange j (len ls))
  = Ret (0 <? count + Z.of_nat (moves ls j A)).
Proof.
  destruct Hloop as [HA [HD [HcA [HcD Hq]]]].
  intros Hj. remember (Z.to_nat (A - j)) as n eqn:Hn. revert j count Hj Hn.
  induction n as [| n IH]; intros j count Hj Hn.
  - assert (j = A) by lia. subst j.
    rewrite xrange_step by lia. simpl.
    destruct (py_get_cmd ls A) as [l [Hl Hc]]; [lia |].
    rewrite Hl. simpl. rewrite Hc, HcA. simpl.
    rewrite moves_empty by lia. simpl. rewrite Z.add_0_r. reflexivity.
  - rewrite xrange_step by lia. simpl.
    destruct (py_get_cmd ls j) as [l [Hl Hc]]; [lia |].
    rewrite Hl. simpl. rewrite Hc.
    destruct (Htail j) as [H1 H3]; [lia |].
    apply String.eqb_neq in H1. apply String.eqb_neq in H3. rewrite H1, H3.
    rewrite IH by lia. rewrite (moves_step ls j A) by lia.
    unfold isMove. destruct (cmdAt ls j =? "G1")%string; f_equal; f_equal; lia.
Qed.

(** One turn of the backward loop at index [i], once the check of the
    first index has passed. *)
Lemma bwd_turn (fi : option Z) (i : Z) :
  B <= i <= D - 1 -> 0 <= i ->
  fi <> Some i ->
  LineIteratorBackward.body (mkIter fi true i ls)
  = if (cmdAt ls i =? "M103")%string
    then Ret (Continue (mkIter (next_first fi i) true (D - 2) ls))
    else if isMove ls i
         then if (if A <=? i then false else 0 <? Z.of_nat (moves ls (i + 1) A))
              then Ret (Continue (mkIter (next_first fi i) true (D - 2) ls))
              else match py_get ls i with
                   | Ret l => Ret (Return (raw l) (mkIter (next_first fi i) true (i - 1) ls))
                   | _ => Raise IndexError
                   end
         else Ret (Continue (mkIter (next_first fi i) true (i - 1) ls)).
Proof.
  destruct Hloop as [HA [HD [HcA [HcD Hq]]]].
  intros Hi Hi0 Hfi.
  assert (Hcheck : check_first (mkIter fi true i ls)
            = Ret (mkIter (next_first fi i) true i ls)).
  { unfold check_first. simpl. destruct fi as [j |]; [| reflexivity].
    destruct (Z.eqb_spec i j) as [-> | _]; [congruence | reflexivity]. }
  unfold LineIteratorBackward.body. rewrite Hcheck. simpl.
  destruct (py_get_cmd ls i) as [l [Hl Hc]]; [lia |].
  rewrite Hl. simpl. unfold isMove. rewrite <- Hc.
  unfold LineIteratorBackward.getIndexBeforeNextDeactivate,
    LineIteratorBackward.isBeforeExtrusion. simpl.
  rewrite (bwd_deact i) by lia.
  destruct (command l =? "M103")%string eqn:E3.
  - simpl. apply String.eqb_eq in E3. rewrite E3. reflexivity.
  - simpl. destruct (command l =? "G1")%string eqn:E1; [| reflexivity].
    destruct (Z.leb_spec A i) as [HAi | HiA].
    + assert (i <> A).
      { intros ->. rewrite Hc, HcA in E1. discriminate. }
      rewrite (bwd_before_in (i + 1)) by lia. reflexivity.
    + assert (i <> B).
      { intros ->. destruct HBd as [-> | HcB]; [lia |].
        rewrite Hc, HcB in E3. discriminate. }
      rewrite (bwd_before_out (i + 1)) by lia. simpl.
      destruct (0 <? Z.of_nat (moves ls (i + 1) A)); reflexivity.
Qed.

Section Run.
Variable s : Z.
Variable fuel0 : nat.
Hypothesis Hs : A <= s <= D - 2.
Hypothesis Hs1 : 1 <= s.
Hypothesis Hfuel : len ls < Z.of_nat fuel0.

Let at_ (i : Z) : LineIterator := mkIter (Some s) true i ls.

Let bgood := exhausts Backward fuel0.

Let brem := backward_turns_left B D s.
Let bmoves := backward_moves_left ls A B D s.

Ltac zcase :=
  repeat match goal with
         | |- context [Z.eqb ?a ?b] => destruct (Z.eqb_spec a b)
         | |- context [Z.ltb ?a ?b] => destruct (Z.ltb_spec a b)
         | |- context [Z.leb ?a ?b] => destruct (Z.leb_spec a b)
         | |- context [Nat.eqb ?a ?b] => destruct (Nat.eqb_spec a b)
         | H : context [Z.eqb ?a ?b] |- _ => destruct (Z.eqb_spec a b)
         | H : context [Z.ltb ?a ?b] |- _ => destruct (Z.ltb_spec a b)
         | H : context [Z.leb ?a ?b] |- _ => destruct (Z.leb_spec a b)
         | H : context [Nat.eqb ?a ?b] |- _ => destruct (Nat.eqb_spec a b)
         end.

Ltac norm_idx :=
  repeat match goal with
         | |- context [?x - 1 + 1] => replace (x - 1 + 1) with x by lia
         | |- context [?x - 2 + 1] => replace (x - 2 + 1) with (x - 1) by lia
         | H : context [?x - 1 + 1] |- _ => replace (x - 1 + 1) with x in H by lia
         | H : context [?x - 2 + 1] |- _ =>
             replace (x - 2 + 1) with (x - 1) in H by lia
         end.

Ltac bsolve :=
  unfold brem, bmoves, backward_turns_left, backward_moves_left in *;
  norm_idx; zcase; try lia; try discriminate.

Lemma bloop_unfold fuel' fuel c :
  fuel' = S fuel ->
  LineIteratorBackward.loop fuel' c
  = if 0 <=? lineIndex c
    then t <- LineIteratorBackward.body c ;;
         match t with
         | Continue c => LineIteratorBackward.loop fuel c
         | Return line c => Ret (line, c)
         end
    else _ <- (if it_isLoop c
               then LineIteratorBackward.getIndexBeforeNextDeactivate c
               else Ret 0) ;;
         Raise StopIteration.
Proof. intros ->. reflexivity. Qed.

Lemma bgood_ret k line c :
  bgood (S k) (Ret (line, c)) = bgood k (LineIteratorBackward.getNext fuel0 c).
Proof. reflexivity. Qed.

(** A call from index [i]: the wrap of the first lines, then the loop. *)
Lemma bwd_call (i : Z) :
  B <= i < D ->
  LineIteratorBackward.getNext fuel0 (at_ i)
  = LineIteratorBackward.loop fuel0 (at_ (if i <? 1 then D - 2 else i)).
Proof.
  intros Hi. unfold LineIteratorBackward.getNext. unfold at_ at 1. simpl.
  destruct (Z.ltb_spec i 1) as [Hlt | Hge]; [| reflexivity].
  unfold LineIteratorBackward.getIndexBeforeNextDeactivate. simpl.
  rewrite (bwd_deact i) by lia. reflexivity.
Qed.

(** The facts about counting moves around index [i]. *)
Lemma moves_facts (i : Z) :
  (s < i -> moves ls (s + 1) (i + 1)
            = (moves ls (s + 1) i + (if isMove ls i then 1 else 0))%nat)
  /\ (A < i -> moves ls (A + 1) (i + 1)
               = (moves ls (A + 1) i + (if isMove ls i then 1 else 0))%nat)
  /\ (i < A -> moves ls i A
               = ((if isMove ls i then 1 else 0) + moves ls (i + 1) A)%nat)
  /\ moves ls (A + 1) (A + 1) = O /\ moves ls (s + 1) (s + 1) = O /\ moves ls A A = O.
Proof.
  repeat split.
  - intros H. rewrite (moves_last ls (s + 1) (i + 1)) by lia.
    replace (i + 1 - 1) with i by lia. reflexivity.
  - intros H. rewrite (moves_last ls (A + 1) (i + 1)) by lia.
    replace (i + 1 - 1) with i by lia. reflexivity.
  - intros H. apply moves_step. lia.
  - apply moves_empty. lia.
  - apply moves_empty. lia.
  - apply moves_empty. lia.
Qed.

(** From index [i], with enough turns of fuel and enough calls left for
    the moves still ahead, the cursor gets exhausted.  By induction on the
    turns left. *)
Lemma bwd_good (n : nat) :
  forall i k fuel,
    B <= i <= D - 2 -> Z.to_nat (brem i) = n -> brem i < Z.of_nat fuel ->
    (bmoves i <= k)%nat ->
    bgood k (LineIteratorBackward.loop fuel (at_ i)) = true.
Proof.
  destruct Hloop as [HA [HD [HcA [HcD Hq]]]].
  induction n as [n IH] using lt_wf_ind. intros i k fuel Hi Hn Hf Hk.
  assert (Hrem0 : 0 <= brem i) by (unfold brem, backward_turns_left; zcase; lia).
  assert (Hex : exists fuel', fuel = S fuel') by (exists (pred fuel); lia).
  destruct Hex as [fuel' Hfuel'].
  rewrite (bloop_unfold fuel fuel' _ Hfuel'). unfold at_ at 1. simpl lineIndex.
  destruct (Z.leb_spec 0 i) as [Hi0 | Hneg].
  - destruct (Z.eq_dec i s) as [-> | Hne].
    + unfold at_, LineIteratorBackward.body, check_first. simpl.
      rewrite Z.eqb_refl. reflexivity.
    + unfold at_ at 1. rewrite (bwd_turn (Some s) i) by (lia || congruence).
      simpl next_first.
      pose proof (moves_facts i) as [F1 [F2 [F3 [F4 [F5 F6]]]]].
      pose proof (moves_facts (i - 1)) as [G1 [G2 [G3 _]]].
      replace (i - 1 + 1) with i in * by lia.
      pose proof (moves_split ls (A + 1) (s + 1) (D - 1)) as Hsplit.
      destruct (cmdAt ls i =? "M103")%string eqn:E3.
      * (* the deactivate command before the loop *)
        apply String.eqb_eq in E3.
        assert (i = B).
        { destruct (Z.eq_dec i B) as [E | E]; [exact E |].
          exfalso. apply (no_deact i); [lia | exact E3]. }
        subst i. simpl bind.
        apply (IH (Z.to_nat (brem (D - 2)))); try reflexivity; bsolve.
      * destruct (isMove ls i) eqn:Hm.
        -- assert (HiA : i <> A).
           { intros ->. unfold isMove in Hm. rewrite HcA in Hm. discriminate. }
           destruct (if A <=? i then false else 0 <? Z.of_nat (moves ls (i + 1) A))
             eqn:Hwrap.
           ++ (* a move before the last one ahead of the loop: wrap *)
              simpl bind.
              apply (IH (Z.to_nat (brem (D - 2)))); try reflexivity;
                bsolve.
           ++ (* a move that is returned *)
              destruct (py_get_cmd ls i) as [l [Hl _]]; [lia |]. rewrite Hl.
              simpl bind.
              assert (HiB : i <> B).
              { intros ->. destruct HBd as [-> | HcB]; [lia |].
                unfold isMove in Hm. rewrite HcB in Hm. discriminate. }
              assert (Hk1 : (1 <= k)%nat).
              { unfold bmoves, backward_moves_left in Hk. zcase; try lia; try discriminate. }
              destruct k as [| k]; [lia |].
              rewrite bgood_ret. fold (at_ (i - 1)). rewrite (bwd_call (i - 1)) by lia.
              destruct (Z.ltb_spec (i - 1) 1) as [Hlow | Hhigh].
              ** apply (IH (Z.to_nat (brem (D - 2)))); try reflexivity;
                   bsolve.
              ** apply (IH (Z.to_nat (brem (i - 1)))); try reflexivity;
                   bsolve.
        -- (* any other line *)
           simpl bind.
           assert (HiB : i <> B).
           { intros ->. destruct HBd as [-> | HcB]; [lia |].
             rewrite HcB in E3. discriminate. }
           apply (IH (Z.to_nat (brem (i - 1)))); try reflexivity;
             bsolve.
  - (* below the first line *)
    unfold at_. simpl it_isLoop.
    unfold LineIteratorBackward.getIndexBeforeNextDeactivate. simpl.
    rewrite (bwd_deact i) by lia. reflexivity.
Qed.

Lemma exhausted_within_backward k c :
  exhausted_within Backward fuel0 (S k) c
  = bgood k (LineIteratorBackward.getNext fuel0 c).
Proof. reflexivity. Qed.

(** The closing move is one of the moves of the loop. *)
Lemma moves_loop :
  moves ls (A + 1) D = S (moves ls (A + 1) (D - 1)).
Proof.
  pose proof loop_spans_two_lines as H2. rewrite (moves_last ls (A + 1) D) by lia.
  unfold isMove. rewrite Hclose. simpl. lia.
Qed.

(** A cursor started past the first line: its first call sets the first
    index, the rest is [bwd_good]. *)
Lemma backward_exhausts_pos :
  exhausted_within Backward fuel0 (S (moves ls (A + 1) D))
    (LineIteratorBackward.__init__ true s ls) = true.
Proof.
  destruct Hloop as [HA [HD [HcA [HcD Hq]]]].
  rewrite exhausted_within_backward.
  unfold LineIteratorBackward.getNext, LineIteratorBackward.__init__. simpl lineIndex.
  destruct (Z.ltb_spec s 1) as [Hlt | _]; [lia |]. simpl bind.
  assert (Hex : exists fuel, fuel0 = S fuel) by (exists (pred fuel0); lia).
  destruct Hex as [fuel Hf0].
  rewrite (bloop_unfold fuel0 fuel _ Hf0). simpl lineIndex.
  destruct (Z.leb_spec 0 s) as [_ | Hneg]; [| lia].
  rewrite (bwd_turn None s) by (lia || congruence). simpl next_first.
  pose proof (moves_facts s) as [_ [F2 [_ [F4 [F5 F6]]]]].
  pose proof (moves_split ls (A + 1) (s + 1) (D - 1)) as Hsplit.
  pose proof moves_loop as HN.
  assert (Hn3 : (cmdAt ls s =? "M103")%string = false).
  { apply String.eqb_neq. apply no_deact. lia. }
  rewrite Hn3.
  destruct (isMove ls s) eqn:Hm.
  - assert (HsA : s <> A).
    { intros ->. unfold isMove in Hm. rewrite HcA in Hm. discriminate. }
    destruct (Z.leb_spec A s) as [_ | Hbad]; [| lia].
    destruct (py_get_cmd ls s) as [l [Hl _]]; [lia |]. rewrite Hl. simpl bind.
    rewrite HN, bgood_ret. fold (at_ (s - 1)). rewrite (bwd_call (s - 1)) by lia.
    destruct (Z.ltb_spec (s - 1) 1) as [Hlow | Hhigh].
    + apply (bwd_good (Z.to_nat (brem (D - 2)))); try reflexivity; bsolve.
    + apply (bwd_good (Z.to_nat (brem (s - 1)))); try reflexivity; bsolve.
  - simpl bind. fold (at_ (s - 1)).
    apply (bwd_good (Z.to_nat (brem (s - 1)))); try reflexivity; bsolve.
Qed.
End Run.

(** A cursor started on the first line wraps at once: it is the cursor
    started two lines before the deactivate command. *)
Lemma backward_exhausts (s : Z) (fuel0 : nat) :
  A <= s <= D - 2 ->
  len ls < Z.of_nat fuel0 ->
  exhausted_within Backward fuel0 (S (moves ls (A + 1) D))
    (LineIteratorBackward.__init__ true s ls) = true.
Proof.
  destruct Hloop as [HA [HD [HcA [HcD Hq]]]].
  intros Hs Hfuel. destruct (Z.le_gt_cases 1 s) as [Hs1 | Hs0].
  - apply backward_exhausts_pos; assumption.
  - assert (s = 0) by lia. subst s. assert (A = 0) by lia. assert (B = -1) by lia.
    assert (Hwrap : LineIteratorBackward.getNext fuel0
                      (LineIteratorBackward.__init__ true 0 ls)
                    = LineIteratorBackward.loop fuel0 (mkIter None true (D - 2) ls)).
    { unfold LineIteratorBackward.getNext, LineIteratorBackward.__init__. simpl.
      unfold LineIteratorBackward.getIndexBeforeNextDeactivate. simpl.
      pose proof (bwd_deact 0 ltac:(lia)) as Hd0. simpl in Hd0. rewrite Hd0.
      reflexivity. }
    destruct (Z.le_gt_cases 1 (D - 2)) as [Hbig | Hsmall].
    + rewrite (exhausted_within_ext Backward fuel0 _ _
                 (LineIteratorBackward.__init__ true (D - 2) ls)).
      * apply backward_exhausts_pos; lia.
      * unfold getNext. rewrite Hwrap.
        unfold LineIteratorBackward.getNext, LineIteratorBackward.__init__.
        simpl lineIndex.
        destruct (Z.ltb_spec (D - 2) 1) as [Hlt | _]; [lia |]. reflexivity.
    + pose proof loop_spans_two_lines as H2. assert (HD0 : D - 2 = 0) by lia.
      assert (Hex : exists fuel, fuel0 = S (S fuel)).
      { exists (fuel0 - 2)%nat. unfold len in *. lia. }
      destruct Hex as [fuel Hf0].
      assert (Hstop : getNext Backward fuel0 (LineIteratorBackward.__init__ true 0 ls)
                      = Raise StopIteration).
      { unfold getNext. rewrite Hwrap, HD0, Hf0.
        rewrite (bloop_unfold _ _ _ eq_refl). simpl lineIndex.
        change (0 <=? 0) with true. cbv iota.
        rewrite (bwd_turn None 0) by (lia || congruence). simpl next_first.
        assert (Hc0 : cmdAt ls 0 = "M101") by (replace 0 with A by lia; exact HcA).
        unfold isMove. rewrite Hc0. simpl.
        unfold LineIteratorBackward.getIndexBeforeNextDeactivate. simpl.
        pose proof (bwd_deact (-1) ltac:(lia)) as Hd1. simpl in Hd1. rewrite Hd1.
        reflexivity. }
      apply exhausted_within_stop. exact Hstop.
Qed.
End BackwardLoop.

Lemma square_layer_loop : loop_at square_layer 1 5.
Proof.
  unfold loop_at. repeat split; try reflexivity; try lia.
  - assert (Hc : i = 2 \/ i = 3 \/ i = 4) by lia.
    destruct Hc as [-> | [-> | ->]]; discriminate.
  - assert (Hc : i = 2 \/ i = 3 \/ i = 4) by lia.
    destruct Hc as [-> | [-> | ->]]; discriminate.
Qed.

(** On [square_layer], a loop of 3 moves, the forward cursor started on the
    activate line (index 1) returns a line at each of its first 4 calls, and
    the fourth call leaves it as the first did: it is not exhausted within 4
    calls, nor within 100. *)
Lemma cursor_on_activate_line_cycles :
  moves square_layer 2 5 = 3%nat
  /\ getNext Forward 10 (LineIteratorForward.__init__ true 1 square_layer)
     = Ret ("G1 X1 Y0", mkIter (Some 1) true 3 square_layer)
  /\ getNext Forward 10 (mkIter (Some 1) true 3 square_layer)
     = Ret ("G1 X1 Y1", mkIter (Some 1) true 4 square_layer)
  /\ getNext Forward 10 (mkIter (Some 1) true 4 square_layer)
     = Ret ("G1 X0 Y0", mkIter (Some 1) true 5 square_layer)
  /\ getNext Forward 10 (mkIter (Some 1) true 5 square_layer)
     = Ret ("G1 X1 Y0", mkIter (Some 1) true 3 square_layer)
  /\ exhausted_within Forward 10 4 (LineIteratorForward.__init__ true 1 square_layer)
     = false
  /\ exhausted_within Forward 10 100 (LineIteratorForward.__init__ true 1 square_layer)
     = false.
Proof. repeat split; vm_compute; reflexivity. Qed.

(** That cursor is never exhausted: after the first call it goes round the
    three moves of the loop. *)
Lemma cursor_on_activate_line_cycles_forever (k : nat) :
  exhausted_within Forward 10 k (LineIteratorForward.__init__ true 1 square_layer) = false.
Proof.
  assert (Hcycle : forall k i, i = 3 \/ i = 4 \/ i = 5 ->
            exhausted_within Forward 10 k (mkIter (Some 1) true i square_layer) = false).
  { clear k. induction k as [| k IH]; intros i Hi; [reflexivity |].
    destruct Hi as [-> | [-> | ->]]; simpl exhausted_within.
    - change (getNext Forward 10 (mkIter (Some 1) true 3 square_layer))
        with (@Ret (string * LineIterator) ("G1 X1 Y1", mkIter (Some 1) true 4 square_layer)).
      apply IH. auto.
    - change (getNext Forward 10 (mkIter (Some 1) true 4 square_layer))
        with (@Ret (string * LineIterator) ("G1 X0 Y0", mkIter (Some 1) true 5 square_layer)).
      apply IH. auto.
    - change (getNext Forward 10 (mkIter (Some 1) true 5 square_layer))
        with (@Ret (string * LineIterator) ("G1 X1 Y0", mkIter (Some 1) true 3 square_layer)).
      apply IH. auto. }
  destruct k as [| k]; [reflexivity |]. simpl exhausted_within.
  change (getNext Forward 10 (LineIteratorForward.__init__ true 1 square_layer))
    with (@Ret (string * LineIterator) ("G1 X1 Y0", mkIter (Some 1) true 3 square_layer)).
  apply Hcycle. auto.
Qed.


(** Where the cursors of a loop are exhausted.  Take a loop of the layer:
    the activate command at index [A], the deactivate command at [D],
    neither in between, and N linear moves between them.  A forward cursor with the loop flag
    set that starts after [A] and no later than [D] is exhausted within N+1
    calls.  So is a backward cursor that starts at [A] or later and at least
    two lines before [D], when the line before [D] is a linear move and no
    activate or deactivate command lies between the loop and the deactivate
    command before it (or the start of the layer).  Any fuel above the
    length of the layer is enough for every call. *)
Theorem loop_cursor_exhausts (ls : list Line) (A D s : Z) (fuel : nat) :
  loop_at ls A D ->
  len ls < Z.of_nat fuel ->
  (A < s <= D ->
   exhausted_within Forward fuel (S (moves ls (A + 1) D))
     (LineIteratorForward.__init__ true s ls) = true)
  /\ (forall B,
        A <= s <= D - 2 ->
        cmdAt ls (D - 1) = "G1" ->
        -1 <= B < A ->
        B = -1 \/ cmdAt ls B = "M103" ->
        quiet ls B A ->
        exhausted_within Backward fuel (S (moves ls (A + 1) D))
          (LineIteratorBackward.__init__ true s ls) = true).
Proof.
  intros Hloop Hfuel. split.
  - intros Hs. apply forward_exhausts; assumption.
  - intros B Hs Hclose HB HBd Htail. apply (backward_exhausts ls A D B); assumption.
Qed.

(** On [square_layer]: a forward cursor from index 3 and a backward cursor
    from index 2. *)
Lemma loop_cursor_exhausts_witness :
  exhausted_within Forward 10 (S (moves square_layer 2 5))
    (LineIteratorForward.__init__ true 3 square_layer) = true
  /\ exhausted_within Backward 10 (S (moves square_layer 2 5))
       (LineIteratorBackward.__init__ true 2 square_layer) = true.
Proof.
  destruct (loop_cursor_exhausts square_layer 1 5 3 10 square_layer_loop) as [Hf _];
    [reflexivity |].
  destruct (loop_cursor_exhausts square_layer 1 5 2 10 square_layer_loop) as [_ Hb];
    [reflexivity |].
  split.
  - apply Hf. lia.
  - apply (Hb (-1)).
    + lia.
    + reflexivity.
    + lia.
    + left. reflexivity.
    + intros i Hi. assert (i = 0) by lia. subst i. split; discriminate.
Defined.

(** A backward cursor started on the line just before the deactivate
    command wraps to two lines before it and never meets its first index
    again: its fifth call leaves it as the second did. *)
Lemma backward_cursor_before_deactivate_cycles :
  getNext Backward 10 (LineIteratorBackward.__init__ true 4 square_layer)
  = Ret ("G1 X0 Y0", mkIter (Some 4) true 3 square_layer)
  /\ getNext Backward 10 (mkIter (Some 4) true 3 square_layer)
     = Ret ("G1 X1 Y1", mkIter (Some 4) true 2 square_layer)
  /\ getNext Backward 10 (mkIter (Some 4) true 2 square_layer)
     = Ret ("G1 X1 Y0", mkIter (Some 4) true 1 square_layer)
  /\ getNext Backward 10 (mkIter (Some 4) true 1 square_layer)
     = Ret ("G1 X0 Y0", mkIter (Some 4) true (-1) square_layer)
  /\ getNext Backward 10 (mkIter (Some 4) true (-1) square_layer)
     = Ret ("G1 X1 Y1", mkIter (Some 4) true 2 square_layer)
  /\ exhausted_within Backward 10 100 (LineIteratorBackward.__init__ true 4 square_layer)
     = false.
Proof. repeat split; vm_compute; reflexivity. Qed.

(** When the line before the deactivate command is not a linear move, a
    backward cursor may need one call more: on [trailing_layer], with two
    moves in the loop, the cursor from index 2 returns the move at 2, the
    approach move and the move at 3 before it is exhausted. *)
Lemma backward_cursor_needs_closing_move :
  moves trailing_layer 2 5 = 2%nat
  /\ exhausted_within Backward 10 3 (LineIteratorBackward.__init__ true 2 trailing_layer)
     = false
  /\ exhausted_within Backward 10 4 (LineIteratorBackward.__init__ true 2 trailing_layer)
     = true.
Proof. split; [reflexivity |]. split; vm_compute; reflexivity. Qed.

(** ** Worked instances of the lemmas above *)


(** A move that says F300, read by a filter that is not extruding, leaves
    300 as the carried feed rate. *)
Lemma nonzero_feed_rate_is_carried_witness :
  feedRateMinute
    (set_oldLocation
       (set_feedRateMinute (StretchFilter__init__ StretchRepository_default) 300)
       (mkVector3 (1 / 1) 0 0))
  = 300%R.
Proof.
  apply (nonzero_feed_rate_is_carried float_decimal 5
           (StretchFilter__init__ StretchRepository_default) ["G1"; "X1"; "F300"]
           (mkLine "G1 X1 F300" "G1" (Some 300%R)) 300 (Verbatim "G1 X1 F300")).
  - reflexivity.
  - lra.
  - run. rewrite (Reqb_false 300 0) by lra. reflexivity.
Defined.

(** In an inner edge, a line with the text [(/edge>)] resets the state. *)
Lemma edge_end_literal_resets_witness :
  exists self',
    parse_line float_decimal 5 lone_state (ln "" "(/edge>)") = Ret self'
    /\ isLoop self' = false
    /\ thread_maximum_absolute_stretch self' = pathAbsoluteStretch thresholds_default.
Proof.
  apply (edge_end_literal_resets float_decimal 5 lone_state thresholds_default "" None).
  reflexivity.
Defined.

(** * Properties of the lines, the cursors and whole programs *)

(** ** Words and coordinates of a line *)

Lemma find_range (s : string) (c : ascii) : -1 <= find s c < Z.of_nat (String.length s).
Proof.
  induction s as [| a s IH]; simpl; [lia |].
  destruct (Ascii.eqb a c); [lia |].
  destruct (Z.ltb_spec (find s c) 0); lia.
Qed.

Lemma find_occurs (s : string) (c : ascii) : (0 <=? find s c) = occurs c s.
Proof.
  induction s as [| a s IH]; simpl; [reflexivity |].
  destruct (Ascii.eqb a c); simpl; [reflexivity |].
  pose proof (find_range s c) as Hr.
  destruct (Z.ltb_spec (find s c) 0) as [Hlt | Hge].
  - rewrite <- IH. destruct (Z.leb_spec 0 (find s c)); [lia | reflexivity].
  - rewrite <- IH. destruct (Z.leb_spec 0 (find s c)); destruct (Z.leb_spec 0 (find s c + 1)); lia || reflexivity.
Qed.

Lemma occurs_app (c : ascii) (s t : string) : occurs c (s ++ t) = occurs c s || occurs c t.
Proof.
  induction s as [| a s IH]; simpl; [reflexivity |].
  rewrite IH. apply orb_assoc.
Qed.

(** The text before the first [c] holds no [c]. *)
Lemma upto_find (s : string) (c : ascii) (t : string) :
  occurs c s = false -> upto (s ++ String c t) (find (s ++ String c t) c) = s.
Proof.
  unfold upto. induction s as [| a s IH]; simpl; intros H.
  - rewrite Ascii.eqb_refl. simpl. destruct t; reflexivity.
  - apply orb_false_iff in H. destruct H as [Ha Hs]. rewrite Ha.
    pose proof (find_range (s ++ String c t) c) as Hr.
    assert (Hocc : (0 <=? find (s ++ String c t) c) = true).
    { rewrite find_occurs, occurs_app. simpl. rewrite Ascii.eqb_refl.
      apply orb_true_r. }
    apply Z.leb_le in Hocc.
    destruct (Z.ltb_spec (find (s ++ String c t) c) 0) as [Hlt | _]; [lia |].
    replace (Z.to_nat (find (s ++ String c t) c + 1))
      with (S (Z.to_nat (find (s ++ String c t) c))) by lia.
    simpl. f_equal. apply IH. exact Hs.
Qed.

(** Every line with a [c] splits at the first one. *)
Lemma split_at_first (s : string) (c : ascii) :
  occurs c s = true ->
  exists pre post, s = pre ++ String c post /\ occurs c pre = false.
Proof.
  induction s as [| a s IH]; simpl; intros H; [discriminate |].
  destruct (Ascii.eqb a c) eqn:Ha.
  - apply Ascii.eqb_eq in Ha. subst a. exists "", s. split; reflexivity.
  - simpl in H. destruct (IH H) as [pre [post [Heq Hpre]]].
    exists (String a pre), post. split; [simpl; f_equal; exact Heq |].
    simpl. rewrite Ha. exact Hpre.
Qed.

Lemma wordlike_snoc (w : string) (c : ascii) :
  isspace c = false ->
  (w = "" \/ wordlike w) -> wordlike (w ++ String c "").
Proof.
  intros Hc Hw. split.
  - destruct w; discriminate.
  - intros x Hx. rewrite occurs_app in Hx. simpl in Hx.
    rewrite orb_false_r in Hx. apply orb_true_iff in Hx.
    destruct Hx as [Hx | Hx].
    + destruct Hw as [-> | [_ Hw]]; [discriminate | apply Hw; exact Hx].
    + apply Ascii.eqb_eq in Hx. subst x. exact Hc.
Qed.

Lemma split_from_wordlike (s : string) :
  forall word x,
    (forall w, word = Some w -> wordlike w) ->
    In x (split_from word s) -> wordlike x.
Proof.
  induction s as [| c s IH]; intros word x Hw Hx; simpl in Hx.
  - destruct word as [w |]; simpl in Hx; [| contradiction].
    destruct Hx as [<- | []]. apply Hw. reflexivity.
  - destruct (isspace c) eqn:Hc.
    + destruct word as [w |].
      * destruct Hx as [<- | Hx]; [apply Hw; reflexivity |].
        apply (IH None x); [discriminate | exact Hx].
      * apply (IH None x); [discriminate | exact Hx].
    + apply (IH _ x) in Hx; [exact Hx |].
      intros w' Hw'. injection Hw' as <-.
      destruct word as [w |].
      * apply wordlike_snoc; [exact Hc | right; apply Hw; reflexivity].
      * apply (wordlike_snoc "" c Hc). left. reflexivity.
Qed.

(** The characters of the words are characters of the text. *)
Lemma split_from_occurs (s : string) :
  forall word x c,
    In x (split_from word s) -> occurs c x = true ->
    occurs c s = true \/ exists w, word = Some w /\ occurs c w = true.
Proof.
  induction s as [| a s IH]; intros word x c Hx Hc; simpl in Hx.
  - destruct word as [w |]; simpl in Hx; [| contradiction].
    destruct Hx as [<- | []]. right. exists w. split; [reflexivity | exact Hc].
  - destruct (isspace a) eqn:Ha.
    + destruct word as [w |].
      * destruct Hx as [<- | Hx]; [right; exists w; split; [reflexivity | exact Hc] |].
        destruct (IH None x c Hx Hc) as [H | [w' [H _]]]; [| discriminate].
        left. simpl. rewrite H. apply orb_true_r.
      * destruct (IH None x c Hx Hc) as [H | [w' [H _]]]; [| discriminate].
        left. simpl. rewrite H. apply orb_true_r.
    + destruct (IH _ x c Hx Hc) as [H | [w' [Hw' H]]].
      * left. simpl. rewrite H. apply orb_true_r.
      * injection Hw' as <-. destruct word as [w |].
        -- rewrite occurs_app in H. simpl in H. rewrite orb_false_r in H.
           apply orb_true_iff in H. destruct H as [H | H].
           ++ right. exists w. split; [reflexivity | exact H].
           ++ left. simpl. rewrite H. reflexivity.
        -- simpl in H. rewrite orb_false_r in H. left. simpl. rewrite H. reflexivity.
Qed.

Lemma occurs_substring (c : ascii) (s : string) (n : nat) :
  occurs c (substring 0 n s) = true -> occurs c s = true.
Proof.
  revert n. induction s as [| a s IH]; intros n H.
  - destruct n; simpl in H; discriminate.
  - destruct n as [| n]; simpl in H; [discriminate |].
    simpl. apply orb_true_iff in H. destruct H as [H | H].
    + rewrite H. reflexivity.
    + rewrite (IH n H). apply orb_true_r.
Qed.

Lemma beforeSemicolon_clean (line : string) : occurs ";" (beforeSemicolon line) = false.
Proof.
  unfold beforeSemicolon. rewrite find_occurs.
  destruct (occurs ";" line) eqn:H; [| exact H].
  destruct (split_at_first line ";" H) as [pre [post [-> Hpre]]].
  rewrite upto_find by exact Hpre. exact Hpre.
Qed.

Lemma getSplit_In (line x : string) :
  In x (getSplitLineBeforeBracketSemicolon line) ->
  exists n, In x (split (substring 0 n (beforeSemicolon line))).
Proof.
  unfold getSplitLineBeforeBracketSemicolon. fold (beforeSemicolon line).
  set (l := beforeSemicolon line).
  destruct (0 <? find l "(").
  - unfold upto. intros H. eexists. exact H.
  - intros H. exists (String.length l).
    assert (Hs : forall s, substring 0 (String.length s) s = s).
    { induction s as [| a s IH]; simpl; [reflexivity | rewrite IH; reflexivity]. }
    rewrite Hs. exact H.
Qed.

(** The words of a split line are not empty and hold neither a blank nor a
    semicolon. *)
Lemma getSplit_words (line x : string) :
  In x (getSplitLineBeforeBracketSemicolon line) ->
  wordlike x /\ occurs ";" x = false.
Proof.
  intros H. destruct (getSplit_In line x H) as [n Hn]. split.
  - apply (split_from_wordlike (substring 0 n (beforeSemicolon line)) None x);
      [discriminate | exact Hn].
  - destruct (occurs ";" x) eqn:Hx; [| reflexivity].
    destruct (split_from_occurs (substring 0 n (beforeSemicolon line)) None x ";" Hn Hx) as [Ho | [w [Hw _]]];
      [| discriminate].
    apply occurs_substring in Ho. rewrite beforeSemicolon_clean in Ho. discriminate.
Qed.

Lemma scanWords_value (letter : ascii) (words : list string) :
  (forall w, In w words -> w <> "") ->
  forall wordIndex,
    exists i, scanWords letter wordIndex words = Ret i
      /\ (i = -1 \/ wordIndex <= i < wordIndex + len words).
Proof.
  induction words as [| w words IH]; intros Hw k; simpl.
  - exists (-1). split; [reflexivity | left; reflexivity].
  - destruct w as [| a w]; [exfalso; apply (Hw ""); [left; reflexivity | reflexivity] |].
    destruct (Ascii.eqb a letter).
    + exists k. split; [reflexivity |]. right. unfold len. simpl length. lia.
    + destruct (IH (fun w' H => Hw w' (or_intror H)) (k + 1)) as [i [Hi Hr]].
      exists i. split; [exact Hi |]. unfold len in *. simpl length.
      destruct Hr as [-> | Hr]; [left; reflexivity | right; lia].
Qed.

Section Coordinates.
Variable float : string -> option R.

Lemma getDouble_returns (character : ascii) (splitLine : list string) :
  (forall w, In w splitLine -> w <> "") ->
  exists r, getDoubleFromCharacterSplitLine float character splitLine = Ret r.
Proof.
  intros Hw. unfold getDoubleFromCharacterSplitLine, getIndexOfStartingWithSecond.
  destruct splitLine as [| cmd words]; [exists None; reflexivity |].
  simpl tl.
  destruct (scanWords_value character words (fun w H => Hw w (or_intror H)) 1)
    as [i [Hi Hr]].
  rewrite Hi. simpl bind.
  destruct Hr as [-> | Hr]; [exists None; reflexivity |].
  destruct (Z.ltb_spec i 0) as [Hneg | _]; [lia |].
  destruct (py_get_nth (cmd :: words) i) as [w [Hget _]].
  { unfold len in *. simpl length. lia. }
  rewrite Hget. simpl. eexists. reflexivity.
Qed.

Lemma getDoubleValue_returns (character : ascii) (splitLine : list string) (value : R) :
  (forall w, In w splitLine -> w <> "") ->
  exists r, getDoubleFromCharacterSplitLineValue float character splitLine value = Ret r.
Proof.
  intros Hw. unfold getDoubleFromCharacterSplitLineValue.
  destruct (getDouble_returns character splitLine Hw) as [r ->]. simpl.
  destruct r; eexists; reflexivity.
Qed.

Lemma getLocation_returns (old : option Vector3) (splitLine : list string) :
  (forall w, In w splitLine -> w <> "") ->
  exists v, getLocationFromSplitLine float old splitLine = Ret v.
Proof.
  intros Hw. unfold getLocationFromSplitLine.
  destruct (getDoubleValue_returns "X" splitLine
              (vx match old with None => Vector3_default | Some v => v end) Hw) as [x ->].
  destruct (getDoubleValue_returns "Y" splitLine
              (vy match old with None => Vector3_default | Some v => v end) Hw) as [y ->].
  destruct (getDoubleValue_returns "Z" splitLine
              (vz match old with None => Vector3_default | Some v => v end) Hw) as [z ->].
  simpl. eexists. reflexivity.
Qed.

(** The location of a line is always there: on the words of a split line
    no coordinate lookup raises, whatever the text of the line. *)
Theorem location_of_split_line_returns (old : option Vector3) (line : string) :
  exists v,
    getLocationFromSplitLine float old (getSplitLineBeforeBracketSemicolon line) = Ret v.
Proof.
  apply getLocation_returns. intros w Hw.
  destruct (getSplit_words line w Hw) as [[Hne _] _]. exact Hne.
Qed.

End Coordinates.

(** ** Feature markers *)

Lemma append_nil (w : string) : w ++ "" = w.
Proof. induction w; simpl; [reflexivity | f_equal; assumption]. Qed.

Lemma append_snoc (w : string) (c : ascii) (y : string) :
  (w ++ String c "") ++ y = w ++ String c y.
Proof. induction w; simpl; [reflexivity | f_equal; assumption]. Qed.

Lemma split_from_some (s : string) :
  forall w, exists y rest, split_from (Some w) s = (w ++ y) :: rest.
Proof.
  induction s as [| c s IH]; intros w; simpl.
  - exists "", []. rewrite append_nil. reflexivity.
  - destruct (isspace c).
    + exists "", (split_from None s). rewrite append_nil. reflexivity.
    + destruct (IH (w ++ String c "")) as [y [rest H]].
      exists (String c y), rest. rewrite H, append_snoc. reflexivity.
Qed.

(** A line whose first character is neither a blank nor a semicolon has a
    first word, which starts with that character. *)
Lemma first_word (a : ascii) (s : string) :
  isspace a = false -> a <> ";"%char ->
  exists w, py_get (getSplitLineBeforeBracketSemicolon (String a s)) 0 = Ret (String a w).
Proof.
  intros Ha Hsemi.
  assert (Hb : exists s', beforeSemicolon (String a s) = String a s').
  { unfold beforeSemicolon. simpl find.
    destruct (Ascii.eqb_spec a ";") as [-> | _]; [congruence |].
    pose proof (find_range s ";") as Hr.
    destruct (Z.ltb_spec (find s ";") 0) as [Hlt | Hge].
    - simpl. eexists. reflexivity.
    - destruct (Z.leb_spec 0 (find s ";" + 1)); [| lia].
      unfold upto. replace (Z.to_nat (find s ";" + 1)) with (S (Z.to_nat (find s ";"))) by lia.
      simpl. eexists. reflexivity. }
  destruct Hb as [s' Hb].
  unfold getSplitLineBeforeBracketSemicolon. fold (beforeSemicolon (String a s)).
  rewrite Hb.
  assert (Hsplit : forall t, exists w rest, split (String a t) = String a w :: rest).
  { intros t. unfold split. simpl. rewrite Ha.
    destruct (split_from_some t (String a "")) as [y [rest H]].
    exists y, rest. rewrite H. reflexivity. }
  destruct (0 <? find (String a s') "(") eqn:Hbr.
  - apply Z.ltb_lt in Hbr. unfold upto.
    destruct (Z.to_nat (find (String a s') "(")) as [| n] eqn:Hn; [lia |].
    simpl substring. destruct (Hsplit (substring 0 n s')) as [w [rest H]].
    rewrite H. exists w. reflexivity.
  - destruct (Hsplit s') as [w [rest H]]. rewrite H. exists w. reflexivity.
Qed.

Lemma startswith_app (s p : string) :
  startswith s p = true -> exists rest, s = p ++ rest.
Proof.
  unfold startswith. revert s. induction p as [| a p IH]; intros s H.
  - exists s. reflexivity.
  - destruct s as [| b s]; simpl in H; [discriminate |].
    destruct (Ascii.ascii_dec a b) as [-> | Hne]; [| discriminate].
    destruct (IH s H) as [rest ->]. exists rest. reflexivity.
Qed.

Section Markers.
Variable float : string -> option R.
Variable fuel : nat.
Variable self : StretchFilter.
Variable t : Thresholds.
Hypothesis Ht : thresholds self = Some t.

(** A line that starts with an opening bracket is no command. *)
Lemma bracket_line (line : Line) (rest : string) :
  raw line = String "(" rest ->
  parse_line float fuel self line
  = self' <-
      (if is_loop_begin line
       then Ret (set_stretch self true (loopMaximumAbsoluteStretch t))
       else if is_loop_end line then Ret (set_stretch self false (pathAbsoluteStretch t))
       else if is_inner_edge_begin line
            then Ret (set_stretch self true (edgeInsideAbsoluteStretch t))
       else if is_outer_edge_begin line
            then Ret (set_stretch self true (edgeOutsideAbsoluteStretch t))
       else if is_edge_end line then Ret (set_stretch self false (pathAbsoluteStretch t))
       else Ret self) ;;
    Ret (addLine self' (Verbatim (raw line))).
Proof.
  intros Hraw. unfold parse_line. rewrite Hraw at 1.
  destruct (first_word "(" rest) as [w Hw]; [reflexivity | discriminate |].
  rewrite Hw. simpl bind.
  unfold set_stretch_to_path, attr. rewrite Ht. simpl bind.
  destruct (is_loop_begin line); [reflexivity |].
  destruct (is_loop_end line); [reflexivity |].
  destruct (is_inner_edge_begin line); [reflexivity |].
  destruct (is_outer_edge_begin line); [reflexivity |].
  destruct (is_edge_end line); reflexivity.
Qed.

End Markers.

(** The opening markers of a loop and of an edge set the loop flag
    and select the maximum stretch of their kind, the closing marker of a
    loop clears the flag and selects the path stretch; the line is copied. *)
Theorem feature_markers float fuel self t line :
  thresholds self = Some t ->
  let into (isLoop : bool) (stretch : R) :=
    parse_line float fuel self line
    = Ret (addLine (set_stretch self isLoop stretch) (Verbatim (raw line))) in
  (is_loop_begin line = true -> into true (loopMaximumAbsoluteStretch t))
  /\ (is_inner_edge_begin line = true -> into true (edgeInsideAbsoluteStretch t))
  /\ (is_outer_edge_begin line = true -> into true (edgeOutsideAbsoluteStretch t))
  /\ (is_loop_end line = true -> into false (pathAbsoluteStretch t)).
Proof.
  intros Ht into. unfold into.
  unfold is_loop_begin, is_inner_edge_begin, is_outer_edge_begin, is_loop_end.
  repeat split; intros H.
  - destruct (startswith_app _ _ H) as [rest Hr].
    rewrite (bracket_line float fuel self t Ht line _ Hr).
    unfold is_loop_begin. rewrite H. reflexivity.
  - apply andb_true_iff in H. destruct H as [H Hn].
    destruct (startswith_app _ _ H) as [rest Hr].
    rewrite (bracket_line float fuel self t Ht line _ Hr).
    unfold is_loop_begin, is_loop_end, is_inner_edge_begin. rewrite H, Hn.
    rewrite Hr. reflexivity.
  - destruct (startswith_app _ _ H) as [rest Hr].
    rewrite (bracket_line float fuel self t Ht line _ Hr).
    unfold is_loop_begin, is_loop_end, is_inner_edge_begin, is_outer_edge_begin.
    rewrite H. rewrite Hr. reflexivity.
  - destruct (startswith_app _ _ H) as [rest Hr].
    rewrite (bracket_line float fuel self t Ht line _ Hr).
    unfold is_loop_begin, is_loop_end. rewrite H. rewrite Hr. reflexivity.
Qed.

(** ** Lines without a word *)

Lemma find_app (s : string) (c : ascii) (t : string) :
  occurs c s = false -> find (s ++ String c t) c = Z.of_nat (String.length s).
Proof.
  induction s as [| a s IH]; simpl; intros H.
  - rewrite Ascii.eqb_refl. reflexivity.
  - apply orb_false_iff in H. destruct H as [Ha Hs]. rewrite Ha, (IH Hs).
    destruct (Z.ltb_spec (Z.of_nat (String.length s)) 0); lia.
Qed.

Lemma find_absent (s : string) (c : ascii) : occurs c s = false -> find s c = -1.
Proof.
  intros H. pose proof (find_range s c) as Hr. pose proof (find_occurs s c) as Ho.
  rewrite H in Ho. apply Z.leb_gt in Ho. lia.
Qed.

Lemma append_assoc (a b c : string) : (a ++ b) ++ c = a ++ (b ++ c).
Proof. induction a; simpl; [reflexivity | f_equal; assumption]. Qed.

Lemma blank_tail a s : blank (String a s) -> isspace a = true /\ blank s.
Proof.
  intros H. split.
  - apply H. simpl. rewrite Ascii.eqb_refl. reflexivity.
  - intros c Hc. apply H. simpl. rewrite Hc. apply orb_true_r.
Qed.

Lemma blank_without (s : string) (c : ascii) : blank s -> isspace c = false -> occurs c s = false.
Proof.
  intros Hb Hc. destruct (occurs c s) eqn:H; [| reflexivity].
  rewrite (Hb c H) in Hc. discriminate.
Qed.

Lemma split_blank (s : string) : blank s -> split s = [].
Proof.
  unfold split. induction s as [| a s IH]; intros H; [reflexivity |].
  destruct (blank_tail a s H) as [Ha Hs]. simpl. rewrite Ha. apply IH. exact Hs.
Qed.

Lemma getSplit_blank (s : string) :
  blank s -> getSplitLineBeforeBracketSemicolon s = [].
Proof.
  intros H. unfold getSplitLineBeforeBracketSemicolon.
  rewrite (find_absent s ";") by (apply blank_without; [exact H | reflexivity]).
  simpl. rewrite (find_absent s "(") by (apply blank_without; [exact H | reflexivity]).
  simpl. apply split_blank. exact H.
Qed.

Lemma getSplit_semicolon (s t : string) :
  occurs ";" s = false ->
  getSplitLineBeforeBracketSemicolon (s ++ String ";" t)
  = getSplitLineBeforeBracketSemicolon s.
Proof.
  intros H. unfold getSplitLineBeforeBracketSemicolon.
  rewrite (find_absent s ";" H). simpl (0 <=? -1).
  assert (Hf : (0 <=? find (s ++ String ";" t) ";") = true).
  { rewrite find_app by exact H. apply Z.leb_le. lia. }
  rewrite Hf. rewrite upto_find by exact H. reflexivity.
Qed.

Lemma getSplit_bracket (s t : string) :
  blank s -> s <> "" -> getSplitLineBeforeBracketSemicolon (s ++ String "(" t) = [].
Proof.
  intros Hb Hne.
  assert (Hs : occurs ";" s = false) by (apply blank_without; [exact Hb | reflexivity]).
  assert (Hp : occurs "(" s = false) by (apply blank_without; [exact Hb | reflexivity]).
  assert (Hcut : forall r, (if 0 <? find (s ++ String "(" r) "("
                            then split (upto (s ++ String "(" r) (find (s ++ String "(" r) "("))
                            else split (s ++ String "(" r)) = []).
  { intros r. rewrite upto_find by exact Hp. rewrite find_app by exact Hp.
    destruct s as [| a s]; [congruence |]. simpl String.length.
    destruct (Z.ltb_spec 0 (Z.of_nat (S (String.length s)))); [| lia].
    apply split_blank. exact Hb. }
  destruct (occurs ";" t) eqn:Ht.
  - destruct (split_at_first t ";" Ht) as [pre [post [-> Hpre]]].
    replace (s ++ String "(" (pre ++ String ";" post))
      with ((s ++ String "(" pre) ++ String ";" post)
      by (rewrite append_assoc; reflexivity).
    rewrite getSplit_semicolon.
    + unfold getSplitLineBeforeBracketSemicolon.
      rewrite (find_absent (s ++ String "(" pre) ";").
      * simpl (0 <=? -1). cbv iota. apply Hcut.
      * rewrite occurs_app. simpl. rewrite Hs, Hpre. reflexivity.
    + rewrite occurs_app. simpl. rewrite Hs, Hpre. reflexivity.
  - unfold getSplitLineBeforeBracketSemicolon.
    rewrite (find_absent (s ++ String "(" t) ";").
    + simpl (0 <=? -1). cbv iota. apply Hcut.
    + rewrite occurs_app. simpl. rewrite Hs, Ht. reflexivity.
Qed.

(** A line without a word makes [parse_line] raise [IndexError], where
    [getFirstWord] gives the empty text: a line that is empty or blank, a
    line whose first character that is no blank is a semicolon, and a
    bracket comment with blanks before it. *)
Theorem line_without_word_raises float fuel self line blanks rest :
  blank blanks ->
  raw line = blanks \/ raw line = blanks ++ String ";" rest
  \/ (blanks <> "" /\ raw line = blanks ++ String "(" rest) ->
  getFirstWord (getSplitLineBeforeBracketSemicolon (raw line)) = ""
  /\ parse_line float fuel self line = Raise IndexError.
Proof.
  intros Hb H.
  assert (Hsplit : getSplitLineBeforeBracketSemicolon (raw line) = []).
  { destruct H as [-> | [-> | [Hne ->]]].
    - apply getSplit_blank. exact Hb.
    - rewrite getSplit_semicolon by (apply blank_without; [exact Hb | reflexivity]).
      apply getSplit_blank. exact Hb.
    - apply getSplit_bracket; assumption. }
  unfold parse_line. rewrite Hsplit. split; reflexivity.
Qed.

(** What follows the first semicolon of a line never reaches its words. *)
Theorem comment_is_cut (s t : string) :
  occurs ";" s = false ->
  getSplitLineBeforeBracketSemicolon (s ++ String ";" t)
  = getSplitLineBeforeBracketSemicolon s.
Proof. apply getSplit_semicolon. Qed.

(** ** Coordinate words *)

Lemma scanWords_found (letter : ascii) (pre : list string) (num : string) (post : list string) :
  noneStartsWith letter pre ->
  forall k, scanWords letter k (pre ++ String letter num :: post)%list = Ret (k + len pre).
Proof.
  induction pre as [| w pre IH]; intros Hpre k.
  - simpl. rewrite Ascii.eqb_refl. unfold len. simpl. f_equal. lia.
  - destruct (Hpre w (or_introl eq_refl)) as [a [w' [-> Ha]]]. simpl.
    apply Ascii.eqb_neq in Ha. rewrite Ha.
    rewrite IH by (intros x Hx; apply Hpre; right; exact Hx).
    unfold len. simpl length. f_equal. lia.
Qed.

Lemma scanWords_absent (letter : ascii) (words : list string) :
  noneStartsWith letter words -> forall k, scanWords letter k words = Ret (-1).
Proof.
  induction words as [| w words IH]; intros Hw k; [reflexivity |].
  destruct (Hw w (or_introl eq_refl)) as [a [w' [-> Ha]]]. simpl.
  apply Ascii.eqb_neq in Ha. rewrite Ha.
  apply IH. intros x Hx. apply Hw. right. exact Hx.
Qed.

Lemma py_get_middle {A : Type} (pre : list A) (x : A) (post : list A) :
  py_get (pre ++ x :: post)%list (len pre) = Ret x.
Proof.
  destruct (py_get_nth (pre ++ x :: post)%list (len pre)) as [a [Ha Hn]].
  { unfold len. rewrite length_app. simpl. lia. }
  rewrite Ha. f_equal. unfold len in Hn. rewrite Nat2Z.id in Hn.
  rewrite nth_error_app2 in Hn by lia. rewrite Nat.sub_diag in Hn. simpl in Hn.
  congruence.
Qed.

(** The value of a coordinate is decided by the first word after the
    command that starts with its letter: the number that word holds, or the
    old value when the word does not read as a number, whatever words
    follow.  Without such a word the old value is kept; the command word
    itself is not looked at. *)
Theorem coordinate_word_decides float letter cmd pre num post value :
  noneStartsWith letter pre ->
  getDoubleFromCharacterSplitLineValue float letter
    (cmd :: pre ++ String letter num :: post)%list value
  = Ret (match float num with Some v => v | None => value end)
  /\ getDoubleFromCharacterSplitLineValue float letter (cmd :: pre) value = Ret value.
Proof.
  intros Hpre. split.
  - unfold getDoubleFromCharacterSplitLineValue, getDoubleFromCharacterSplitLine,
      getIndexOfStartingWithSecond.
    simpl tl. rewrite scanWords_found by exact Hpre. cbn [bind].
    assert (Hlen : 0 <= len pre) by (unfold len; lia).
    destruct (Z.ltb_spec (1 + len pre) 0) as [Hneg | _]; [lia |].
    replace (1 + len pre) with (len (cmd :: pre)) by (unfold len; simpl length; lia).
    pose proof (py_get_middle (cmd :: pre) (String letter num) post) as Hget.
    simpl app in Hget. rewrite Hget. simpl. destruct (float num); reflexivity.
  - unfold getDoubleFromCharacterSplitLineValue, getDoubleFromCharacterSplitLine,
      getIndexOfStartingWithSecond.
    simpl tl. rewrite scanWords_absent by exact Hpre. reflexivity.
Qed.

(** In [G1 Y2 X1 X3] the X word read is [X1]; in [G1 Y2] the old value 7
    is kept. *)
Lemma coordinate_word_decides_witness :
  getDoubleFromCharacterSplitLineValue float_decimal "X" ["G1"; "Y2"; "X1"; "X3"] 7
  = Ret (match float_decimal "1" with Some v => v | None => 7%R end)
  /\ getDoubleFromCharacterSplitLineValue float_decimal "X" ["G1"; "Y2"] 7 = Ret 7%R.
Proof.
  apply (coordinate_word_decides float_decimal "X" "G1" ["Y2"] "1" ["X3"] 7).
  intros w [<- | []]. exists "Y"%char, "2". split; [reflexivity | discriminate].
Defined.

(** ** What a call of a cursor keeps *)

Lemma keeps_refl c : keeps c c.
Proof. repeat split; auto. Qed.

Lemma keeps_trans c1 c2 c3 : keeps c1 c2 -> keeps c2 c3 -> keeps c1 c3.
Proof.
  intros [H1 [H2 H3]] [H4 [H5 H6]]. repeat split; try congruence.
  intros j Hj. apply H6, H3, Hj.
Qed.

Lemma keeps_set_lineIndex c i : keeps c (set_lineIndex c i).
Proof. repeat split; auto. Qed.

Lemma check_first_inv c c1 :
  check_first c = Ret c1 ->
  keeps c c1 /\ lineIndex c1 = lineIndex c /\ firstLineIndex c1 <> None.
Proof.
  unfold check_first. destruct (firstLineIndex c) as [j |] eqn:Hf.
  - destruct (lineIndex c =? j); [discriminate |]. intros H. injection H as <-.
    split; [apply keeps_refl |]. split; [reflexivity | congruence].
  - intros H. injection H as <-. split.
    + repeat split; simpl; auto. intros j Hj. congruence.
    + split; [reflexivity | discriminate].
Qed.

Lemma check_first_raise c e : check_first c = Raise e -> e = StopIteration.
Proof.
  unfold check_first. destruct (firstLineIndex c) as [j |]; [| discriminate].
  destruct (lineIndex c =? j); [| discriminate]. congruence.
Qed.

Lemma check_first_fuel c : check_first c <> OutOfFuel.
Proof.
  unfold check_first. destruct (firstLineIndex c) as [j |]; [| discriminate].
  destruct (lineIndex c =? j); discriminate.
Qed.

Lemma py_get_range {A : Type} (l : list A) (i : Z) :
  - len l <= i < len l -> exists a, py_get l i = Ret a.
Proof.
  intros H. unfold py_get. fold (len l).
  destruct (Z.ltb_spec i 0) as [Hneg | Hpos].
  - destruct (py_get_nth l (i + len l)) as [a [Ha _]]; [lia |].
    unfold py_get in Ha. fold (len l) in Ha.
    destruct (Z.ltb_spec (i + len l) 0); [lia |]. exists a. exact Ha.
  - destruct (py_get_nth l i) as [a [Ha _]]; [lia |].
    unfold py_get in Ha. fold (len l) in Ha.
    destruct (Z.ltb_spec i 0); [lia |]. exists a. exact Ha.
Qed.

(** *** Forward *)

Lemma scanActivate_result (ls : list Line) (idxs : list Z) :
  (forall i, In i idxs -> - len ls <= i < len ls) ->
  (exists j, LineIteratorForward.scanActivate ls idxs = Ret j /\ In (j - 1) idxs)
  \/ LineIteratorForward.scanActivate ls idxs = Raise StopIteration.
Proof.
  induction idxs as [| i idxs IH]; intros Hr; [right; reflexivity |].
  simpl. destruct (py_get_range ls i (Hr i (or_introl eq_refl))) as [l ->]. simpl.
  destruct (command l =? "M101")%string.
  - left. exists (i + 1). split; [reflexivity |]. left. lia.
  - destruct IH as [[j [Hj Hin]] | Hs].
    + intros k Hk. apply Hr. right. exact Hk.
    + left. exists j. split; [exact Hj | right; exact Hin].
    + right. exact Hs.
Qed.

Lemma forward_body_result (c : LineIterator) :
  0 <= lineIndex c < len (lines c) ->
  match LineIteratorForward.body c with
  | Ret (Continue c') => keeps c c' /\ 0 <= lineIndex c' /\ firstLineIndex c' <> None
  | Ret (Return line c') =>
      keeps c c' /\ 0 <= lineIndex c' /\ firstLineIndex c' <> None
      /\ exists l, py_get (lines c) (lineIndex c) = Ret l
                   /\ command l = "G1" /\ raw l = line
  | Raise e => e = StopIteration
  | OutOfFuel => False
  end.
Proof.
  intros Hi. unfold LineIteratorForward.body.
  destruct (check_first c) as [c1 | e |] eqn:Hc.
  - destruct (check_first_inv c c1 Hc) as [Hk [Hidx Hfirst]].
    destruct Hk as [Hl [Hloop Hfi]]. simpl bind. rewrite Hl, Hidx.
    destruct (py_get_range (lines c) (lineIndex c)) as [l Hget]; [lia |].
    rewrite Hget. simpl bind.
    assert (Hwrap :
      (exists j, LineIteratorForward.getIndexJustAfterActivate c1 = Ret j /\ 0 <= j)
      \/ LineIteratorForward.getIndexJustAfterActivate c1 = Raise StopIteration).
    { unfold LineIteratorForward.getIndexJustAfterActivate. rewrite Hl, Hidx.
      destruct (scanActivate_result (lines c) (xrange_down (lineIndex c - 1) 0))
        as [[j [Hj Hin]] | Hs].
      - intros i Hin. apply in_xrange_down in Hin. lia.
      - left. exists j. split; [exact Hj |]. apply in_xrange_down in Hin. lia.
      - right. exact Hs. }
    assert (Hfinal : forall n, 0 <= n ->
      match (let c2 := set_lineIndex c1 n in
             if (command l =? "G1")%string
             then Ret (Return (raw l) c2) else Ret (Continue c2)) with
      | Ret (Continue c') => keeps c c' /\ 0 <= lineIndex c' /\ firstLineIndex c' <> None
      | Ret (Return line c') =>
          keeps c c' /\ 0 <= lineIndex c' /\ firstLineIndex c' <> None
          /\ exists l', Ret l = Ret l' /\ command l' = "G1" /\ raw l' = line
      | Raise e => e = StopIteration
      | OutOfFuel => False
      end).
    { intros n Hn. simpl.
      destruct (command l =? "G1")%string eqn:Hg.
      - split; [repeat split; simpl; auto |]. split; [exact Hn |].
        split; [exact Hfirst |]. exists l. apply String.eqb_eq in Hg. auto.
      - split; [repeat split; simpl; auto |]. split; [exact Hn | exact Hfirst]. }
    destruct (command l =? "M103")%string.
    + destruct (it_isLoop c1).
      * destruct Hwrap as [[j [-> Hj]] | ->]; [| reflexivity].
        simpl bind. apply Hfinal. exact Hj.
      * reflexivity.
    + simpl bind. apply Hfinal. lia.
  - simpl. apply (check_first_raise c). exact Hc.
  - exfalso. apply (check_first_fuel c). exact Hc.
Qed.

Lemma forward_loop_result (fuel : nat) :
  forall c, 0 <= lineIndex c ->
  match LineIteratorForward.loop fuel c with
  | Ret (line, c') =>
      keeps c c' /\ 0 <= lineIndex c' /\ firstLineIndex c' <> None
      /\ exists i l, py_get (lines c) i = Ret l /\ command l = "G1" /\ raw l = line
  | Raise e => e = StopIteration
  | OutOfFuel => True
  end.
Proof.
  induction fuel as [| fuel IH]; intros c Hc; [exact I |].
  simpl. destruct (Z.ltb_spec (lineIndex c) (len (lines c))) as [Hlt | Hge];
    [| reflexivity].
  pose proof (forward_body_result c (conj Hc Hlt)) as Hb.
  destruct (LineIteratorForward.body c) as [[c1 | line c1] | e |]; simpl.
  - destruct Hb as [Hk [Hidx Hfirst]]. specialize (IH c1 Hidx).
    destruct (LineIteratorForward.loop fuel c1) as [[line c2] | e |]; auto.
    destruct IH as [Hk2 [Hidx2 [Hfirst2 [i [l [Hget Hl]]]]]].
    split; [exact (keeps_trans _ _ _ Hk Hk2) |]. split; [exact Hidx2 |].
    split; [exact Hfirst2 |]. exists i, l. destruct Hk as [<- _]. auto.
  - destruct Hb as [Hk [Hidx [Hfirst [l Hl]]]].
    split; [exact Hk |]. split; [exact Hidx |]. split; [exact Hfirst |].
    exists (lineIndex c), l. exact Hl.
  - exact Hb.
  - contradiction.
Qed.

(** *** Backward *)

Lemma scanDeactivate_result (ls : list Line) (idxs : list Z) :
  (forall i, In i idxs -> - len ls <= i < len ls) ->
  (exists j, LineIteratorBackward.scanDeactivate ls idxs = Ret j /\ In (j + 2) idxs)
  \/ LineIteratorBackward.scanDeactivate ls idxs = Raise StopIteration.
Proof.
  induction idxs as [| i idxs IH]; intros Hr; [right; reflexivity |].
  simpl. destruct (py_get_range ls i (Hr i (or_introl eq_refl))) as [l ->]. simpl.
  destruct (command l =? "M103")%string.
  - left. exists (i - 2). split; [reflexivity |]. left. lia.
  - destruct IH as [[j [Hj Hin]] | Hs].
    + intros k Hk. apply Hr. right. exact Hk.
    + left. exists j. split; [exact Hj | right; exact Hin].
    + right. exact Hs.
Qed.

Lemma getIndexBeforeNextDeactivate_result (c : LineIterator) :
  - len (lines c) - 1 <= lineIndex c ->
  (exists j, LineIteratorBackward.getIndexBeforeNextDeactivate c = Ret j
             /\ lineIndex c - 1 <= j < len (lines c) - 2)
  \/ LineIteratorBackward.getIndexBeforeNextDeactivate c = Raise StopIteration.
Proof.
  intros Hc. unfold LineIteratorBackward.getIndexBeforeNextDeactivate.
  destruct (scanDeactivate_result (lines c) (xrange (lineIndex c + 1) (len (lines c))))
    as [[j [Hj Hin]] | Hs].
  - intros i Hin. apply in_xrange in Hin. lia.
  - left. exists j. split; [exact Hj |]. apply in_xrange in Hin. lia.
  - right. exact Hs.
Qed.

Lemma scanExtrusion_result (ls : list Line) (idxs : list Z) :
  (forall i, In i idxs -> - len ls <= i < len ls) ->
  forall n, exists b, LineIteratorBackward.scanExtrusion ls n idxs = Ret b.
Proof.
  induction idxs as [| i idxs IH]; intros Hr n; [exists false; reflexivity |].
  simpl. destruct (py_get_range ls i (Hr i (or_introl eq_refl))) as [l ->]. simpl.
  destruct (command l =? "M101")%string; [eexists; reflexivity |].
  destruct (command l =? "M103")%string; [eexists; reflexivity |].
  apply IH. intros k Hk. apply Hr. right. exact Hk.
Qed.

Lemma backward_body_result (c : LineIterator) :
  0 <= lineIndex c < len (lines c) ->
  match LineIteratorBackward.body c with
  | Ret (Continue c') =>
      keeps c c' /\ -1 <= lineIndex c' < len (lines c) /\ firstLineIndex c' <> None
  | Ret (Return line c') =>
      keeps c c' /\ -1 <= lineIndex c' < len (lines c) /\ firstLineIndex c' <> None
      /\ exists l, py_get (lines c) (lineIndex c) = Ret l
                   /\ command l = "G1" /\ raw l = line
  | Raise e => e = StopIteration
  | OutOfFuel => False
  end.
Proof.
  intros Hi. unfold LineIteratorBackward.body.
  destruct (check_first c) as [c1 | e |] eqn:Hc.
  - destruct (check_first_inv c c1 Hc) as [Hk [Hidx Hfirst]].
    destruct Hk as [Hl [Hloop Hfi]]. cbn [bind]. rewrite Hl, Hidx.
    destruct (py_get_range (lines c) (lineIndex c)) as [l Hget]; [lia |].
    rewrite Hget. cbn [bind].
    assert (Hkeep : forall n, keeps c (set_lineIndex c1 n)).
    { intros n. repeat split; simpl; auto. }
    assert (Hwrap :
      (exists j, LineIteratorBackward.getIndexBeforeNextDeactivate c1 = Ret j
                 /\ -1 <= j < len (lines c))
      \/ LineIteratorBackward.getIndexBeforeNextDeactivate c1 = Raise StopIteration).
    { destruct (getIndexBeforeNextDeactivate_result c1) as [[j [Hj Hr]] | Hs].
      - rewrite Hl, Hidx. lia.
      - left. exists j. split; [exact Hj |]. rewrite Hl, Hidx in Hr. lia.
      - right. exact Hs. }
    assert (Hbefore : exists b, LineIteratorBackward.isBeforeExtrusion c1 = Ret b).
    { unfold LineIteratorBackward.isBeforeExtrusion. apply scanExtrusion_result.
      intros i Hin. apply in_xrange in Hin. rewrite Hl, Hidx in Hin. rewrite Hl. lia. }
    destruct Hbefore as [b Hb]. rewrite Hb.
    remember (LineIteratorBackward.getIndexBeforeNextDeactivate c1) as wrap eqn:Hw.
    clear Hw Hb.
    assert (Hok : forall n, -1 <= n < len (lines c) ->
              keeps c (set_lineIndex c1 n)
              /\ -1 <= lineIndex (set_lineIndex c1 n) < len (lines c)
              /\ firstLineIndex (set_lineIndex c1 n) <> None).
    { intros n Hn. split; [apply Hkeep |]. split; [exact Hn | exact Hfirst]. }
    destruct (command l =? "M103")%string; destruct (command l =? "G1")%string eqn:Hg;
      destruct (it_isLoop c1); destruct b;
      try (destruct Hwrap as [[j [-> Hj]] | ->]); cbn [bind];
      try reflexivity; try (apply Hok; lia).
    all: split; [apply Hkeep |]; split; [simpl; lia |]; split; [exact Hfirst |];
      exists l; apply String.eqb_eq in Hg; auto.
  - simpl. apply (check_first_raise c). exact Hc.
  - exfalso. apply (check_first_fuel c). exact Hc.
Qed.

Lemma backward_loop_result (fuel : nat) :
  forall c, - len (lines c) - 1 <= lineIndex c < len (lines c) ->
  match LineIteratorBackward.loop fuel c with
  | Ret (line, c') =>
      keeps c c' /\ -1 <= lineIndex c' < len (lines c) /\ firstLineIndex c' <> None
      /\ exists i l, py_get (lines c) i = Ret l /\ command l = "G1" /\ raw l = line
  | Raise e => e = StopIteration
  | OutOfFuel => True
  end.
Proof.
  induction fuel as [| fuel IH]; intros c Hc; [exact I |].
  simpl. destruct (Z.leb_spec 0 (lineIndex c)) as [Hpos | Hneg].
  - pose proof (backward_body_result c (conj Hpos (proj2 Hc))) as Hb.
    destruct (LineIteratorBackward.body c) as [[c1 | line c1] | e |]; simpl.
    + destruct Hb as [Hk [Hidx Hfirst]].
      assert (Hl : lines c1 = lines c) by (destruct Hk as [H _]; exact H).
      specialize (IH c1). rewrite Hl in IH.
      assert (Hr : - len (lines c) - 1 <= lineIndex c1 < len (lines c))
        by (unfold len in *; lia).
      specialize (IH Hr).
      destruct (LineIteratorBackward.loop fuel c1) as [[line c2] | e |]; auto.
      destruct IH as [Hk2 [Hidx2 [Hfirst2 [i [l Hget]]]]].
      split; [exact (keeps_trans _ _ _ Hk Hk2) |]. split; [exact Hidx2 |].
      split; [exact Hfirst2 |]. exists i, l. exact Hget.
    + destruct Hb as [Hk [Hidx [Hfirst [l Hl]]]].
      split; [exact Hk |]. split; [exact Hidx |]. split; [exact Hfirst |].
      exists (lineIndex c), l. exact Hl.
    + exact Hb.
    + contradiction.
  - destruct (it_isLoop c); [| reflexivity].
    destruct (getIndexBeforeNextDeactivate_result c) as [[j [-> _]] | ->];
      [lia | reflexivity | reflexivity].
Qed.

(** Every line a cursor returns is the text of a linear move of its layer,
    and the call keeps the layer, the loop flag and the first index once it
    is set; the cursor stays within the indices the filter creates cursors
    at. *)
Theorem getNext_returns_a_move d fuel c line c' :
  in_range d c ->
  getNext d fuel c = Ret (line, c') ->
  keeps c c' /\ in_range d c' /\ firstLineIndex c' <> None
  /\ exists i l, py_get (lines c) i = Ret l /\ command l = "G1" /\ raw l = line.
Proof.
  destruct d; simpl; intros Hr H.
  - unfold LineIteratorForward.getNext in H.
    pose proof (forward_loop_result fuel c Hr) as Hl. rewrite H in Hl. exact Hl.
  - unfold LineIteratorBackward.getNext in H.
    assert (Hpre : forall c0, keeps c c0 ->
              - len (lines c) - 1 <= lineIndex c0 < len (lines c) ->
              LineIteratorBackward.loop fuel c0 = Ret (line, c') ->
              keeps c c' /\ -1 <= lineIndex c' < len (lines c') /\ firstLineIndex c' <> None
              /\ exists i l, py_get (lines c) i = Ret l /\ command l = "G1" /\ raw l = line).
    { intros c0 Hk Hc0 Hloop.
      assert (Hl0 : lines c0 = lines c) by (destruct Hk as [Hx _]; exact Hx).
      pose proof (backward_loop_result fuel c0) as Hl. rewrite Hl0, Hloop in Hl.
      destruct (Hl Hc0) as [Hk2 [Hidx [Hfirst Hex]]].
      pose proof (keeps_trans _ _ _ Hk Hk2) as Hk3.
      split; [exact Hk3 |]. split; [| split; [exact Hfirst | exact Hex]].
      destruct Hk3 as [-> _]. exact Hidx. }
    destruct (lineIndex c <? 1) eqn:Hlt.
    + destruct (it_isLoop c) eqn:Hloop.
      * destruct (getIndexBeforeNextDeactivate_result c) as [[j [Hj Hrange]] | Hs];
          [lia | |].
        -- rewrite Hj in H. simpl bind in H.
           apply (Hpre (set_lineIndex c j)); [apply keeps_set_lineIndex | simpl; lia | exact H].
        -- rewrite Hs in H. discriminate.
      * simpl bind in H. apply (Hpre c); [apply keeps_refl | lia | exact H].
    + simpl bind in H. apply (Hpre c); [apply keeps_refl | lia | exact H].
Qed.

(** A cursor within those indices raises no exception but [StopIteration]:
    no index it computes is out of range. *)
Theorem getNext_raises_only_StopIteration d fuel c e :
  in_range d c ->
  getNext d fuel c = Raise e -> e = StopIteration.
Proof.
  destruct d; simpl; intros Hr H.
  - unfold LineIteratorForward.getNext in H.
    pose proof (forward_loop_result fuel c Hr) as Hl. rewrite H in Hl. exact Hl.
  - unfold LineIteratorBackward.getNext in H.
    assert (Hpre : forall c0, lines c0 = lines c ->
              - len (lines c) - 1 <= lineIndex c0 < len (lines c) ->
              LineIteratorBackward.loop fuel c0 = Raise e -> e = StopIteration).
    { intros c0 Hl0 Hc0 Hloop.
      pose proof (backward_loop_result fuel c0) as Hl. rewrite Hl0, Hloop in Hl.
      exact (Hl Hc0). }
    destruct (lineIndex c <? 1) eqn:Hlt.
    + destruct (it_isLoop c) eqn:Hloop.
      * destruct (getIndexBeforeNextDeactivate_result c) as [[j [Hj Hrange]] | Hs];
          [lia | |].
        -- rewrite Hj in H. simpl bind in H.
           apply (Hpre (set_lineIndex c j)); [reflexivity | simpl; lia | exact H].
        -- rewrite Hs in H. simpl in H. congruence.
      * simpl bind in H. apply (Hpre c); [reflexivity | lia | exact H].
    + simpl bind in H. apply (Hpre c); [reflexivity | lia | exact H].
Qed.

(** ** Cursors on a path *)

Lemma skipn_step {A : Type} (ls : list A) (i : Z) (l : A) (rest : list A) :
  0 <= i -> skipn (Z.to_nat i) ls = l :: rest ->
  py_get ls i = Ret l /\ i < len ls /\ skipn (Z.to_nat (i + 1)) ls = rest.
Proof.
  intros Hi H.
  assert (Hlen : (Z.to_nat i < length ls)%nat).
  { destruct (Nat.lt_ge_cases (Z.to_nat i) (length ls)) as [Hlt | Hge]; [exact Hlt |].
    rewrite skipn_all2 in H by exact Hge. discriminate. }
  assert (Hnth : nth_error ls (Z.to_nat i) = Some l).
  { rewrite <- (firstn_skipn (Z.to_nat i) ls) at 1.
    rewrite nth_error_app2 by (rewrite length_firstn; lia).
    rewrite length_firstn, H. replace (Z.to_nat i - Nat.min (Z.to_nat i) (length ls))%nat
      with O by lia. reflexivity. }
  split; [| split].
  - destruct (py_get_nth ls i) as [a [Ha Hn]]; [unfold len; lia |]. congruence.
  - unfold len. lia.
  - replace (Z.to_nat (i + 1)) with (S (Z.to_nat i)) by lia.
    change (S (Z.to_nat i)) with (1 + Z.to_nat i)%nat.
    rewrite <- skipn_skipn. rewrite H. reflexivity.
Qed.

Section Thread.
Variable ls : list Line.

(** One call on a cursor without the loop flag that has not met its first
    index: the next move before the deactivate command, or exhaustion. *)
Lemma forward_thread_call (rest : list Line) :
  forall i fi fuel,
    0 <= i -> skipn (Z.to_nat i) ls = rest ->
    (forall j, fi = Some j -> j < i) ->
    (length rest < fuel)%nat ->
    match thread rest with
    | [] => LineIteratorForward.loop fuel (mkIter fi false i ls) = Raise StopIteration
    | line :: _ =>
        exists i', i < i' /\
          LineIteratorForward.loop fuel (mkIter fi false i ls)
          = Ret (line, mkIter (next_first fi i) false i' ls)
          /\ thread (skipn (Z.to_nat i') ls) = tl (thread rest)
    end.
Proof.
  induction rest as [| l rest IH]; intros i fi fuel Hi Hskip Hfi Hfuel.
  - simpl. destruct fuel as [| fuel]; [simpl in Hfuel; lia |]. simpl.
    assert (Hlen : len ls <= i).
    { unfold len. destruct (Z.le_gt_cases (Z.of_nat (length ls)) i) as [H | H]; [exact H |].
      assert (Hl : length (skipn (Z.to_nat i) ls) = (length ls - Z.to_nat i)%nat)
        by apply length_skipn.
      rewrite Hskip in Hl. simpl in Hl. lia. }
    destruct (Z.ltb_spec i (len ls)); [lia | reflexivity].
  - destruct (skipn_step ls i l rest Hi Hskip) as [Hget [Hlt Hnext]].
    destruct fuel as [| fuel]; [simpl in Hfuel; lia |].
    assert (Hcheck : check_first (mkIter fi false i ls)
                     = Ret (mkIter (next_first fi i) false i ls)).
    { unfold check_first. simpl. destruct fi as [j |]; [| reflexivity].
      specialize (Hfi j eq_refl). destruct (Z.eqb_spec i j); [lia | reflexivity]. }
    assert (Hloop : LineIteratorForward.loop (S fuel) (mkIter fi false i ls)
              = if (command l =? "M103")%string then Raise StopIteration
                else if (command l =? "G1")%string
                     then Ret (raw l, mkIter (next_first fi i) false (i + 1) ls)
                     else LineIteratorForward.loop fuel
                            (mkIter (next_first fi i) false (i + 1) ls)).
    { simpl LineIteratorForward.loop. simpl lineIndex. simpl lines.
      destruct (Z.ltb_spec i (len ls)); [| lia].
      unfold LineIteratorForward.body. rewrite Hcheck. simpl. rewrite Hget. simpl.
      destruct (command l =? "M103")%string; [reflexivity |]. simpl.
      destruct (command l =? "G1")%string; reflexivity. }
    simpl thread. rewrite Hloop.
    destruct (command l =? "M103")%string; [reflexivity |].
    destruct (command l =? "G1")%string.
    + exists (i + 1). split; [lia |]. split; [reflexivity |]. rewrite Hnext. reflexivity.
    + specialize (IH (i + 1) (next_first fi i) fuel).
      assert (Hnf : next_first (next_first fi i) (i + 1) = next_first fi i)
        by (destruct fi; reflexivity).
      rewrite Hnf in IH.
      assert (Hfi' : forall j, next_first fi i = Some j -> j < i + 1).
      { intros j Hj. destruct fi as [j' |]; simpl in Hj; injection Hj as <-;
          [specialize (Hfi j' eq_refl) |]; lia. }
      specialize (IH ltac:(lia) Hnext Hfi' ltac:(simpl in Hfuel; lia)).
      destruct (thread rest) as [| line more]; [exact IH |].
      destruct IH as [i' [Hi' [Hl' Ht']]]. exists i'. split; [lia |]. split; assumption.
Qed.

Lemma forward_thread_drain (n : nat) :
  forall i fi fuel k,
    0 <= i -> length (thread (skipn (Z.to_nat i) ls)) = n ->
    (forall j, fi = Some j -> j < i) ->
    len ls < Z.of_nat fuel ->
    (n < k)%nat ->
    drain Forward fuel k (mkIter fi false i ls) = Ret (thread (skipn (Z.to_nat i) ls)).
Proof.
  induction n as [| n IH]; intros i fi fuel k Hi Hn Hfi Hfuel Hk.
  - destruct k as [| k]; [lia |]. simpl.
    pose proof (forward_thread_call (skipn (Z.to_nat i) ls) i fi fuel Hi eq_refl Hfi) as Hc.
    destruct (thread (skipn (Z.to_nat i) ls)) as [| line more]; [| discriminate].
    unfold LineIteratorForward.getNext. rewrite Hc; [reflexivity |].
    rewrite length_skipn. unfold len in Hfuel. lia.
  - destruct k as [| k]; [lia |]. simpl.
    pose proof (forward_thread_call (skipn (Z.to_nat i) ls) i fi fuel Hi eq_refl Hfi) as Hc.
    destruct (thread (skipn (Z.to_nat i) ls)) as [| line more] eqn:Ht; [discriminate |].
    destruct Hc as [i' [Hi' [Hl Ht']]].
    { rewrite length_skipn. unfold len in Hfuel. lia. }
    unfold LineIteratorForward.getNext. rewrite Hl.
    rewrite (IH i' (next_first fi i) fuel k); try lia.
    + simpl. rewrite Ht'. reflexivity.
    + rewrite Ht'. simpl in Hn. simpl. lia.
    + intros j Hj. destruct fi as [j' |]; simpl in Hj; injection Hj as <-;
        [specialize (Hfi j' eq_refl) |]; lia.
Qed.

End Thread.

(** A forward cursor without the loop flag returns the linear moves from
    its start to the next deactivate command or the end of the layer, in
    their order, and is exhausted then. *)
Theorem forward_cursor_follows_thread (ls : list Line) (s : Z) (fuel k : nat) :
  0 <= s ->
  len ls < Z.of_nat fuel ->
  (length (thread (skipn (Z.to_nat s) ls)) < k)%nat ->
  drain Forward fuel k (LineIteratorForward.__init__ false s ls)
  = Ret (thread (skipn (Z.to_nat s) ls)).
Proof.
  intros Hs Hfuel Hk.
  apply (forward_thread_drain ls (length (thread (skipn (Z.to_nat s) ls)))); auto.
  discriminate.
Qed.

Lemma exhausted_within_S d fuel k c :
  exhausted_within d fuel (S k) c = exhausts d fuel k (getNext d fuel c).
Proof. reflexivity. Qed.

Lemma backward_getNext_thread fuel c :
  it_isLoop c = false ->
  LineIteratorBackward.getNext fuel c = LineIteratorBackward.loop fuel c.
Proof.
  intros H. unfold LineIteratorBackward.getNext. rewrite H.
  destruct (lineIndex c <? 1); reflexivity.
Qed.

Section BackwardThread.
Variable ls : list Line.
Variable fuel0 : nat.
Hypothesis Hfuel0 : len ls < Z.of_nat fuel0.

Lemma backward_thread_good (n : nat) :
  forall i fi fuel k,
    -1 <= i < len ls -> Z.to_nat (i + 1) = n -> i + 1 < Z.of_nat fuel ->
    (moves ls 0 (i + 1) <= k)%nat ->
    exhausts Backward fuel0 k (LineIteratorBackward.loop fuel (mkIter fi false i ls)) = true.
Proof.
  induction n as [| n IH]; intros i fi fuel k Hi Hn Hf Hk.
  - assert (i = -1) by lia. subst i.
    destruct fuel as [| fuel]; [lia |]. reflexivity.
  - destruct fuel as [| fuel]; [lia |].
    simpl LineIteratorBackward.loop. simpl lineIndex.
    destruct (Z.leb_spec 0 i) as [_ | Hneg]; [| lia].
    pose proof (backward_body_result (mkIter fi false i ls) ltac:(simpl; lia)) as Hb.
    unfold LineIteratorBackward.body in *.
    destruct (check_first (mkIter fi false i ls)) as [c1 | e |] eqn:Hc.
    + assert (Hc1 : c1 = mkIter (next_first fi i) false i ls).
      { unfold check_first in Hc. simpl in Hc. destruct fi as [j |].
        - destruct (i =? j); [discriminate |]. injection Hc as <-. reflexivity.
        - injection Hc as <-. reflexivity. }
      subst c1. cbn [bind] in *. simpl lines in *. simpl lineIndex in *.
      simpl it_isLoop in *.
      destruct (py_get_cmd ls i) as [l [Hget Hcmd]]; [lia |].
      rewrite Hget in *. cbn [bind] in *.
      rewrite (moves_last ls 0 (i + 1)) in Hk by lia.
      replace (i + 1 - 1) with i in Hk by lia.
      unfold isMove in Hk. rewrite <- Hcmd in Hk.
      destruct (command l =? "M103")%string; [reflexivity |]. cbn [bind] in *.
      destruct (command l =? "G1")%string.
      * destruct (LineIteratorBackward.isBeforeExtrusion
                    (mkIter (next_first fi i) false i ls)) as [b | e |];
          cbn [bind] in *; [| subst e; reflexivity | contradiction].
        destruct b; [reflexivity |].
        unfold set_lineIndex. simpl.
        destruct k as [| k]; [lia |].
        change (exhausted_within Backward fuel0 (S k)
                  (mkIter (next_first fi i) false (i - 1) ls) = true).
        rewrite exhausted_within_S. simpl getNext.
        rewrite backward_getNext_thread by reflexivity.
        apply (IH (i - 1)); try lia.
        replace (i - 1 + 1) with i by lia. lia.
      * unfold set_lineIndex. simpl.
        apply (IH (i - 1)); try lia.
        replace (i - 1 + 1) with i by lia. lia.
    + cbn [bind] in *. subst e. reflexivity.
    + contradiction.
Qed.

End BackwardThread.

(** A backward cursor without the loop flag is exhausted after as many
    calls as there are linear moves from the start of the layer to its own
    index, at the latest. *)
Theorem backward_thread_cursor_exhausts (ls : list Line) (s : Z) (fuel : nat) :
  -1 <= s < len ls ->
  len ls < Z.of_nat fuel ->
  exhausted_within Backward fuel (S (moves ls 0 (s + 1)))
    (LineIteratorBackward.__init__ false s ls) = true.
Proof.
  intros Hs Hfuel. rewrite exhausted_within_S. simpl getNext.
  rewrite backward_getNext_thread by reflexivity.
  unfold LineIteratorBackward.__init__.
  apply (backward_thread_good ls fuel Hfuel (Z.to_nat (s + 1)) s None fuel
           (moves ls 0 (s + 1))); try lia.
Qed.

(** ** Cursors that approach a loop *)

Lemma moves_pos ls a b :
  (1 <= moves ls a b)%nat -> exists g, a <= g < b /\ isMove ls g = true.
Proof.
  unfold moves. intros H.
  destruct (List.filter (isMove ls) (xrange a b)) as [| g rest] eqn:Hf;
    [simpl in H; lia |].
  assert (Hin : In g (List.filter (isMove ls) (xrange a b))) by (rewrite Hf; left; reflexivity).
  apply filter_In in Hin. destruct Hin as [Hin Hg]. apply in_xrange in Hin.
  exists g. split; assumption.
Qed.

Section ApproachLoop.
Variable ls : list Line.
Variables A D s : Z.
Hypothesis Hloop : loop_at ls A D.
Hypothesis HA : 1 <= A.
Hypothesis Hs : 0 <= s <= A.
Hypothesis Hquiet : forall i, s <= i < A -> cmdAt ls i <> "M103".

Let approaching := approaching D s.

Lemma approach_turn (fi : option Z) (i : Z) :
  approaching fi i ->
  LineIteratorForward.body (mkIter fi true i ls)
  = if i =? D
    then Ret (Continue (mkIter (Some s) true (A + 1) ls))
    else if isMove ls i
         then match py_get ls i with
              | Ret l => Ret (Return (raw l) (mkIter (Some s) true (i + 1) ls))
              | _ => Raise IndexError
              end
         else Ret (Continue (mkIter (Some s) true (i + 1) ls)).
Proof.
  intros Hap.
  assert (Hnf : next_first fi i = Some s).
  { destruct Hap as [[-> ->] | [-> _]]; reflexivity. }
  assert (Hfi : fi <> Some i).
  { destruct Hap as [[-> _] | [-> Hi]]; [discriminate |]. intros H. injection H. lia. }
  destruct (Z.le_gt_cases i A) as [Hle | Hgt].
  - destruct Hloop as [H0 [HD [HcA [HcD Hq]]]].
    assert (Hi : s <= i) by (destruct Hap as [[_ ->] | [_ Hi]]; lia).
    destruct (Z.eqb_spec i D) as [-> | _]; [lia |].
    assert (Hcheck : check_first (mkIter fi true i ls) = Ret (mkIter (Some s) true i ls)).
    { unfold check_first. simpl. destruct Hap as [[-> ->] | [-> Hi']]; [reflexivity |].
      destruct (Z.eqb_spec i s); [lia | reflexivity]. }
    unfold LineIteratorForward.body. rewrite Hcheck. simpl.
    destruct (py_get_cmd ls i) as [l [Hl Hc]]; [lia |].
    rewrite Hl. simpl. unfold isMove. rewrite <- Hc.
    assert (Hn3 : (command l =? "M103")%string = false).
    { apply String.eqb_neq. rewrite Hc. destruct (Z.eq_dec i A) as [-> | Hne].
      - rewrite HcA. discriminate.
      - apply Hquiet. lia. }
    rewrite Hn3. simpl. destruct (command l =? "G1")%string; reflexivity.
  - assert (Hi : A < i <= D) by (destruct Hap as [[_ ->] | [_ Hi]]; lia).
    rewrite (fwd_turn ls A D O Hloop fi i Hi Hfi). rewrite Hnf.
    destruct (Z.leb_spec 1 A); [reflexivity | lia].
Qed.

Lemma approaching_next (fi : option Z) (i : Z) :
  approaching fi i -> i <> D -> approaching (Some s) (i + 1).
Proof.
  intros [[_ ->] | [_ Hi]] Hne; right; (split; [reflexivity |]).
  - destruct Hloop as [H0 [HD _]]. lia.
  - lia.
Qed.

Lemma approaching_wrap : approaching (Some s) (A + 1).
Proof. destruct Hloop as [H0 [HD _]]. right. split; [reflexivity | lia]. Qed.

Lemma approaching_range fi i : approaching fi i -> 0 <= i < len ls.
Proof. destruct Hloop as [H0 [HD _]]. intros [[_ ->] | [_ Hi]]; lia. Qed.

(** A call never raises; when it returns, the cursor is beyond its first
    index. *)
Lemma approach_call (fuel : nat) :
  forall fi i, approaching fi i ->
  match LineIteratorForward.loop fuel (mkIter fi true i ls) with
  | Ret (_, c') => exists i', c' = mkIter (Some s) true i' ls /\ approaching (Some s) i'
  | Raise _ => False
  | OutOfFuel => True
  end.
Proof.
  induction fuel as [| fuel IH]; intros fi i Hap; [exact I |].
  pose proof (approaching_range fi i Hap) as Hr.
  simpl LineIteratorForward.loop. simpl lineIndex. simpl lines.
  destruct (Z.ltb_spec i (len ls)); [| lia].
  rewrite (approach_turn fi i Hap).
  destruct (Z.eqb_spec i D) as [-> | Hne].
  - simpl. apply IH. apply approaching_wrap.
  - destruct (isMove ls i).
    + destruct (py_get_cmd ls i) as [l [Hl _]]; [lia |]. rewrite Hl. simpl.
      exists (i + 1). split; [reflexivity |]. apply (approaching_next fi i Hap Hne).
    + simpl. apply IH. apply (approaching_next fi i Hap Hne).
Qed.

Lemma approach_never_exhausted (fuel k : nat) :
  forall fi i, approaching fi i ->
    exhausted_within Forward fuel k (mkIter fi true i ls) = false.
Proof.
  induction k as [| k IH]; intros fi i Hap; [reflexivity |].
  simpl. unfold LineIteratorForward.getNext.
  pose proof (approach_call fuel fi i Hap) as Hc.
  destruct (LineIteratorForward.loop fuel (mkIter fi true i ls)) as [[line c'] | e |].
  - destruct Hc as [i' [-> Hap']]. apply IH. exact Hap'.
  - contradiction.
  - reflexivity.
Qed.

Variable g : Z.
Hypothesis Hg : A < g < D.
Hypothesis Hmove : isMove ls g = true.

(** With a linear move in the loop a call returns within the turns it
    takes to reach it. *)
Lemma approach_returns (n : nat) :
  forall fi i fuel, approaching fi i ->
    Z.to_nat (forward_turns_to A D g i) = n ->
    forward_turns_to A D g i < Z.of_nat fuel ->
    LineIteratorForward.loop fuel (mkIter fi true i ls) <> OutOfFuel.
Proof.
  induction n as [n IH] using lt_wf_ind. intros fi i fuel Hap Hn Hf.
  pose proof (approaching_range fi i Hap) as Hr.
  assert (Hi : s <= i <= D) by (destruct Hap as [[_ ->] | [_ Hi]]; lia).
  assert (Hpos : 0 <= forward_turns_to A D g i).
  { unfold forward_turns_to. destruct (Z.leb_spec i g); lia. }
  destruct fuel as [| fuel]; [lia |].
  simpl LineIteratorForward.loop. simpl lineIndex. simpl lines.
  destruct (Z.ltb_spec i (len ls)); [| lia].
  rewrite (approach_turn fi i Hap).
  destruct (Z.eqb_spec i D) as [-> | Hne].
  - simpl. apply (IH (Z.to_nat (forward_turns_to A D g (A + 1)))).
    + unfold forward_turns_to in *.
      destruct (Z.leb_spec D g); destruct (Z.leb_spec (A + 1) g); lia.
    + apply approaching_wrap.
    + reflexivity.
    + unfold forward_turns_to in *.
      destruct (Z.leb_spec D g); destruct (Z.leb_spec (A + 1) g); lia.
  - destruct (isMove ls i) eqn:Hm.
    + destruct (py_get_cmd ls i) as [l [Hl _]]; [lia |]. rewrite Hl. discriminate.
    + assert (Hig : i <> g) by congruence.
      simpl. apply (IH (Z.to_nat (forward_turns_to A D g (i + 1)))).
      * unfold forward_turns_to in *.
        destruct (Z.leb_spec i g); destruct (Z.leb_spec (i + 1) g); lia.
      * apply (approaching_next fi i Hap Hne).
      * reflexivity.
      * unfold forward_turns_to in *.
        destruct (Z.leb_spec i g); destruct (Z.leb_spec (i + 1) g); lia.
Qed.

Lemma approach_after_calls (fuel k : nat) :
  len ls < Z.of_nat fuel ->
  forall fi i, approaching fi i ->
    exists i', after_calls Forward fuel k (mkIter fi true i ls)
               = Ret (mkIter (match k with O => fi | _ => Some s end) true i' ls).
Proof.
  intros Hfuel. induction k as [| k IH]; intros fi i Hap.
  - exists i. reflexivity.
  - simpl. unfold LineIteratorForward.getNext.
    pose proof (approach_call fuel fi i Hap) as Hc.
    pose proof (approach_returns _ fi i fuel Hap eq_refl) as Hret.
    destruct (LineIteratorForward.loop fuel (mkIter fi true i ls)) as [[line c'] | e |].
    + destruct Hc as [i' [-> Hap']]. simpl.
      destruct (IH (Some s) i' Hap') as [i'' Hi'']. exists i''. rewrite Hi''.
      destruct k; reflexivity.
    + contradiction.
    + exfalso. apply Hret; [| reflexivity].
      pose proof (approaching_range fi i Hap) as Hr.
      assert (Hi : s <= i <= D) by (destruct Hap as [[_ ->] | [_ Hi]]; lia).
      destruct Hloop as [H0 [HD _]].
      unfold forward_turns_to. destruct (Z.leb_spec i g); lia.
Qed.

End ApproachLoop.

(** A forward cursor with the loop flag set that starts before the loop,
    at or before its activate command with no deactivate command in
    between, never signals exhaustion: the wrap returns it to the line after
    the activate command, beyond the first index it recorded.  No number of
    calls ends in [StopIteration], and when the loop holds a linear move
    every call returns a line. *)
Theorem approach_cursor_never_exhausts (ls : list Line) (A D s : Z) :
  loop_at ls A D -> 1 <= A -> 0 <= s <= A ->
  (forall i, s <= i < A -> cmdAt ls i <> "M103") ->
  let c := LineIteratorForward.__init__ true s ls in
  (forall fuel k, exhausted_within Forward fuel k c = false)
  /\ ((1 <= moves ls (A + 1) D)%nat ->
      forall fuel k, len ls < Z.of_nat fuel ->
        exists c', after_calls Forward fuel k c = Ret c').
Proof.
  intros Hloop HA Hs Hq c. split.
  - intros fuel k. apply (approach_never_exhausted ls A D s Hloop HA Hs Hq).
    left. split; reflexivity.
  - intros Hm fuel k Hfuel. destruct (moves_pos ls (A + 1) D Hm) as [g [Hg Hmove]].
    destruct (approach_after_calls ls A D s Hloop HA Hs Hq g ltac:(lia) Hmove fuel k Hfuel
                None s) as [i' Hi'].
    + left. split; reflexivity.
    + eexists. exact Hi'.
Qed.

(** ** Cross limiting shortens *)

Lemma Cabs_le_Cabs (a b : complex) :
  (real a * real a + imag a * imag a <= real b * real b + imag b * imag b)%R ->
  (Cabs a <= Cabs b)%R.
Proof.
  intros H. apply Cabs_le; [apply Cabs_nonneg |]. rewrite Cabs_sqr. exact H.
Qed.

(** The part of [s] along the unit vector [n], and what is left of it when
    the share [p] of the part across [n] is added, are no longer than [s]. *)
Lemma limited_le (n s : complex) (p : R) :
  (real n * real n + imag n * imag n = 1)%R -> (0 <= p <= 1)%R ->
  let cross := mkComplex (imag n) (- real n) in
  (Cabs (Cadd (Cscale (getDotProduct n s) n)
              (Cscale p (Cscale (getDotProduct cross s) cross))) <= Cabs s)%R.
Proof.
  intros Hu Hp cross. apply Cabs_le_Cabs. unfold getDotProduct, cross. simpl.
  set (a := real n) in *. set (b := imag n) in *.
  set (x := real s). set (y := imag s).
  set (P := (a * x + b * y)%R). set (Q := (b * x + - a * y)%R).
  assert (Hsum : (x * x + y * y = P * P + Q * Q)%R).
  { unfold P, Q. replace (x * x + y * y)%R with ((a * a + b * b) * (x * x + y * y))%R
      by (rewrite Hu; ring). ring. }
  replace ((P * a + p * (Q * b)) * (P * a + p * (Q * b))
           + (P * b + p * (Q * - a)) * (P * b + p * (Q * - a)))%R
    with ((a * a + b * b) * (P * P + p * p * (Q * Q)))%R by ring.
  rewrite Hu, Hsum. assert (Hpp : (p * p <= 1)%R) by nra.
  pose proof (Rle_0_sqr Q) as HQ. unfold Rsqr in HQ. nra.
Qed.

Lemma parallel_le (n s : complex) :
  (real n * real n + imag n * imag n = 1)%R ->
  (Cabs (Cscale (getDotProduct n s) n) <= Cabs s)%R.
Proof.
  intros Hu. pose proof (limited_le n s 0 Hu ltac:(lra)) as H. simpl in H.
  replace (Cscale (getDotProduct n s) n)
    with (Cadd (Cscale (getDotProduct n s) n)
               (Cscale 0 (Cscale (getDotProduct (mkComplex (imag n) (- real n)) s)
                                 (mkComplex (imag n) (- real n))))); [exact H |].
  unfold Cadd, Cscale. simpl. f_equal; ring.
Qed.

(** Cross limiting never lengthens a stretch, and with a cross limit
    distance that is not negative none of its divisions is by zero. *)
Theorem cross_limit_never_lengthens float fuel self t s d it L :
  thresholds self = Some t ->
  derived t ->
  (forall r, getCrossLimitedStretch float fuel self s d it L = Ret r ->
     (Cabs r <= Cabs s)%R)
  /\ ((0 <= crossLimitDistance t)%R -> in_range d it ->
      getCrossLimitedStretch float fuel self s d it L <> Raise ZeroDivisionError).
Proof.
  intros Ht [Hfrac Hrem].
  unfold getCrossLimitedStretch.
  destruct (getNext d fuel it) as [[line it'] | e |] eqn:Hnext.
  - destruct (location_of_split_line_returns float (oldLocation self) line) as [P ->].
    cbn [bind]. unfold attr. rewrite Ht. cbn [bind].
    set (v := Csub L (dropAxis P)).
    pose proof (Cabs_nonneg v) as Hv.
    destruct (Rleb (Cabs v) (crossLimitDistanceFraction t)) eqn:Hle.
    + split; [intros r Hr; injection Hr as <-; lra | discriminate].
    + assert (Hgt : (crossLimitDistanceFraction t < Cabs v)%R).
      { destruct (Rle_dec (Cabs v) (crossLimitDistanceFraction t)) as [H | H].
        - rewrite (Rleb_true _ _ H) in Hle. discriminate.
        - lra. }
      unfold Cdiv. destruct (Reqb (Cabs v) 0) eqn:Hz.
      * cbn [bind]. split; [discriminate |]. intros Hlim _.
        assert (Cabs v = 0%R).
        { unfold Reqb in Hz. destruct (Req_dec_T (Cabs v) 0); [assumption | discriminate]. }
        lra.
      * assert (Hpos : (0 < Cabs v)%R).
        { unfold Reqb in Hz. destruct (Req_dec_T (Cabs v) 0); [discriminate | lra]. }
        cbn [bind].
        set (n := mkComplex (real v / Cabs v) (imag v / Cabs v)).
        assert (Hunit : (real n * real n + imag n * imag n = 1)%R).
        { apply (Cdiv_unit v n Hpos). unfold Cdiv. rewrite Hz. reflexivity. }
        destruct (Rltb (crossLimitDistance t) (Cabs v)) eqn:Hlt.
        -- split; [| discriminate]. intros r Hr. injection Hr as <-.
           apply parallel_le. exact Hunit.
        -- assert (Hin : (Cabs v <= crossLimitDistance t)%R).
           { destruct (Rlt_dec (crossLimitDistance t) (Cabs v)) as [H | H].
             - rewrite (Rltb_true _ _ H) in Hlt. discriminate.
             - lra. }
           assert (Hrpos : (0 < crossLimitDistanceRemainder t)%R) by lra.
           unfold div. rewrite Reqb_false by lra. cbn [bind].
           split; [| discriminate]. intros r Hr. injection Hr as <-.
           apply (limited_le n s _ Hunit). split.
           ++ apply Rmult_le_pos; [lra |]. apply Rlt_le, Rinv_0_lt_compat. exact Hrpos.
           ++ apply (Rmult_le_reg_r (crossLimitDistanceRemainder t)); [exact Hrpos |].
              unfold Rdiv. rewrite Rmult_assoc, Rinv_l by lra. lra.
  - split.
    + intros r Hr. destruct e; try discriminate. injection Hr as <-. lra.
    + intros _ Hrange. destruct e; try discriminate.
      pose proof (getNext_raises_only_StopIteration d fuel it _ Hrange Hnext).
      discriminate.
  - split; [discriminate | discriminate].
Qed.

(** ** Stretching raises nothing *)

Lemma py_get_In {A : Type} (l : list A) (i : Z) (a : A) : py_get l i = Ret a -> In a l.
Proof.
  unfold py_get. destruct ((0 <=? _) && _); [| discriminate].
  destruct (nth_error l _) eqn:H; [| discriminate].
  intros E. injection E as <-. apply (nth_error_In _ _ H).
Qed.

Lemma Rleb_inv_false a b : Rleb a b = false -> (b < a)%R.
Proof.
  intros H. destruct (Rle_dec a b) as [Hle | Hn]; [| lra].
  rewrite (Rleb_true _ _ Hle) in H. discriminate.
Qed.

Lemma Rltb_inv_false a b : Rltb a b = false -> (b <= a)%R.
Proof.
  intros H. destruct (Rlt_dec a b) as [Hlt | Hn]; [| lra].
  rewrite (Rltb_true _ _ Hlt) in H. discriminate.
Qed.

Section NoRaise.
Variable float : string -> option R.
Variable fuel : nat.
Variable self : StretchFilter.
Variable t : Thresholds.
Hypothesis Ht : thresholds self = Some t.
Hypothesis Hderived : derived t.
Hypothesis Hlimit : (0 <= crossLimitDistance t)%R.
Hypothesis Hlookahead : (0 < stretchFromDistance t)%R.
Variable layer : list Line.
Hypothesis Hwords : moves_have_words layer.
Variable L : complex.

Lemma relative_loop_raises_nothing (d : direction) (n : nat) :
  forall it last old,
    in_range d it -> lines it = layer -> (old < stretchFromDistance t)%R ->
    raises_nothing (getRelativeStretch_loop float n fuel self L d it last old last old).
Proof.
  induction n as [| n IH]; intros it last old Hr Hl Hold e; [discriminate |].
  simpl. destruct (getNext d fuel it) as [[line it'] | e' |] eqn:Hnext.
  - destruct (getNext_returns_a_move d fuel it line it' Hr Hnext)
      as [[Hl' _] [Hr' [_ [i [l [Hget [Hcmd Hraw]]]]]]].
    assert (Hsplit : getSplitLineBeforeBracketSemicolon line <> []).
    { rewrite <- Hraw. apply Hwords; [| exact Hcmd].
      rewrite <- Hl. apply (py_get_In _ i). exact Hget. }
    destruct (getSplitLineBeforeBracketSemicolon line) as [| w ws] eqn:Hs; [congruence |].
    change (py_get (w :: ws) 0) with (Ret (A:=string) w). cbn [bind].
    rewrite <- Hs.
    destruct (location_of_split_line_returns float (oldLocation self) line) as [P ->].
    cbn [bind]. unfold attr. rewrite Ht. cbn [bind].
    pose proof (Cabs_nonneg (Csub last (dropAxis P))) as Hlen.
    destruct (Rleb (stretchFromDistance t) (old + Cabs (Csub last (dropAxis P)))) eqn:Hreach.
    + apply Rleb_spec in Hreach. unfold div, Cdiv.
      rewrite Reqb_false by lra. cbn [bind]. rewrite Reqb_false by lra. discriminate.
    + apply Rleb_inv_false in Hreach. apply IH; [exact Hr' | congruence | exact Hreach].
  - pose proof (getNext_raises_only_StopIteration d fuel it e' Hr Hnext) as ->.
    destruct (Rltb 0 (Cabs (Csub L last))) eqn:Hpos; [| discriminate].
    apply Rltb_spec in Hpos. unfold Cdiv. rewrite Reqb_false by lra. discriminate.
  - discriminate.
Qed.

Lemma cross_limit_raises_nothing (d : direction) (it : LineIterator) (s : complex) :
  in_range d it ->
  raises_nothing (getCrossLimitedStretch float fuel self s d it L).
Proof.
  intros Hr e. destruct Hderived as [Hfrac Hrem].
  unfold getCrossLimitedStretch.
  destruct (getNext d fuel it) as [[line it'] | e' |] eqn:Hnext.
  - destruct (location_of_split_line_returns float (oldLocation self) line) as [P ->].
    cbn [bind]. unfold attr. rewrite Ht. cbn [bind].
    set (v := Csub L (dropAxis P)).
    destruct (Rleb (Cabs v) (crossLimitDistanceFraction t)) eqn:Hle; [discriminate |].
    apply Rleb_inv_false in Hle.
    unfold Cdiv. rewrite Reqb_false by lra. cbn [bind].
    destruct (Rltb (crossLimitDistance t) (Cabs v)) eqn:Hlt; [discriminate |].
    apply Rltb_inv_false in Hlt.
    unfold div. rewrite Reqb_false by lra. discriminate.
  - pose proof (getNext_raises_only_StopIteration d fuel it e' Hr Hnext) as ->.
    discriminate.
  - discriminate.
Qed.

End NoRaise.

(** Stretching a move raises no exception, whatever the layer and the
    position: not by a division by zero, not by an index out of range, once
    the thresholds are derived from a cross limit distance that is not
    negative and the lookahead distance is positive, and every linear move
    of the layer has a word. *)
Theorem stretching_raises_nothing float fuel self t location :
  thresholds self = Some t -> derived t ->
  (0 <= crossLimitDistance t)%R -> (0 < stretchFromDistance t)%R ->
  moves_have_words (current_layer self) ->
  0 <= line_number_in_layer self <= len (current_layer self) ->
  raises_nothing
    (getStretchedLineFromIndexLocation float fuel self
       (line_number_in_layer self - 1) (line_number_in_layer self + 1) location).
Proof.
  intros Ht Hd Hlim Hla Hw Hn e.
  unfold getStretchedLineFromIndexLocation.
  assert (Hf : in_range Forward
                 (LineIteratorForward.__init__ (isLoop self) (line_number_in_layer self + 1)
                    (current_layer self))) by (simpl; lia).
  assert (Hb : in_range Backward
                 (LineIteratorBackward.__init__ (isLoop self) (line_number_in_layer self - 1)
                    (current_layer self))) by (simpl; lia).
  unfold getRelativeStretch.
  pose proof (relative_loop_raises_nothing float fuel self t Ht Hla (current_layer self) Hw
                (dropAxis location) Forward fuel _ (dropAxis location) 0%R Hf eq_refl Hla)
    as H1.
  destruct (getRelativeStretch_loop float fuel fuel self (dropAxis location) Forward _ _ _ _ _)
    as [r1 | e1 |]; [| exfalso; apply (H1 e1); reflexivity | discriminate].
  cbn [bind].
  pose proof (relative_loop_raises_nothing float fuel self t Ht Hla (current_layer self) Hw
                (dropAxis location) Backward fuel _ (dropAxis location) 0%R Hb eq_refl Hla)
    as H2.
  destruct (getRelativeStretch_loop float fuel fuel self (dropAxis location) Backward _ _ _ _ _)
    as [r2 | e2 |]; [| exfalso; apply (H2 e2); reflexivity | discriminate].
  cbn [bind].
  pose proof (cross_limit_raises_nothing float fuel self t Ht Hd Hlim (dropAxis location)
                Forward _ (Cscale (8 / 10) (Cadd r1 r2)) Hf) as H3.
  destruct (getCrossLimitedStretch float fuel self _ Forward _ _)
    as [r3 | e3 |]; [| exfalso; apply (H3 e3); reflexivity | discriminate].
  cbn [bind].
  pose proof (cross_limit_raises_nothing float fuel self t Ht Hd Hlim (dropAxis location)
                Backward _ r3 Hb) as H4.
  destruct (getCrossLimitedStretch float fuel self _ Backward _ _)
    as [r4 | e4 |]; [| exfalso; apply (H4 e4); reflexivity | discriminate].
  cbn [bind].
  destruct (Rltb 1 (Cabs r4)) eqn:Hlen; [| discriminate].
  apply Rltb_spec in Hlen. unfold Cdiv. rewrite Reqb_false by lra. discriminate.
Qed.

(** ** The lines of the output *)

Section FilterLines.
Variable float : string -> option R.
Variable fuel : nat.

Lemma getStretchedLine_output self splitLine line o self' :
  getStretchedLine float fuel self splitLine line = Ret (o, self') ->
  output self' = output self
  /\ (o = Verbatim (raw line) \/ exists fr p z, o = LinearMove fr p z).
Proof.
  unfold getStretchedLine. intros H. bind_inv H.
  set (self1 := set_oldLocation _ a) in H.
  destruct (extruderActive self1 && Rltb 0 (thread_maximum_absolute_stretch self1)).
  - bind_inv H. injection H as <- <-. split; [reflexivity |].
    destruct (stretched_from_index _ _ _ _ _ _ _ Ha0) as [r [_ ->]].
    right. eexists. eexists. eexists. reflexivity.
  - destruct (isJustBeforeExtrusion self1 && Rltb 0 (thread_maximum_absolute_stretch self1)).
    + bind_inv H. injection H as <- <-. split; [reflexivity |].
      destruct (stretched_from_index _ _ _ _ _ _ _ Ha0) as [r [_ ->]].
      right. eexists. eexists. eexists. reflexivity.
    + injection H as <- <-. split; [reflexivity | left; reflexivity].
Qed.

Lemma set_stretch_to_path_output self self' :
  set_stretch_to_path self = Ret self' -> output self' = output self.
Proof.
  unfold set_stretch_to_path. intros H. bind_inv H. injection H as <-. reflexivity.
Qed.

(** [parse_line] adds one line to the output: the line itself, unless it is
    a linear move. *)
Lemma parse_line_output self line self' :
  parse_line float fuel self line = Ret self' ->
  exists o, output self' = (output self ++ [o])%list /\ emitted line o.
Proof.
  unfold parse_line. intros H. bind_inv H.
  destruct (a =? "G1")%string eqn:Hg.
  - apply String.eqb_eq in Hg. subst a. bind_inv H. destruct a as [o self1].
    injection H as <-. simpl.
    destruct (getStretchedLine_output _ _ _ _ _ Ha0) as [-> Ho].
    exists o. split; [reflexivity |].
    destruct Ho as [-> | [fr [p [z ->]]]]; [constructor | constructor; exact Ha].
  - bind_inv H. injection H as <-. exists (Verbatim (raw line)). simpl.
    split; [| constructor]. f_equal.
    unfold attr in Ha0.
    repeat match type of Ha0 with
           | (if ?b then _ else _) = _ => destruct b
           end;
      try (injection Ha0 as <-; reflexivity);
      try (apply set_stretch_to_path_output in Ha0; exact Ha0);
      destruct (thresholds self); try discriminate;
      simpl in Ha0; injection Ha0 as <-; reflexivity.
Qed.

Lemma parse_initialisation_line_output self line b self' :
  parse_initialisation_line float self line = Ret (b, self') ->
  (is_initialisation_end line = true /\ b = true /\ self' = self)
  \/ (is_initialisation_end line = false /\ b = false
      /\ output self' = (output self ++ [copy line])%list).
Proof.
  unfold parse_initialisation_line, is_initialisation_end. intros H.
  destruct (raw line =? "(</extruderInitialization>)")%string.
  - injection H as <- <-. left. auto.
  - bind_inv H. injection H as <- <-. right. split; [reflexivity |].
    split; [reflexivity |]. simpl. f_equal.
    destruct (EDGE_WIDTH_REGEXP_match (raw line)) as [g |].
    + destruct (float g); [| discriminate]. injection Ha as <-. reflexivity.
    + injection Ha as <-. reflexivity.
Qed.

Lemma filter_lines_output layer (rest : list Line) :
  forall n init_done self b self',
    filter_lines float fuel layer n rest init_done self = Ret (b, self') ->
    b = init_done || existsb is_initialisation_end rest
    /\ exists outs, output self' = (output self ++ outs)%list
                    /\ Forall2 emitted (kept init_done rest) outs.
Proof.
  induction rest as [| line rest IH]; intros n init_done self b self' H; simpl in H.
  - injection H as <- <-. split; [rewrite orb_false_r; reflexivity |].
    exists []. split; [rewrite app_nil_r; reflexivity | constructor].
  - bind_inv H. destruct a as [b1 self1]. simpl in H.
    destruct (IH _ _ _ _ _ H) as [Hb [outs [Hout Hall]]].
    destruct init_done.
    + bind_inv Ha. injection Ha as <- <-.
      destruct (parse_line_output _ _ _ Ha0) as [o [Ho He]]. simpl in Ho.
      split; [exact Hb |]. exists (o :: outs). split.
      * rewrite Hout, Ho, <- app_assoc. reflexivity.
      * simpl. constructor; assumption.
    + destruct (parse_initialisation_line_output _ _ _ _ Ha)
        as [[Hend [-> ->]] | [Hend [-> Ho]]]; simpl; rewrite Hend.
      * split; [exact Hb |]. exists outs. split; [exact Hout | exact Hall].
      * split; [exact Hb |]. exists (copy line :: outs). split.
        -- rewrite Hout, Ho, <- app_assoc. reflexivity.
        -- constructor; [constructor | exact Hall].
Qed.

Lemma kept_app (a b : list Line) (init_done : bool) :
  kept init_done (a ++ b)
  = (kept init_done a ++ kept (init_done || existsb is_initialisation_end a) b)%list.
Proof.
  revert init_done. induction a as [| l a IH]; intros init_done; simpl.
  - rewrite orb_false_r. reflexivity.
  - destruct init_done; simpl.
    + rewrite IH. reflexivity.
    + destruct (is_initialisation_end l); simpl; rewrite IH; reflexivity.
Qed.

Lemma filter_layers_output (all_layers : list (list Line)) :
  forall init_done self self',
    filter_layers float fuel all_layers init_done self = Ret self' ->
    exists outs, output self' = (output self ++ outs)%list
                 /\ Forall2 emitted (kept init_done (concat all_layers)) outs.
Proof.
  induction all_layers as [| layer rest IH]; intros init_done self self' H; simpl in H.
  - injection H as <-. exists []. split; [rewrite app_nil_r; reflexivity | constructor].
  - bind_inv H. destruct a as [b1 self1]. simpl in H.
    destruct (filter_lines_output _ _ _ _ _ _ _ Ha) as [Hb [outs1 [Hout1 Hall1]]].
    destruct (IH _ _ _ H) as [outs2 [Hout2 Hall2]].
    exists (outs1 ++ outs2)%list. split.
    + rewrite Hout2, Hout1, <- app_assoc. reflexivity.
    + simpl. rewrite kept_app, <- Hb. apply Forall2_app; assumption.
Qed.

End FilterLines.

(** The filter puts out one line for each line of the program, in the
    order of the program, except for the first line that ends the
    initialisation, which it drops.  A line comes out as it went in unless
    its first word is G1. *)
Theorem filter_keeps_the_lines float fuel self all_layers out :
  filter float fuel self all_layers = Ret out ->
  exists outs,
    out = (output self ++ outs)%list
    /\ Forall2 emitted (kept false (concat all_layers)) outs.
Proof.
  unfold filter. intros H. bind_inv H. injection H as <-.
  apply (filter_layers_output float fuel _ _ _ _ Ha).
Qed.

(** ** Programs that are copied *)

Section Copies.
Variable float : string -> option R.
Variable fuel : nat.

(** *** Programs that never end their initialisation *)

Lemma initialisation_copies self line :
  is_initialisation_end line = false ->
  (forall g, EDGE_WIDTH_REGEXP_match (raw line) = Some g -> float g <> None) ->
  exists self', parse_initialisation_line float self line = Ret (false, self')
                /\ output self' = (output self ++ [copy line])%list.
Proof.
  unfold is_initialisation_end, parse_initialisation_line. intros Hend Hw. rewrite Hend.
  destruct (EDGE_WIDTH_REGEXP_match (raw line)) as [g |].
  - specialize (Hw g eq_refl). destruct (float g) as [w |]; [| congruence].
    cbn [bind]. eexists. split; reflexivity.
  - cbn [bind]. eexists. split; reflexivity.
Qed.

Lemma filter_lines_copies layer (rest : list Line) :
  forall n self,
    (forall l, In l rest -> is_initialisation_end l = false) ->
    (forall l g, In l rest -> EDGE_WIDTH_REGEXP_match (raw l) = Some g -> float g <> None) ->
    exists self', filter_lines float fuel layer n rest false self = Ret (false, self')
                  /\ output self' = (output self ++ map copy rest)%list.
Proof.
  induction rest as [| line rest IH]; intros n self Hend Hw; simpl.
  - exists self. split; [reflexivity | rewrite app_nil_r; reflexivity].
  - destruct (initialisation_copies (set_position self layer n) line
                (Hend line (or_introl eq_refl)) (fun g => Hw line g (or_introl eq_refl)))
      as [self1 [-> Ho]].
    cbn [bind fst snd].
    destruct (IH (n + 1) self1 (fun l H => Hend l (or_intror H))
                (fun l g H => Hw l g (or_intror H))) as [self2 [-> Ho2]].
    exists self2. split; [reflexivity |]. rewrite Ho2, Ho. simpl.
    rewrite <- app_assoc. reflexivity.
Qed.

Lemma filter_layers_copies (all_layers : list (list Line)) :
  forall self,
    (forall l, In l (concat all_layers) -> is_initialisation_end l = false) ->
    (forall l g, In l (concat all_layers) ->
       EDGE_WIDTH_REGEXP_match (raw l) = Some g -> float g <> None) ->
    exists self', filter_layers float fuel all_layers false self = Ret self'
                  /\ output self' = (output self ++ map copy (concat all_layers))%list.
Proof.
  induction all_layers as [| layer rest IH]; intros self Hend Hw; simpl.
  - exists self. split; [reflexivity | rewrite app_nil_r; reflexivity].
  - simpl in Hend, Hw.
    destruct (filter_lines_copies layer layer 0 self
                (fun l H => Hend l (in_or_app _ _ _ (or_introl H)))
                (fun l g H => Hw l g (in_or_app _ _ _ (or_introl H))))
      as [self1 [-> Ho]].
    cbn [bind fst snd].
    destruct (IH self1 (fun l H => Hend l (in_or_app _ _ _ (or_intror H)))
                (fun l g H => Hw l g (in_or_app _ _ _ (or_intror H))))
      as [self2 [-> Ho2]].
    exists self2. split; [reflexivity |]. rewrite Ho2, Ho, map_app, <- app_assoc.
    reflexivity.
Qed.

(** *** Programs without loops and edges *)

Lemma at_rest_initialisation self line b self' :
  at_rest self ->
  parse_initialisation_line float self line = Ret (b, self') -> at_rest self'.
Proof.
  unfold parse_initialisation_line. intros [Hm [Hp Hr]] H.
  destruct (raw line =? "(</extruderInitialization>)")%string.
  - injection H as _ <-. repeat split; assumption.
  - bind_inv H. injection H as _ <-.
    destruct (EDGE_WIDTH_REGEXP_match (raw line)) as [g |].
    + destruct (float g) as [w |]; [| discriminate]. injection Ha as <-.
      unfold at_rest. simpl. rewrite Hr.
      split; [ring |]. split; [| reflexivity].
      intros t Ht. injection Ht as <-. simpl. ring.
    + injection Ha as <-. repeat split; assumption.
Qed.

Lemma at_rest_parse_line self line :
  at_rest self ->
  is_loop_begin line = false -> is_inner_edge_begin line = false ->
  is_outer_edge_begin line = false ->
  parse_line float fuel self line <> OutOfFuel
  /\ forall self', parse_line float fuel self line = Ret self' ->
       at_rest self' /\ output self' = (output self ++ [copy line])%list.
Proof.
  intros [Hm [Hp Hr]] Hlb Hib Hob. unfold parse_line.
  destruct (py_get (getSplitLineBeforeBracketSemicolon (raw line)) 0) as [cmd | e |] eqn:Hc;
    cbn [bind]; [| split; [discriminate | intros ? H; discriminate] |
                 split; [| intros ? H; discriminate]].
  - destruct (cmd =? "G1")%string.
    + unfold getStretchedLine.
      destruct (location_of_split_line_returns float (oldLocation self) (raw line))
        as [v ->].
      cbn [bind]. simpl thread_maximum_absolute_stretch. rewrite Hm.
      rewrite (Rltb_false 0 0) by lra. rewrite !andb_false_r. cbn [bind fst snd].
      split; [discriminate |]. intros self' H. injection H as <-.
      split; [| reflexivity]. repeat split; assumption.
    + rewrite Hlb, Hib, Hob. unfold set_stretch_to_path, attr. simpl thresholds.
      assert (Hpath : forall s0, thresholds s0 = thresholds self ->
                 stretchRepository s0 = stretchRepository self ->
                 forall s1 o,
                   (self1 <- (pathAbsoluteStretch <-
                                match thresholds s0 with
                                | Some t => Ret (pathAbsoluteStretch t)
                                | None => Raise AttributeError
                                end ;;
                              Ret (set_stretch s0 false pathAbsoluteStretch)) ;;
                    Ret (addLine self1 o)) = Ret s1 ->
                   at_rest s1 /\ output s1 = (output s0 ++ [o])%list).
      { intros s0 Ht0 Hr0 s1 o H. rewrite Ht0 in H.
        destruct (thresholds self) as [t |] eqn:Ht; [| discriminate].
        cbn [bind] in H. injection H as <-. split; [| reflexivity].
        unfold at_rest. simpl. rewrite Ht0, Hr0.
        split; [apply Hp; reflexivity |]. split; [| exact Hr].
        intros t' Ht'. injection Ht' as <-. apply Hp. reflexivity. }
      split.
      * destruct (cmd =? "M101")%string; [discriminate |].
        destruct (cmd =? "M103")%string.
        { simpl thresholds. destruct (thresholds self); discriminate. }
        destruct (is_loop_end line); [destruct (thresholds self); discriminate |].
        destruct (is_edge_end line); [destruct (thresholds self); discriminate |].
        discriminate.
      * intros self' H.
        destruct (cmd =? "M101")%string.
        { cbn [bind] in H. injection H as <-. split; [| reflexivity].
          repeat split; assumption. }
        destruct (cmd =? "M103")%string.
        { apply (Hpath (set_extruderActive self false)) in H; auto. }
        destruct (is_loop_end line); [apply (Hpath self) in H; auto |].
        destruct (is_edge_end line); [apply (Hpath self) in H; auto |].
        cbn [bind] in H. injection H as <-. split; [| reflexivity].
        repeat split; assumption.
  - exfalso. unfold py_get in Hc.
    destruct ((0 <=? _) && _); [| discriminate].
    destruct (nth_error _ _); discriminate.
Qed.

Lemma at_rest_set_position self layer n : at_rest self -> at_rest (set_position self layer n).
Proof. intros H. exact H. Qed.

Lemma filter_lines_at_rest layer (rest : list Line) :
  forall n init_done self,
    at_rest self -> plain rest ->
    filter_lines float fuel layer n rest init_done self <> OutOfFuel
    /\ forall b self',
         filter_lines float fuel layer n rest init_done self = Ret (b, self') ->
         at_rest self'
         /\ b = init_done || existsb is_initialisation_end rest
         /\ output self' = (output self ++ map copy (kept init_done rest))%list.
Proof.
  induction rest as [| line rest IH]; intros n init_done self Hrest Hplain; simpl.
  - split; [discriminate |]. intros b self' H. injection H as <- <-.
    split; [exact Hrest |]. split; [rewrite orb_false_r; reflexivity |].
    rewrite app_nil_r. reflexivity.
  - destruct (Hplain line (or_introl eq_refl)) as [Hlb [Hib Hob]].
    assert (Hplain' : plain rest) by (intros l H; apply Hplain; right; exact H).
    destruct init_done.
    + destruct (at_rest_parse_line (set_position self layer n) line
                  (at_rest_set_position self layer n Hrest) Hlb Hib Hob) as [Hfuel Hret].
      destruct (parse_line float fuel (set_position self layer n) line)
        as [self1 | e |]; cbn [bind fst snd]; [| split; [discriminate |] | congruence].
      * destruct (Hret self1 eq_refl) as [Hrest1 Ho1].
        destruct (IH (n + 1) true self1 Hrest1 Hplain') as [Hfuel2 Hret2].
        split; [exact Hfuel2 |]. intros b self' H.
        destruct (Hret2 b self' H) as [Hrest2 [Hb Ho2]].
        split; [exact Hrest2 |]. split; [exact Hb |].
        rewrite Ho2, Ho1. simpl. rewrite <- app_assoc. reflexivity.
      * intros b self' H. discriminate.
    + destruct (parse_initialisation_line float (set_position self layer n) line)
        as [[b1 self1] | e |] eqn:Hinit; cbn [bind fst snd].
      * pose proof (at_rest_initialisation _ _ _ _
                      (at_rest_set_position self layer n Hrest) Hinit) as Hrest1.
        destruct (IH (n + 1) b1 self1 Hrest1 Hplain') as [Hfuel2 Hret2].
        split; [exact Hfuel2 |]. intros b self' H.
        destruct (Hret2 b self' H) as [Hrest2 [Hb Ho2]].
        split; [exact Hrest2 |].
        destruct (parse_initialisation_line_output float _ _ _ _ Hinit)
          as [[Hend [-> ->]] | [Hend [-> Ho1]]]; rewrite Hend.
        -- split; [exact Hb |]. exact Ho2.
        -- split; [exact Hb |]. rewrite Ho2, Ho1. simpl. rewrite <- app_assoc.
           reflexivity.
      * split; [discriminate |]. intros b self' H. discriminate.
      * exfalso. unfold parse_initialisation_line in Hinit.
        destruct (raw line =? "(</extruderInitialization>)")%string; [discriminate |].
        destruct (EDGE_WIDTH_REGEXP_match (raw line)) as [g |];
          [destruct (float g) |]; discriminate.
Qed.

Lemma filter_layers_at_rest (all_layers : list (list Line)) :
  forall init_done self,
    at_rest self -> plain (concat all_layers) ->
    filter_layers float fuel all_layers init_done self <> OutOfFuel
    /\ forall self',
         filter_layers float fuel all_layers init_done self = Ret self' ->
         output self'
         = (output self ++ map copy (kept init_done (concat all_layers)))%list.
Proof.
  induction all_layers as [| layer rest IH]; intros init_done self Hrest Hplain; simpl.
  - split; [discriminate |]. intros self' H. injection H as <-.
    rewrite app_nil_r. reflexivity.
  - simpl in Hplain.
    destruct (filter_lines_at_rest layer layer 0 init_done self Hrest
                (fun l H => Hplain l (in_or_app _ _ _ (or_introl H)))) as [Hfuel1 Hret1].
    destruct (filter_lines float fuel layer 0 layer init_done self)
      as [[b1 self1] | e |]; cbn [bind fst snd];
      [| split; [discriminate | intros ? H; discriminate] | congruence].
    destruct (Hret1 b1 self1 eq_refl) as [Hrest1 [Hb Ho1]].
    destruct (IH b1 self1 Hrest1 (fun l H => Hplain l (in_or_app _ _ _ (or_intror H))))
      as [Hfuel2 Hret2].
    split; [exact Hfuel2 |]. intros self' H.
    rewrite (Hret2 self' H), Ho1, kept_app, map_app, <- Hb, <- app_assoc. reflexivity.
Qed.

End Copies.

(** A program in which no line ends the initialisation comes out line for
    line as it went in: nothing is stretched, and no line but an edge width
    line that does not read as a number can make the filter raise. *)
Theorem unfinished_initialisation_copies float fuel self all_layers :
  (forall l, In l (concat all_layers) -> is_initialisation_end l = false) ->
  (forall l g, In l (concat all_layers) ->
     EDGE_WIDTH_REGEXP_match (raw l) = Some g -> float g <> None) ->
  filter float fuel self all_layers
  = Ret (output self ++ map copy (concat all_layers))%list.
Proof.
  intros Hend Hw. unfold filter.
  destruct (filter_layers_copies float fuel all_layers self Hend Hw) as [self' [-> Ho]].
  cbn [bind]. rewrite Ho. reflexivity.
Qed.

(** With a path stretch of 0, as the default settings have it, a program
    without loop and edge markers is never stretched: the filter does not
    run any cursor, and what it returns is the program line for line,
    without the line that ends the initialisation. *)
Theorem plain_program_is_copied float fuel self all_layers :
  at_rest self ->
  plain (concat all_layers) ->
  filter float fuel self all_layers <> OutOfFuel
  /\ forall out,
       filter float fuel self all_layers = Ret out ->
       out = (output self ++ map copy (kept false (concat all_layers)))%list.
Proof.
  intros Hrest Hplain. unfold filter.
  destruct (filter_layers_at_rest float fuel all_layers false self Hrest Hplain)
    as [Hfuel Hret].
  destruct (filter_layers float fuel all_layers false self) as [self' | e |];
    cbn [bind]; [| split; [discriminate | intros ? H; discriminate] | congruence].
  split; [discriminate |]. intros out H. injection H as <-. apply Hret. reflexivity.
Qed.

(** ** Worked instances of the further properties *)

(** The comment of [G1 X1 ; to the corner] leaves no word. *)
Lemma comment_is_cut_witness :
  getSplitLineBeforeBracketSemicolon "G1 X1 ; to the corner"
  = getSplitLineBeforeBracketSemicolon "G1 X1 ".
Proof. apply (comment_is_cut "G1 X1 " " to the corner"). reflexivity. Defined.

(** A comment line of the kind [;LAYER:0] makes [parse_line] raise. *)
Lemma line_without_word_raises_witness :
  getFirstWord (getSplitLineBeforeBracketSemicolon (raw (ln "" ";LAYER:0"))) = ""
  /\ parse_line float_decimal 5 straight_state (ln "" ";LAYER:0") = Raise IndexError.
Proof.
  apply (line_without_word_raises float_decimal 5 straight_state (ln "" ";LAYER:0")
           "" "LAYER:0").
  - intros c H. discriminate.
  - right. left. reflexivity.
Defined.

(** The line [(<loop> outer )] selects the loop stretch. *)
Lemma feature_markers_witness :
  parse_line float_decimal 5 straight_state (ln "" "(<loop> outer )")
  = Ret (addLine (set_stretch straight_state true
                    (loopMaximumAbsoluteStretch thresholds_default))
           (Verbatim "(<loop> outer )")).
Proof.
  destruct (feature_markers float_decimal 5 straight_state thresholds_default
              (ln "" "(<loop> outer )") eq_refl) as [H _].
  apply H. reflexivity.
Defined.

(** On [square_layer] the backward cursor at index 3 returns the move of
    that line and is left at index 2. *)
Lemma getNext_returns_a_move_witness :
  keeps (LineIteratorBackward.__init__ true 3 square_layer)
        (mkIter (Some 3) true 2 square_layer)
  /\ in_range Backward (mkIter (Some 3) true 2 square_layer)
  /\ firstLineIndex (mkIter (Some 3) true 2 square_layer) <> None
  /\ exists i l, py_get square_layer i = Ret l /\ command l = "G1" /\ raw l = "G1 X1 Y1".
Proof.
  apply (getNext_returns_a_move Backward 10 (LineIteratorBackward.__init__ true 3 square_layer)
           "G1 X1 Y1" (mkIter (Some 3) true 2 square_layer)).
  - simpl. unfold len. simpl. lia.
  - reflexivity.
Defined.

(** On [activate_first] the forward cursor on the deactivate command raises
    [StopIteration]. *)
Lemma getNext_raises_only_StopIteration_witness :
  getNext Forward 5 (LineIteratorForward.__init__ true 3 activate_first)
  = Raise StopIteration
  /\ StopIteration = StopIteration.
Proof.
  split; [reflexivity |].
  apply (getNext_raises_only_StopIteration Forward 5
           (LineIteratorForward.__init__ true 3 activate_first) StopIteration).
  - simpl. lia.
  - reflexivity.
Defined.

(** From index 2 of [square_layer] a forward cursor without the loop flag
    returns the three moves before the deactivate command. *)
Lemma forward_cursor_follows_thread_witness :
  drain Forward 10 5 (LineIteratorForward.__init__ false 2 square_layer)
  = Ret ["G1 X1 Y0"; "G1 X1 Y1"; "G1 X0 Y0"].
Proof.
  apply (forward_cursor_follows_thread square_layer 2 10 5).
  - lia.
  - reflexivity.
  - simpl. lia.
Defined.

(** From index 4 of [square_layer] a backward cursor without the loop flag
    is exhausted. *)
Lemma backward_thread_cursor_exhausts_witness :
  exhausted_within Backward 10 (S (moves square_layer 0 5))
    (LineIteratorBackward.__init__ false 4 square_layer) = true.
Proof.
  apply (backward_thread_cursor_exhausts square_layer 4 10).
  - unfold len. simpl. lia.
  - reflexivity.
Defined.

(** On [square_layer] the forward cursor started on the activate command,
    index 1, never signals exhaustion. *)
Lemma approach_cursor_never_exhausts_witness :
  (forall fuel k,
     exhausted_within Forward fuel k (LineIteratorForward.__init__ true 1 square_layer)
     = false)
  /\ ((1 <= moves square_layer 2 5)%nat ->
      forall fuel k, len square_layer < Z.of_nat fuel ->
        exists c',
          after_calls Forward fuel k (LineIteratorForward.__init__ true 1 square_layer)
          = Ret c').
Proof.
  apply (approach_cursor_never_exhausts square_layer 1 5 1 square_layer_loop).
  - lia.
  - lia.
  - intros i Hi. lia.
Defined.

(** The stretch (0, 1) against the neighbouring point of [near_layer]. *)
Lemma cross_limit_never_lengthens_witness :
  (forall r,
     getCrossLimitedStretch float_decimal 5 (cross_state near_layer) (mkComplex 0 1)
       Forward (LineIteratorForward.__init__ false 0 near_layer) (mkComplex 0 0) = Ret r ->
     (Cabs r <= Cabs (mkComplex 0 1))%R)
  /\ ((0 <= crossLimitDistance thresholds_default)%R ->
      in_range Forward (LineIteratorForward.__init__ false 0 near_layer) ->
      getCrossLimitedStretch float_decimal 5 (cross_state near_layer) (mkComplex 0 1)
        Forward (LineIteratorForward.__init__ false 0 near_layer) (mkComplex 0 0)
      <> Raise ZeroDivisionError).
Proof.
  apply (cross_limit_never_lengthens float_decimal 5 (cross_state near_layer)
           thresholds_default).
  - reflexivity.
  - exact thresholds_default_derived.
Defined.

(** The last move of [straight_layer]. *)
Lemma stretching_raises_nothing_witness :
  raises_nothing
    (getStretchedLineFromIndexLocation float_decimal 5 straight_state
       (2 - 1) (2 + 1) (mkVector3 1 0 0)).
Proof.
  apply (stretching_raises_nothing float_decimal 5 straight_state thresholds_default
           (mkVector3 1 0 0)).
  - reflexivity.
  - exact thresholds_default_derived.
  - simpl. lra.
  - simpl. lra.
  - intros l [<- | [<- | [<- | []]]] _; discriminate.
  - simpl. unfold len. simpl. lia.
Defined.

(** A program of the line that ends the initialisation and an activate
    command: the command is the output. *)
Lemma filter_keeps_the_lines_witness :
  exists outs,
    [Verbatim "M101"] = (output (StretchFilter__init__ StretchRepository_default) ++ outs)%list
    /\ Forall2 emitted
         (kept false (concat [[ ln "" "(</extruderInitialization>)"; ln "M101" "M101" ]]))
         outs.
Proof.
  apply (filter_keeps_the_lines float_decimal 5
           (StretchFilter__init__ StretchRepository_default)
           [[ ln "" "(</extruderInitialization>)"; ln "M101" "M101" ]]).
  reflexivity.
Defined.

(** [unfinished_program] comes out as it went in. *)
Lemma unfinished_initialisation_copies_witness :
  filter float_decimal 5 (StretchFilter__init__ StretchRepository_default)
    unfinished_program
  = Ret [ Verbatim "(<edgeWidth> 0.4 </edgeWidth>)"; Verbatim "G1 X1 Y0" ].
Proof.
  apply (unfinished_initialisation_copies float_decimal 5
           (StretchFilter__init__ StretchRepository_default) unfinished_program).
  - intros l [<- | [<- | []]]; reflexivity.
  - intros l g [<- | [<- | []]] H; simpl in H; [| discriminate].
    injection H as <-. discriminate.
Defined.

(** [path_program] comes out without the line that ends its
    initialisation, the move as it went in. *)
Lemma plain_program_is_copied_witness :
  filter float_decimal 5 (StretchFilter__init__ StretchRepository_default) path_program
  <> OutOfFuel
  /\ forall out,
       filter float_decimal 5 (StretchFilter__init__ StretchRepository_default)
         path_program = Ret out ->
       out = [ Verbatim "(<edgeWidth> 0.4 </edgeWidth>)"; Verbatim "M101";
               Verbatim "G1 X1 Y0"; Verbatim "M103" ].
Proof.
  apply (plain_program_is_copied float_decimal 5
           (StretchFilter__init__ StretchRepository_default) path_program).
  - unfold at_rest. simpl. split; [reflexivity |]. split; [| reflexivity].
    intros t H. discriminate.
  - intros l [<- | [<- | [<- | [<- | [<- | []]]]]]; repeat split; reflexivity.
Defined.

(** ** What the lines leave alone *)

(** A move changes the carried location and feed rate and nothing else;
    the new location has the old value for each coordinate the line has no
    word for. *)
Theorem move_updates_location float fuel self cmd words line o self' :
  getStretchedLine float fuel self (cmd :: words) line = Ret (o, self') ->
  exists v,
    oldLocation self' = Some v
    /\ getLocationFromSplitLine float (oldLocation self) (cmd :: words) = Ret v
    /\ (noneStartsWith "X" words -> vx v = vx (location_or_origin (oldLocation self)))
    /\ (noneStartsWith "Y" words -> vy v = vy (location_or_origin (oldLocation self)))
    /\ (noneStartsWith "Z" words -> vz v = vz (location_or_origin (oldLocation self)))
    /\ feedRateMinute self' = f_or (f line) (feedRateMinute self)
    /\ extruderActive self' = extruderActive self /\ isLoop self' = isLoop self
    /\ thread_maximum_absolute_stretch self' = thread_maximum_absolute_stretch self
    /\ thresholds self' = thresholds self /\ output self' = output self.
Proof.
  unfold getStretchedLine. intros H. bind_inv H. rename a into v.
  assert (Hself : self' = set_oldLocation
                            (set_feedRateMinute self (f_or (f line) (feedRateMinute self))) v).
  { destruct (_ && _) in H; [bind_inv H; injection H as _ <-; reflexivity |].
    destruct (_ && _) in H; [bind_inv H; injection H as _ <-; reflexivity |].
    injection H as _ <-. reflexivity. }
  subst self'. exists v. split; [reflexivity |]. split; [exact Ha |].
  unfold getLocationFromSplitLine in Ha. fold (location_or_origin (oldLocation self)) in Ha.
  bind_inv Ha. rename a into x. bind_inv Ha. rename a into y. bind_inv Ha. rename a into z.
  injection Ha as <-. simpl.
  split; [| split; [| split]].
  - intros Hn.
    pose proof (proj2 (coordinate_word_decides float "X" cmd words "" []
                         (vx (location_or_origin (oldLocation self))) Hn)) as Hx.
    congruence.
  - intros Hn.
    pose proof (proj2 (coordinate_word_decides float "Y" cmd words "" []
                         (vy (location_or_origin (oldLocation self))) Hn)) as Hy.
    congruence.
  - intros Hn.
    pose proof (proj2 (coordinate_word_decides float "Z" cmd words "" []
                         (vz (location_or_origin (oldLocation self))) Hn)) as Hz.
    congruence.
  - repeat split; reflexivity.
Qed.

(** No line changes the edge width or the settings.  After the
    initialisation no line changes the thresholds, and the maximum stretch
    in force stays as it was or becomes one of the four of the thresholds.
    During the initialisation no line changes the extruder flag, the loop
    flag, the carried location or the carried feed rate: a move in the
    initialisation is copied and leaves no trace. *)
Theorem lines_leave_alone float fuel self line :
  (forall self', parse_line float fuel self line = Ret self' ->
     thresholds self' = thresholds self /\ edgeWidth self' = edgeWidth self
     /\ stretchRepository self' = stretchRepository self
     /\ (thread_maximum_absolute_stretch self' = thread_maximum_absolute_stretch self
         \/ exists t, thresholds self = Some t
                      /\ stretch_of_kind t (thread_maximum_absolute_stretch self')))
  /\ (forall b self', parse_initialisation_line float self line = Ret (b, self') ->
        extruderActive self' = extruderActive self /\ isLoop self' = isLoop self
        /\ oldLocation self' = oldLocation self
        /\ feedRateMinute self' = feedRateMinute self
        /\ edgeWidth self' = edgeWidth self
        /\ stretchRepository self' = stretchRepository self).
Proof.
  split.
  - unfold parse_line. intros self' H. bind_inv H. rename a into cmd.
    destruct (cmd =? "G1")%string.
    + bind_inv H. destruct a as [o self1]. injection H as <-. simpl.
      unfold getStretchedLine in Ha0. bind_inv Ha0.
      assert (Hself : self1 = set_oldLocation
                (set_feedRateMinute self (f_or (f line) (feedRateMinute self))) a).
      { destruct (_ && _) in Ha0; [bind_inv Ha0; injection Ha0 as _ <-; reflexivity |].
        destruct (_ && _) in Ha0; [bind_inv Ha0; injection Ha0 as _ <-; reflexivity |].
        injection Ha0 as _ <-. reflexivity. }
      subst self1. simpl. repeat split; try reflexivity. left. reflexivity.
    + bind_inv H. injection H as <-. simpl.
      unfold set_stretch_to_path, attr in Ha0.
      assert (Hto : forall s0 (field : Thresholds -> R) b,
                thresholds s0 = thresholds self -> edgeWidth s0 = edgeWidth self ->
                stretchRepository s0 = stretchRepository self ->
                (m <- match thresholds s0 with
                      | Some t => Ret (field t)
                      | None => Raise AttributeError
                      end ;; Ret (set_stretch s0 b m)) = Ret a ->
                thresholds a = thresholds self /\ edgeWidth a = edgeWidth self
                /\ stretchRepository a = stretchRepository self
                /\ exists t, thresholds self = Some t
                             /\ thread_maximum_absolute_stretch a = field t).
      { intros s0 field b Ht He Hr H0. rewrite Ht in H0.
        destruct (thresholds self) as [t |] eqn:Hts; [| discriminate].
        cbn [bind] in H0. injection H0 as <-. simpl. rewrite Ht, He, Hr.
        repeat split; try reflexivity. exists t. split; reflexivity. }
      assert (Hkind : forall (field : Thresholds -> R),
                (forall t, stretch_of_kind t (field t)) ->
                (thresholds a = thresholds self /\ edgeWidth a = edgeWidth self
                 /\ stretchRepository a = stretchRepository self
                 /\ exists t, thresholds self = Some t
                              /\ thread_maximum_absolute_stretch a = field t) ->
                thresholds a = thresholds self /\ edgeWidth a = edgeWidth self
                /\ stretchRepository a = stretchRepository self
                /\ (thread_maximum_absolute_stretch a = thread_maximum_absolute_stretch self
                    \/ exists t, thresholds self = Some t
                         /\ stretch_of_kind t (thread_maximum_absolute_stretch a))).
      { intros field Hf [H1 [H2 [H3 [t [H4 H5]]]]]. repeat split; try assumption.
        right. exists t. split; [exact H4 |]. rewrite H5. apply Hf. }
      destruct (cmd =? "M101")%string;
        [injection Ha0 as <-; simpl; repeat split; try reflexivity; left; reflexivity |].
      destruct (cmd =? "M103")%string.
      { apply (Hkind pathAbsoluteStretch); [intros t; left; reflexivity |].
        apply (Hto (set_extruderActive self false) pathAbsoluteStretch false); auto. }
      destruct (is_loop_begin line).
      { apply (Hkind loopMaximumAbsoluteStretch); [intros t; right; left; reflexivity |].
        apply (Hto self loopMaximumAbsoluteStretch true); auto. }
      destruct (is_loop_end line).
      { apply (Hkind pathAbsoluteStretch); [intros t; left; reflexivity |].
        apply (Hto self pathAbsoluteStretch false); auto. }
      destruct (is_inner_edge_begin line).
      { apply (Hkind edgeInsideAbsoluteStretch);
          [intros t; right; right; left; reflexivity |].
        apply (Hto self edgeInsideAbsoluteStretch true); auto. }
      destruct (is_outer_edge_begin line).
      { apply (Hkind edgeOutsideAbsoluteStretch);
          [intros t; right; right; right; reflexivity |].
        apply (Hto self edgeOutsideAbsoluteStretch true); auto. }
      destruct (is_edge_end line).
      { apply (Hkind pathAbsoluteStretch); [intros t; left; reflexivity |].
        apply (Hto self pathAbsoluteStretch false); auto. }
      injection Ha0 as <-. repeat split; try reflexivity. left. reflexivity.
  - unfold parse_initialisation_line. intros b self' H.
    destruct (raw line =? "(</extruderInitialization>)")%string.
    + injection H as _ <-. repeat split; reflexivity.
    + bind_inv H. injection H as _ <-. simpl.
      destruct (EDGE_WIDTH_REGEXP_match (raw line)) as [g |].
      * destruct (float g); [| discriminate]. injection Ha as <-.
        repeat split; reflexivity.
      * injection Ha as <-. repeat split; reflexivity.
Qed.

(** ** Moves without neighbours *)

(** A move that has no move before it and none after it in its thread
    (both cursors are exhausted at their first call) is put out at its own
    coordinates, as a linear move with the carried feed rate. *)
Theorem lone_move_stays float fuel self ip inx location :
  (1 <= fuel)%nat ->
  getNext Forward fuel
    (LineIteratorForward.__init__ (isLoop self) inx (current_layer self))
  = Raise StopIteration ->
  getNext Backward fuel
    (LineIteratorBackward.__init__ (isLoop self) ip (current_layer self))
  = Raise StopIteration ->
  exists p,
    getStretchedLineFromIndexLocation float fuel self ip inx location
    = Ret (LinearMove (feedRateMinute self) p (vz location))
    /\ real p = vx location /\ imag p = vy location.
Proof.
  intros Hfuel Hf Hb. destruct fuel as [| n]; [lia |].
  unfold getStretchedLineFromIndexLocation, getRelativeStretch.
  assert (Hzero : Cabs (Csub (dropAxis location) (dropAxis location)) = 0%R).
  { apply Cabs_null; simpl; ring. }
  assert (Hrel : forall d it,
            getNext d (S n) it = Raise StopIteration ->
            getRelativeStretch_loop float (S n) (S n) self (dropAxis location) d it
              (dropAxis location) 0 (dropAxis location) 0 = Ret Czero).
  { intros d it Hit. simpl. rewrite Hit. rewrite Hzero.
    rewrite (Rltb_false 0 0) by lra. reflexivity. }
  rewrite (Hrel Forward _ Hf), (Hrel Backward _ Hb). cbn [bind].
  unfold getCrossLimitedStretch. rewrite Hf. cbn [bind]. rewrite Hb. cbn [bind].
  assert (Hlen : Cabs (Cscale (8 / 10) (Cadd Czero Czero)) = 0%R).
  { apply Cabs_null; simpl; ring. }
  rewrite Hlen. rewrite (Rltb_false 1 0) by lra. cbn [bind].
  eexists. split; [reflexivity |]. simpl. split; ring.
Qed.

(** ** Worked instances *)

(** A move up, without an X or a Y word, from a filter that has seen no
    move yet. *)
Lemma move_updates_location_witness :
  exists v,
    oldLocation
      (set_oldLocation
         (set_feedRateMinute (StretchFilter__init__ StretchRepository_default) 959)
         (mkVector3 0 0 (3 / 1)))
    = Some v
    /\ getLocationFromSplitLine float_decimal
         (oldLocation (StretchFilter__init__ StretchRepository_default)) ["G1"; "Z3"]
       = Ret v
    /\ (noneStartsWith "X" ["Z3"] ->
        vx v = vx (location_or_origin
                     (oldLocation (StretchFilter__init__ StretchRepository_default))))
    /\ (noneStartsWith "Y" ["Z3"] ->
        vy v = vy (location_or_origin
                     (oldLocation (StretchFilter__init__ StretchRepository_default))))
    /\ (noneStartsWith "Z" ["Z3"] ->
        vz v = vz (location_or_origin
                     (oldLocation (StretchFilter__init__ StretchRepository_default))))
    /\ feedRateMinute
         (set_oldLocation
            (set_feedRateMinute (StretchFilter__init__ StretchRepository_default) 959)
            (mkVector3 0 0 (3 / 1)))
       = f_or (f (ln "G1" "G1 Z3"))
           (feedRateMinute (StretchFilter__init__ StretchRepository_default))
    /\ extruderActive
         (set_oldLocation
            (set_feedRateMinute (StretchFilter__init__ StretchRepository_default) 959)
            (mkVector3 0 0 (3 / 1)))
       = extruderActive (StretchFilter__init__ StretchRepository_default)
    /\ isLoop
         (set_oldLocation
            (set_feedRateMinute (StretchFilter__init__ StretchRepository_default) 959)
            (mkVector3 0 0 (3 / 1)))
       = isLoop (StretchFilter__init__ StretchRepository_default)
    /\ thread_maximum_absolute_stretch
         (set_oldLocation
            (set_feedRateMinute (StretchFilter__init__ StretchRepository_default) 959)
            (mkVector3 0 0 (3 / 1)))
       = thread_maximum_absolute_stretch (StretchFilter__init__ StretchRepository_default)
    /\ thresholds
         (set_oldLocation
            (set_feedRateMinute (StretchFilter__init__ StretchRepository_default) 959)
            (mkVector3 0 0 (3 / 1)))
       = thresholds (StretchFilter__init__ StretchRepository_default)
    /\ output
         (set_oldLocation
            (set_feedRateMinute (StretchFilter__init__ StretchRepository_default) 959)
            (mkVector3 0 0 (3 / 1)))
       = output (StretchFilter__init__ StretchRepository_default).
Proof.
  apply (move_updates_location float_decimal 5
           (StretchFilter__init__ StretchRepository_default) "G1" ["Z3"]
           (ln "G1" "G1 Z3") (Verbatim "G1 Z3")).
  reflexivity.
Defined.

(** The only move of [lone_layer] comes out at (1, 1). *)
Lemma lone_move_stays_witness :
  exists p,
    getStretchedLineFromIndexLocation float_decimal 5 lone_state 0 2
      (mkVector3 1 1 (2 / 10))
    = Ret (LinearMove (feedRateMinute lone_state) p (vz (mkVector3 1 1 (2 / 10))))
    /\ real p = vx (mkVector3 1 1 (2 / 10)) /\ imag p = vy (mkVector3 1 1 (2 / 10)).
Proof.
  apply (lone_move_stays float_decimal 5 lone_state 0 2 (mkVector3 1 1 (2 / 10))).
  - lia.
  - reflexivity.
  - reflexivity.
Defined.

(** ** The cursor of an approach move hangs the filter *)

Lemma empty_loop_layer_loop : loop_at empty_loop_layer 4 5.
Proof.
  unfold loop_at. repeat split; try reflexivity; try lia; intros; lia.
Qed.

Lemma still_loop_layer_loop : loop_at still_loop_layer 4 6.
Proof.
  unfold loop_at. repeat split; try reflexivity; try lia;
    assert (Hc : i = 5) by lia; subst i; discriminate.
Qed.

(** Without a linear move from the start of the cursor to the end of the
    loop, no amount of fuel lets a call return. *)
Lemma approach_stuck (ls : list Line) (A D s : Z) :
  loop_at ls A D -> 1 <= A -> 0 <= s <= A ->
  (forall i, s <= i < A -> cmdAt ls i <> "M103") ->
  (forall i, s <= i < D -> isMove ls i = false) ->
  forall fuel fi i, approaching D s fi i ->
    LineIteratorForward.loop fuel (mkIter fi true i ls) = OutOfFuel.
Proof.
  intros Hloop HA Hs Hq Hnone. induction fuel as [| fuel IH]; intros fi i Hap; [reflexivity |].
  pose proof (approaching_range ls A D s Hloop Hs fi i Hap) as Hr.
  assert (Hi : s <= i <= D) by (destruct Hap as [[_ ->] | [_ Hi]]; destruct Hloop; lia).
  simpl LineIteratorForward.loop. simpl lineIndex. simpl lines.
  destruct (Z.ltb_spec i (len ls)); [| lia].
  rewrite (approach_turn ls A D s Hloop HA Hs Hq fi i Hap).
  destruct (Z.eqb_spec i D) as [-> | Hne].
  - simpl. apply IH. apply (approaching_wrap ls A D s Hloop Hs).
  - rewrite (Hnone i) by lia. simpl. apply IH.
    apply (approaching_next ls A D s Hloop Hs fi i Hap Hne).
Qed.

Lemma empty_loop_stuck (fuel : nat) :
  LineIteratorForward.getNext fuel (LineIteratorForward.__init__ true 4 empty_loop_layer)
  = OutOfFuel.
Proof.
  unfold LineIteratorForward.getNext.
  apply (approach_stuck empty_loop_layer 4 5 4 empty_loop_layer_loop); try lia.
  - intros i Hi. assert (i = 4) by lia. subst i. reflexivity.
  - left. split; reflexivity.
Qed.

(** The approach move of [empty_loop_layer] is never stretched: the first
    call of the forward cursor does not return. *)
Lemma empty_loop_hangs float fuel self ip location :
  isLoop self = true -> current_layer self = empty_loop_layer ->
  getStretchedLineFromIndexLocation float fuel self ip 4 location = OutOfFuel.
Proof.
  intros Hl Hc. unfold getStretchedLineFromIndexLocation, getRelativeStretch.
  rewrite Hl, Hc. destruct fuel as [| n]; [reflexivity |].
  cbn [getRelativeStretch_loop getNext]. rewrite empty_loop_stuck. reflexivity.
Qed.

(** On [still_loop_layer] the walk of the forward cursor goes round the
    loop without getting anywhere: every point it visits is the origin. *)
Lemma still_loop_walk fuel self t L (n : nat) :
  thresholds self = Some t -> (0 < stretchFromDistance t)%R ->
  forall fi i last old,
    approaching 6 4 fi i -> real last = 0%R -> imag last = 0%R -> old = 0%R ->
    getRelativeStretch_loop float_decimal n fuel self L Forward
      (mkIter fi true i still_loop_layer) last old last old = OutOfFuel.
Proof.
  intros Ht Hpos. induction n as [| n IH]; intros fi i last old Hap Hre Him Hold;
    [reflexivity |].
  cbn [getRelativeStretch_loop getNext]. unfold LineIteratorForward.getNext.
  pose proof (approach_call still_loop_layer 4 6 4 still_loop_layer_loop ltac:(lia)
                ltac:(lia) ltac:(intros; lia) fuel fi i Hap) as Hcall.
  pose proof (forward_loop_result fuel (mkIter fi true i still_loop_layer)) as Hres.
  simpl lineIndex in Hres. simpl lines in Hres.
  assert (Hi : 0 <= i) by (destruct Hap as [[_ ->] | [_ Hi]]; lia).
  specialize (Hres Hi).
  destruct (LineIteratorForward.loop fuel (mkIter fi true i still_loop_layer))
    as [[line c'] | e |]; [| contradiction | reflexivity].
  destruct Hcall as [i' [-> Hap']].
  destruct Hres as [_ [_ [_ [i0 [l [Hget [Hcmd Hraw]]]]]]].
  assert (Hline : line = "G1 X0 Y0").
  { apply py_get_In in Hget. rewrite <- Hraw.
    destruct Hget as [<- | [<- | [<- | [<- | [<- | [<- | [<- | []]]]]]]];
      try discriminate; reflexivity. }
  subst line. rewrite Hline.
  change (getSplitLineBeforeBracketSemicolon "G1 X0 Y0") with ["G1"; "X0"; "Y0"].
  change (py_get ["G1"; "X0"; "Y0"] 0) with (Ret (A:=string) "G1"). cbn [bind].
  change (getLocationFromSplitLine float_decimal (oldLocation self) ["G1"; "X0"; "Y0"])
    with (Ret (mkVector3 (0 / 1) (0 / 1)
                 (vz match oldLocation self with
                     | None => Vector3_default
                     | Some v => v
                     end))).
  cbn [bind]. unfold attr. rewrite Ht. cbn [bind].
  set (P := dropAxis _).
  assert (Hz : Cabs (Csub last P) = 0%R).
  { apply Cabs_null; simpl; lra. }
  rewrite Hz. rewrite Rleb_false by lra.
  apply IH; [exact Hap' | simpl; lra | simpl; lra | lra].
Qed.

(** The approach move of [still_loop_layer] is never stretched: the walk
    of the forward cursor never reaches the lookahead distance. *)
Lemma still_loop_hangs fuel self t ip location :
  isLoop self = true -> current_layer self = still_loop_layer ->
  thresholds self = Some t -> (0 < stretchFromDistance t)%R ->
  vx location = 0%R -> vy location = 0%R ->
  getStretchedLineFromIndexLocation float_decimal fuel self ip 4 location = OutOfFuel.
Proof.
  intros Hl Hc Ht Hpos Hx Hy. unfold getStretchedLineFromIndexLocation, getRelativeStretch.
  rewrite Hl, Hc.
  unfold LineIteratorForward.__init__, LineIteratorBackward.__init__.
  rewrite (still_loop_walk fuel self t (dropAxis location) fuel Ht Hpos None 4
             (dropAxis location) 0%R).
  - reflexivity.
  - left. split; reflexivity.
  - exact Hx.
  - exact Hy.
  - reflexivity.
Qed.

(** C4, evaluated on the cursor that the filter creates for the move
    before a loop: a forward cursor with the loop flag set, started on the
    line after that move, at or before the activate command.  On
    [square_layer], a loop of 3 moves, this cursor returns a line at each of
    its first 4 calls and is never exhausted, whatever the number of calls
    and the fuel.  On [empty_loop_layer], a loop of no move, its first call
    does not return, whatever the fuel, and the filter does not return
    either.  On [still_loop_layer], whose loop stays at the point of the
    approach move, the walk that uses the cursor never reaches the lookahead
    distance, and the filter does not return, whatever the fuel. *)
Theorem approach_cursor_hangs_the_filter :
  (forall fuel k,
     exhausted_within Forward fuel k (LineIteratorForward.__init__ true 1 square_layer)
     = false)
  /\ after_calls Forward 10 4 (LineIteratorForward.__init__ true 1 square_layer)
     = Ret (mkIter (Some 1) true 3 square_layer)
  /\ (forall fuel,
        LineIteratorForward.getNext fuel
          (LineIteratorForward.__init__ true 4 empty_loop_layer) = OutOfFuel)
  /\ (forall fuel,
        filter float_decimal fuel (StretchFilter__init__ StretchRepository_default)
          [empty_loop_layer] = OutOfFuel)
  /\ (forall fuel,
        filter float_decimal fuel (StretchFilter__init__ StretchRepository_default)
          [still_loop_layer] = OutOfFuel).
Proof.
  split; [| split; [| split; [| split]]].
  - intros fuel k.
    apply (approach_never_exhausted square_layer 1 5 1 square_layer_loop); try lia.
    left. split; reflexivity.
  - reflexivity.
  - exact empty_loop_stuck.
  - intros fuel. run_to_stretch.
    rewrite (Rltb_true 0 (4 / 10 * (11 / 100))) by lra.
    rewrite empty_loop_hangs by reflexivity. reflexivity.
  - intros fuel. run_to_stretch.
    rewrite (Rltb_true 0 (4 / 10 * (11 / 100))) by lra.
    erewrite still_loop_hangs;
      [reflexivity | reflexivity | reflexivity | reflexivity | simpl; lra
      | simpl; lra | simpl; lra].
Qed.

(** * Properties of the temperature gradient *)

Import Tempcal.

Lemma parse_gcode_keeps self self' :
  _parse_gcode self = Ret self' ->
  all_layers self' = all_layers self /\ zmax self' = zmax self
  /\ start_temp self' = start_temp self /\ end_temp self' = end_temp self
  /\ last_target_temperature self' = last_target_temperature self
  /\ exists zm, zmin self' = Some zm /\ (zm < zmax self)%R
       /\ zmin self' = scan_zmin (min_z_change self) (zmin self) (all_layers self)
       /\ class self'
          = match class self with
            | GCodeContinuousTempGradient _ =>
                GCodeContinuousTempGradient
                  (Some ((end_temp self - start_temp self) / (zmax self - zm))%R)
            | c => c
            end.
Proof.
  assert (Hbase : forall s s', GCodeTempGradient_parse_gcode s = Ret s' ->
            s' = set_zmin s (scan_zmin (min_z_change s) (zmin s) (all_layers s))
            /\ exists zm, zmin s' = Some zm /\ (zm < zmax s)%R).
  { intros s s'. unfold GCodeTempGradient_parse_gcode. simpl.
    destruct (scan_zmin (min_z_change s) (zmin s) (all_layers s)) as [z |]; [| discriminate].
    destruct (Rleb (zmax s) z) eqn:Hle; [discriminate |].
    intros H. injection H as <-. split; [reflexivity |]. exists z. split; [reflexivity |].
    destruct (Rle_dec (zmax s) z) as [Hc | Hc]; [| lra].
    rewrite (Rleb_true _ _ Hc) in Hle. discriminate. }
  unfold _parse_gcode. intros H.
  destruct (class self) eqn:Hc.
  - destruct (Hbase _ _ H) as [-> [zm [Hz Hlt]]]. simpl in *.
    repeat split; try reflexivity. exists zm. rewrite Hc. auto.
  - destruct (GCodeTempGradient_parse_gcode self) as [s1 | e] eqn:Hp; [| discriminate].
    destruct (Hbase _ _ Hp) as [-> [zm [Hz Hlt]]]. simpl in *. rewrite Hz in H.
    destruct (Reqb (zmax self - zm) 0); [discriminate |]. injection H as <-. simpl.
    repeat split; try reflexivity. exists zm. auto.
  - destruct (Hbase _ _ H) as [-> [zm [Hz Hlt]]]. simpl in *.
    repeat split; try reflexivity. exists zm. rewrite Hc. auto.
Qed.

(** ** What [write] prints *)

Lemma program_lines_app a b : program_lines (a ++ b) = (program_lines a ++ program_lines b)%list.
Proof.
  induction a as [| [t | r] a IH]; simpl; [reflexivity | exact IH | rewrite IH; reflexivity].
Qed.

Lemma program_lines_map layer :
  program_lines (map (fun line => Program (raw line)) layer) = map raw layer.
Proof. induction layer as [| l layer IH]; simpl; [reflexivity | rewrite IH; reflexivity]. Qed.

Lemma write_temperature_head round1 self first self' head :
  write_temperature round1 self first = Ret (self', head) ->
  head = [] \/ exists text, head = [Temperature text].
Proof.
  unfold write_temperature. intros H.
  destruct (in_gradient _) as [[|] | e]; try discriminate.
  - destruct (get_temp_for_current_layer _) as [t | e]; [| discriminate].
    destruct (differs _ _); injection H as _ <-; [right; eexists; reflexivity | left; reflexivity].
  - injection H as _ <-. left. reflexivity.
Qed.

Lemma write_layers_chunks round1 (layers : list (list Line)) :
  forall self self' out,
    write_layers round1 self layers = Ret (self', out) ->
    exists chunks, out = concat chunks /\ Forall2 printed_for layers chunks.
Proof.
  induction layers as [| layer rest IH]; intros self self' out H; simpl in H.
  - injection H as _ <-. exists []. split; [reflexivity | constructor].
  - destruct layer as [| first more].
    + destruct (write_layers round1 self rest) as [[s2 o2] |] eqn:Hr; [| discriminate].
      injection H as _ <-. destruct (IH _ _ _ Hr) as [chunks [-> Hall]].
      exists ([] :: chunks). split; [reflexivity |]. constructor; [left; reflexivity | exact Hall].
    + destruct (write_temperature round1 self first) as [[s1 head] |] eqn:Hw; [| discriminate].
      destruct (write_layers round1 s1 rest) as [[s2 o2] |] eqn:Hr; [| discriminate].
      injection H as _ <-. destruct (IH _ _ _ Hr) as [chunks [-> Hall]].
      exists ((head ++ map (fun line => Program (raw line)) (first :: more))%list :: chunks).
      split; [simpl; rewrite <- app_assoc; reflexivity |].
      constructor; [| exact Hall].
      destruct (write_temperature_head _ _ _ _ _ Hw) as [-> | [text ->]].
      * left. reflexivity.
      * right. split; [discriminate |]. exists text. reflexivity.
Qed.

Lemma printed_for_lines layers chunks :
  Forall2 printed_for layers chunks ->
  program_lines (concat chunks) = map raw (concat layers).
Proof.
  induction 1 as [| layer chunk layers chunks Hp _ IH]; [reflexivity |].
  simpl. rewrite program_lines_app, map_app, IH. f_equal.
  destruct Hp as [-> | [_ [text ->]]]; simpl; apply program_lines_map.
Qed.

(** Whatever [write] prints holds the lines of the program, all of them and
    in their order; what it adds is one line of temperature gcode at most
    before the first line of a layer. *)
Theorem write_keeps_the_program round1 self out :
  write round1 self = Ret out ->
  program_lines out = map raw (concat (all_layers self))
  /\ exists chunks, out = concat chunks /\ Forall2 printed_for (all_layers self) chunks.
Proof.
  unfold write. intros H.
  destruct (_parse_gcode self) as [s1 | e] eqn:Hp; [| discriminate].
  destruct (parse_gcode_keeps _ _ Hp) as [Hl _]. rewrite Hl in H.
  destruct (write_layers round1 s1 (all_layers self)) as [[s2 o] |] eqn:Hw; [| discriminate].
  injection H as <-. destruct (write_layers_chunks _ _ _ _ _ Hw) as [chunks [-> Hall]].
  split; [apply printed_for_lines; exact Hall |]. exists chunks. split; [reflexivity | exact Hall].
Qed.

(** ** The lowest height of the gradient *)

Lemma scan_zmin_set m z layers : scan_zmin m (Some z) layers = Some z.
Proof.
  induction layers as [| layer rest IH]; simpl; [reflexivity |].
  destruct layer as [| first more]; [exact IH |]. destruct (current_z first); exact IH.
Qed.

Lemma scan_zmin_low m before rest :
  Forall (starts_low m) before -> scan_zmin m None (before ++ rest) = scan_zmin m None rest.
Proof.
  induction 1 as [| layer before Hlow _ IH]; [reflexivity |].
  simpl. destruct layer as [| first more]; [exact IH |].
  simpl in Hlow. destruct (current_z first) as [z |]; [| exact IH].
  rewrite Rltb_false by exact Hlow. exact IH.
Qed.

(** [_parse_gcode] takes for [zmin] the height of the first layer that
    starts above [min_z_change], whatever the heights of the layers after
    it, and raises [RuntimeError] unless that height is below [zmax]. *)
Theorem zmin_is_the_first_height_above self before first more after z :
  zmin self = None ->
  all_layers self = (before ++ (first :: more) :: after)%list ->
  Forall (starts_low (min_z_change self)) before ->
  current_z first = Some z -> (min_z_change self < z)%R ->
  match _parse_gcode self with
  | Ret self' => zmin self' = Some z /\ (z < zmax self)%R
  | Raise e => e = RuntimeError /\ (zmax self <= z)%R
  end.
Proof.
  intros Hz Hl Hlow Hc Hgt.
  assert (Hscan : scan_zmin (min_z_change self) (zmin self) (all_layers self) = Some z).
  { rewrite Hz, Hl, scan_zmin_low by exact Hlow. simpl. rewrite Hc.
    rewrite Rltb_true by exact Hgt. apply scan_zmin_set. }
  assert (Hbase : match GCodeTempGradient_parse_gcode self with
                  | Ret self' => self' = set_zmin self (Some z) /\ (z < zmax self)%R
                  | Raise e => e = RuntimeError /\ (zmax self <= z)%R
                  end).
  { unfold GCodeTempGradient_parse_gcode. rewrite Hscan. simpl.
    destruct (Rle_dec (zmax self) z) as [Hle | Hn].
    - rewrite (Rleb_true _ _ Hle). split; [reflexivity | exact Hle].
    - rewrite Rleb_false by lra. split; [reflexivity | lra]. }
  unfold _parse_gcode. destruct (class self).
  - destruct (GCodeTempGradient_parse_gcode self) as [s1 | e]; [| exact Hbase].
    destruct Hbase as [-> Hlt]. split; [reflexivity | exact Hlt].
  - destruct (GCodeTempGradient_parse_gcode self) as [s1 | e]; [| exact Hbase].
    destruct Hbase as [-> Hlt]. simpl. rewrite Reqb_false by lra.
    split; [reflexivity | exact Hlt].
  - destruct (GCodeTempGradient_parse_gcode self) as [s1 | e]; [| exact Hbase].
    destruct Hbase as [-> Hlt]. split; [reflexivity | exact Hlt].
Qed.

(** Without a layer that starts above [min_z_change], [_parse_gcode], and
    [write] with it, raises [RuntimeError]. *)
Theorem low_program_raises round1 self :
  zmin self = None ->
  Forall (starts_low (min_z_change self)) (all_layers self) ->
  _parse_gcode self = Raise RuntimeError /\ write round1 self = Raise RuntimeError.
Proof.
  intros Hz Hlow.
  assert (Hscan : scan_zmin (min_z_change self) (zmin self) (all_layers self) = None).
  { rewrite Hz. rewrite <- (app_nil_r (all_layers self)).
    rewrite scan_zmin_low by exact Hlow. reflexivity. }
  assert (Hp : _parse_gcode self = Raise RuntimeError).
  { unfold _parse_gcode, GCodeTempGradient_parse_gcode. rewrite Hscan. simpl.
    destruct (class self); reflexivity. }
  split; [exact Hp |]. unfold write. rewrite Hp. reflexivity.
Qed.

(** ** The two gradients *)

(** After [_parse_gcode] the continuous gradient is the straight line from
    [start_temp] at [zmin] to [end_temp] at [zmax]: it takes these values
    at the two heights, stays between them in between, and no height makes
    it raise. *)
Theorem continuous_gradient_interpolates self d0 self' :
  class self = GCodeContinuousTempGradient d0 ->
  _parse_gcode self = Ret self' ->
  exists zm,
    zmin self' = Some zm /\ (zm < zmax self)%R
    /\ forall z, exists T,
         get_temp_for_current_layer (set_current_z self' (Some z)) = Ret T
         /\ (z = zm -> T = start_temp self)
         /\ (z = zmax self -> T = end_temp self)
         /\ ((zm <= z <= zmax self)%R ->
             (Rmin (start_temp self) (end_temp self) <= T
              <= Rmax (start_temp self) (end_temp self))%R).
Proof.
  intros Hc Hp.
  destruct (parse_gcode_keeps _ _ Hp) as [_ [Hzmax [Hs [He [_ [zm [Hz [Hlt [_ Hcls]]]]]]]]].
  rewrite Hc in Hcls. exists zm. split; [exact Hz |]. split; [exact Hlt |].
  intros z. unfold get_temp_for_current_layer. simpl. rewrite Hcls, Hz, Hs.
  eexists. split; [reflexivity |].
  set (s := start_temp self). set (e := end_temp self). set (zx := zmax self) in *.
  assert (Hd : (0 < zx - zm)%R) by lra.
  split; [intros ->; ring |]. split; [intros ->; field; lra |].
  intros Hin.
  set (t := ((z - zm) / (zx - zm))%R).
  assert (Ht : (0 <= t <= 1)%R).
  { unfold t. split.
    - apply Rmult_le_pos; [lra |]. apply Rlt_le, Rinv_0_lt_compat. exact Hd.
    - apply (Rmult_le_reg_r (zx - zm)); [exact Hd |].
      unfold Rdiv. rewrite Rmult_assoc, Rinv_l by lra. lra. }
  replace (s + (e - s) / (zx - zm) * (z - zm))%R with (s + t * (e - s))%R
    by (unfold t; field; lra).
  unfold Rmin, Rmax. destruct (Rle_dec s e); nra.
Qed.

Lemma int_floor (x : R) : (0 <= x)%R -> (IZR (int x) <= x < IZR (int x) + 1)%R.
Proof.
  intros Hx. unfold int. rewrite Rltb_false by exact Hx.
  destruct (base_Int_part x) as [H1 H2]. lra.
Qed.

Lemma int_IZR (n : Z) : 0 <= n -> int (IZR n) = n.
Proof.
  intros Hn. unfold int. rewrite Rltb_false by (apply IZR_le; exact Hn).
  symmetry. apply Int_part_spec. lra.
Qed.

(** The step gradient of [steps] steps, once built and parsed.  At a
    height [z] from [zmin] up to but not [zmax] the temperature is
    [start_temp] plus a whole number [j], at most [steps], of steps of
    [(end_temp - start_temp) / steps], or [end_temp] if that is higher: with
    [start_temp] above [end_temp] it lies between the two, but with
    [start_temp] below [end_temp] it is [end_temp] at all these heights.
    At [zmax] itself it is [end_temp] or one step beyond it, whichever is
    higher. *)
Theorem step_gradient_steps layers gzmax s e minz steps self self' zm :
  1 <= steps ->
  GCodeStepTempGradient__init__ layers gzmax s e minz steps = Ret self ->
  _parse_gcode self = Ret self' ->
  zmin self' = Some zm ->
  (forall z, (zm <= z < gzmax)%R ->
     exists j, 0 <= j <= steps
       /\ get_temp_for_current_layer (set_current_z self' (Some z))
          = Ret (Rmax e (s + IZR j * ((e - s) / IZR steps)))
       /\ (z = zm -> j = 0)
       /\ ((e <= s)%R -> (e <= Rmax e (s + IZR j * ((e - s) / IZR steps)) <= s)%R)
       /\ ((s <= e)%R -> Rmax e (s + IZR j * ((e - s) / IZR steps)) = e))
  /\ get_temp_for_current_layer (set_current_z self' (Some gzmax))
     = Ret (Rmax e (e + (e - s) / IZR steps)).
Proof.
  intros Hsteps Hinit Hp Hzm.
  unfold GCodeStepTempGradient__init__ in Hinit.
  destruct (Z.eqb_spec steps 0) as [-> | Hne]; [lia |]. injection Hinit as <-.
  destruct (parse_gcode_keeps _ _ Hp) as [_ [Hzmax [Hs [He [_ [zm' [Hz [Hlt [_ Hcls]]]]]]]]].
  simpl in Hzmax, Hs, He, Hlt, Hcls. rewrite Hzm in Hz. injection Hz as <-.
  assert (HS : (0 < IZR steps)%R) by (apply IZR_lt; lia).
  assert (HS1 : IZR (steps + 1) = (IZR steps + 1)%R) by (rewrite plus_IZR; reflexivity).
  assert (Hd : (0 < gzmax - zm)%R) by lra.
  assert (Hget : forall z,
            get_temp_for_current_layer (set_current_z self' (Some z))
            = Ret (Rmax e
                     (s + IZR (int ((z - zm) / (gzmax - zm) * IZR (steps + 1)))
                          / IZR (steps + 1) * (e + (e - s) / IZR steps - s)))).
  { intros z. unfold get_temp_for_current_layer. simpl. rewrite Hcls, Hzm, Hzmax, Hs, He.
    rewrite Reqb_false by lra.
    destruct (Z.eqb_spec (steps + 1) 0); [lia |]. reflexivity. }
  assert (Hstep : forall j : Z,
            (s + IZR j / IZR (steps + 1) * (e + (e - s) / IZR steps - s)
             = s + IZR j * ((e - s) / IZR steps))%R).
  { intros j. rewrite HS1. field. lra. }
  split.
  - intros z Hin.
    set (t := ((z - zm) / (gzmax - zm))%R).
    assert (Ht : (0 <= t < 1)%R).
    { unfold t. split.
      - apply Rmult_le_pos; [lra |]. apply Rlt_le, Rinv_0_lt_compat. exact Hd.
      - apply (Rmult_lt_reg_r (gzmax - zm)); [exact Hd |].
        unfold Rdiv. rewrite Rmult_assoc, Rinv_l by lra. lra. }
    set (x := (t * IZR (steps + 1))%R).
    assert (Hx : (0 <= x < IZR (steps + 1))%R).
    { unfold x. rewrite HS1. split; nra. }
    destruct (int_floor x (proj1 Hx)) as [Hf1 Hf2].
    set (j := int x) in *.
    assert (Hj : 0 <= j <= steps).
    { split.
      - apply le_IZR. assert (-1 < IZR j)%R by lra.
        apply lt_IZR in H. apply IZR_le. lia.
      - assert (IZR j < IZR (steps + 1))%R by lra. apply lt_IZR in H. lia. }
    exists j. split; [exact Hj |]. split.
    { rewrite Hget. fold t. fold x. fold j. rewrite Hstep. reflexivity. }
    assert (Hj0 : (0 <= IZR j)%R) by (apply IZR_le; lia).
    assert (Hjs : (IZR j <= IZR steps)%R) by (apply IZR_le; lia).
    assert (Hfrac : (0 <= IZR j / IZR steps <= 1)%R).
    { split.
      - apply Rmult_le_pos; [exact Hj0 |]. apply Rlt_le, Rinv_0_lt_compat. exact HS.
      - apply (Rmult_le_reg_r (IZR steps)); [exact HS |].
        unfold Rdiv. rewrite Rmult_assoc, Rinv_l by lra. lra. }
    replace (s + IZR j * ((e - s) / IZR steps))%R
      with (s + IZR j / IZR steps * (e - s))%R by (field; lra).
    split; [| split].
    + intros ->. unfold j, x, t.
      replace ((zm - zm) / (gzmax - zm) * IZR (steps + 1))%R with (IZR 0)
        by (simpl; field; lra).
      apply int_IZR. lia.
    + intros Hes. unfold Rmax. destruct (Rle_dec e _); nra.
    + intros Hse. unfold Rmax. destruct (Rle_dec e _) as [Hle | Hn]; [| reflexivity]. nra.
  - rewrite Hget.
    replace ((gzmax - zm) / (gzmax - zm) * IZR (steps + 1))%R with (IZR (steps + 1))
      by (field; lra).
    rewrite int_IZR by lia. f_equal. f_equal. rewrite HS1. field. lra.
Qed.

Lemma continuous_gradient_parsed :
  exists self', _parse_gcode continuous_gradient = Ret self'.
Proof.
  eexists. run_gradient. repeat (compare_step; run_gradient). reflexivity.
Qed.

(** What [write] prints for [continuous_gradient] holds the two lines of
    [two_layers]. *)
Lemma write_keeps_the_program_witness :
  exists out,
    write (fun x => x) continuous_gradient = Ret out
    /\ program_lines out = map raw (concat (all_layers continuous_gradient))
    /\ exists chunks,
         out = concat chunks /\ Forall2 printed_for (all_layers continuous_gradient) chunks.
Proof.
  assert (H : exists out, write (fun x => x) continuous_gradient = Ret out).
  { eexists. run_gradient. repeat (compare_step; run_gradient). reflexivity. }
  destruct H as [out H]. exists out. split; [exact H |].
  apply (write_keeps_the_program (fun x => x) continuous_gradient out H).
Defined.

(** ** Worked instances *)

(** On [sagging_layers] the least height of the gradient is 0.3, although
    the layer after it is at 0.2. *)
Lemma zmin_is_the_first_height_above_witness :
  match _parse_gcode sagging_gradient with
  | Ret self' => zmin self' = Some (3 / 10)%R /\ (3 / 10 < zmax sagging_gradient)%R
  | Raise e => e = RuntimeError /\ (zmax sagging_gradient <= 3 / 10)%R
  end.
Proof.
  apply (zmin_is_the_first_height_above sagging_gradient
           [ [ mkLine "G1 Z0.05" (Some (5 / 100)%R) ] ]
           (mkLine "G1 Z0.3" (Some (3 / 10)%R)) []
           [ [ mkLine "G1 Z0.2" (Some (2 / 10)%R) ] ] (3 / 10)).
  - reflexivity.
  - reflexivity.
  - constructor; [simpl; lra | constructor].
  - reflexivity.
  - simpl. lra.
Defined.

(** [low_gradient] stays below the least height 0.1. *)
Lemma low_program_raises_witness :
  _parse_gcode low_gradient = Raise RuntimeError
  /\ write (fun x => x) low_gradient = Raise RuntimeError.
Proof.
  apply (low_program_raises (fun x => x) low_gradient).
  - reflexivity.
  - constructor; [simpl; lra | constructor].
Defined.

(** On [two_layers] the continuous gradient runs from 200 at height 1 to
    250 at height 2. *)
Lemma continuous_gradient_interpolates_witness :
  exists self' zm,
    _parse_gcode continuous_gradient = Ret self'
    /\ zmin self' = Some zm /\ (zm < zmax continuous_gradient)%R
    /\ forall z, exists T,
         get_temp_for_current_layer (set_current_z self' (Some z)) = Ret T
         /\ (z = zm -> T = start_temp continuous_gradient)
         /\ (z = zmax continuous_gradient -> T = end_temp continuous_gradient)
         /\ ((zm <= z <= zmax continuous_gradient)%R ->
             (Rmin (start_temp continuous_gradient) (end_temp continuous_gradient) <= T
              <= Rmax (start_temp continuous_gradient) (end_temp continuous_gradient))%R).
Proof.
  destruct continuous_gradient_parsed as [self' H]. exists self'.
  destruct (continuous_gradient_interpolates continuous_gradient None self' eq_refl H)
    as [zm Hzm].
  exists zm. split; [exact H | exact Hzm].
Defined.

(** Ten steps from 250 down to 200 between the heights 1 and 2. *)
Lemma step_gradient_steps_witness :
  (forall z, (1 <= z < 2)%R ->
     exists j, 0 <= j <= 10
       /\ get_temp_for_current_layer
            (set_current_z (set_zmin step_gradient (Some 1%R)) (Some z))
          = Ret (Rmax 200 (250 + IZR j * ((200 - 250) / IZR 10)))
       /\ (z = 1%R -> j = 0)
       /\ ((200 <= 250)%R ->
           (200 <= Rmax 200 (250 + IZR j * ((200 - 250) / IZR 10)) <= 250)%R)
       /\ ((250 <= 200)%R -> Rmax 200 (250 + IZR j * ((200 - 250) / IZR 10)) = 200%R))
  /\ get_temp_for_current_layer
       (set_current_z (set_zmin step_gradient (Some 1%R)) (Some 2%R))
     = Ret (Rmax 200 (200 + (200 - 250) / IZR 10)).
Proof.
  apply (step_gradient_steps two_layers 2 250 200 (1 / 10) 10 step_gradient
           (set_zmin step_gradient (Some 1%R)) 1).
  - lia.
  - reflexivity.
  - run_gradient. repeat (compare_step; run_gradient). reflexivity.
  - reflexivity.
Defined.
